(** * Provisioning of the coordinator instance: [cmd/coordinator/buildongce]

    A shallow embedding of [create.go].  The program is one sequential run
    that reads command-line flags, acquires a credential, resolves the
    external address and the boot disk, renders the cloud-config user data,
    submits an instance-insert request and polls the resulting operation.

    Effects are explicit: a run threads a [State] (the flag variables, the
    local files, standard input and a chronological trace of observable
    events) and ends in an [Outcome].  Three pieces of the Go library decide
    what the run reads and keeps, and are followed in detail: the line
    scanner of [bufio], the text that [encoding/json] writes and reads for a
    token, and the text form of a [time.Time].  Whatever else lies outside
    the repository (the rest of the library, the oauth2 and compute
    packages, the answers of the provider) is an argument of the
    development: the records [GoLib] and [World]. *)

From Stdlib Require Import ZArith String Ascii List Lia.
From stdpp Require Import base gmap strings list.

Local Open Scope string_scope.
Local Open Scope list_scope.

(** ** Strings as Go has them: byte sequences *)

(** Go's [len(s)]: the number of bytes, as an [int]. *)
Fixpoint len (s : string) : Z :=
  match s with
  | EmptyString => 0
  | String _ s' => 1 + len s'
  end%Z.

(** [strings.HasPrefix(s, p)]. *)
Fixpoint HasPrefix (s p : string) : bool :=
  match p, s with
  | EmptyString, _ => true
  | String _ _, EmptyString => false
  | String b p', String a s' => Ascii.eqb a b && HasPrefix s' p'
  end.

(** [strings.Replace(s, old, new, n)] for a non-empty [old] and [n >= 0]: the
    first [n] non-overlapping occurrences of [old] are replaced by [new].
    [skip] counts the bytes of a matched occurrence still to be passed over. *)
Fixpoint Replace_from (old new : string) (n skip : nat) (s : string) : string :=
  match s with
  | EmptyString => EmptyString
  | String a s' =>
      match skip with
      | S k => Replace_from old new n k s'
      | O =>
          match n with
          | O => s
          | S n' =>
              if HasPrefix s old
              then new +:+ Replace_from old new n' (String.length old - 1) s'
              else String a (Replace_from old new n skip s')
          end
      end
  end.

Definition Replace (s old new : string) (n : nat) : string :=
  Replace_from old new n 0 s.

(** [fmt.Sprintf("\nssh_authorized_keys:\n    - %s\n", key)]. *)
Definition Sprintf_ssh_authorized_keys (key : string) : string :=
  "
ssh_authorized_keys:
    - " +:+ key +:+ "
".

(** ** The text encodings of the Go library

    [encoding/json] writes and reads a token as text.  What it does to the
    strings of a token and to its expiry is followed here byte by byte. *)

(** A byte as a number, and back. *)
Definition byte (a : ascii) : Z := Z.of_N (N_of_ascii a).

Definition ascii_of_Z (z : Z) : ascii := ascii_of_N (Z.to_N z).

Module utf8.

Definition RuneError : Z := 65533.

(** [utf8.DecodeRuneInString(s)]: the first rune of [s] and its width in
    bytes; [(RuneError, 1)] for a byte that begins no well-formed
    encoding, [(RuneError, 0)] for the empty string. *)
Definition DecodeRuneInString (s : string) : Z * Z :=
  match s with
  | EmptyString => (RuneError, 0)
  | String a0 s1 =>
      let c0 := byte a0 in
      if c0 <? 128 then (c0, 1)
      else if c0 <? 192 then (RuneError, 1)
      else
        match s1 with
        | EmptyString => (RuneError, 1)
        | String a1 s2 =>
            let c1 := byte a1 in
            if (c1 <? 128) || (192 <=? c1) then (RuneError, 1)
            else if c0 <? 224 then
              let r := Z.lor (Z.shiftl (Z.land c0 31) 6) (Z.land c1 63) in
              if r <=? 127 then (RuneError, 1) else (r, 2)
            else
              match s2 with
              | EmptyString => (RuneError, 1)
              | String a2 s3 =>
                  let c2 := byte a2 in
                  if (c2 <? 128) || (192 <=? c2) then (RuneError, 1)
                  else if c0 <? 240 then
                    let r := Z.lor (Z.lor (Z.shiftl (Z.land c0 15) 12)
                                      (Z.shiftl (Z.land c1 63) 6))
                               (Z.land c2 63) in
                    if r <=? 2047 then (RuneError, 1)
                    else if (55296 <=? r) && (r <=? 57343) then (RuneError, 1)
                    else (r, 3)
                  else
                    match s3 with
                    | EmptyString => (RuneError, 1)
                    | String a3 s4 =>
                        let c3 := byte a3 in
                        if (c3 <? 128) || (192 <=? c3) then (RuneError, 1)
                        else if c0 <? 248 then
                          let r := Z.lor (Z.lor (Z.lor (Z.shiftl (Z.land c0 7) 18)
                                                   (Z.shiftl (Z.land c1 63) 12))
                                            (Z.shiftl (Z.land c2 63) 6))
                                     (Z.land c3 63) in
                          if (r <=? 65535) || (1114111 <? r) then (RuneError, 1)
                          else (r, 4)
                        else (RuneError, 1)
                    end
              end
        end
  end%Z.

(** [utf8.EncodeRune] for a rune below U+10000 that is no surrogate. *)
Definition EncodeRune (r : Z) : string :=
  if (r <=? 127)%Z then String (ascii_of_Z r) ""
  else if (r <=? 2047)%Z then
    String (ascii_of_Z (Z.lor 192 (Z.shiftr r 6)))
      (String (ascii_of_Z (Z.lor 128 (Z.land r 63))) "")
  else
    String (ascii_of_Z (Z.lor 224 (Z.shiftr r 12)))
      (String (ascii_of_Z (Z.lor 128 (Z.land (Z.shiftr r 6) 63)))
         (String (ascii_of_Z (Z.lor 128 (Z.land r 63))) "")).


End utf8.

Definition dquote : ascii := "034"%char.
Definition backslash : ascii := "092"%char.

Module json.

(** [hex[n]] of [const hex = "0123456789abcdef"]. *)
Definition hex (n : Z) : ascii :=
  if (n <? 10)%Z then ascii_of_Z (48 + n) else ascii_of_Z (87 + n).

(** What the encoder writes for a byte below 0x80: itself, or its escape.
    Backslash and the quote are escaped by a backslash, line feed, carriage
    return and tab by their letter, the other control characters and the
    three characters the encoder hides from HTML by their code point.
    [short_b_f] says whether backspace and form feed have their letter
    too, as from Go 1.22 on. *)
Definition escape (short_b_f : bool) (a : ascii) : string :=
  let b := byte a in
  if (32 <=? b)%Z && negb (b =? 92)%Z && negb (b =? 34)%Z
     && negb (b =? 60)%Z && negb (b =? 62)%Z && negb (b =? 38)%Z
  then String a ""
  else if (b =? 92)%Z || (b =? 34)%Z then String backslash (String a "")
  else if (b =? 10)%Z then String backslash "n"
  else if (b =? 13)%Z then String backslash "r"
  else if (b =? 9)%Z then String backslash "t"
  else if short_b_f && (b =? 8)%Z then String backslash "b"
  else if short_b_f && (b =? 12)%Z then String backslash "f"
  else String backslash
         ("u00" +:+ String (hex (Z.shiftr b 4)) (String (hex (Z.land b 15)) "")).

(** The body of [encodeState.string(s)], between the quotes.  A byte that
    begins no well-formed encoding is written as the escape of U+FFFD,
    U+2028 and U+2029 as their escapes, every other rune as it is. *)
Fixpoint stringBody (short_b_f : bool) (s : string) : string :=
  match s with
  | EmptyString => ""
  | String a0 s1 =>
      if (byte a0 <? 128)%Z then escape short_b_f a0 +:+ stringBody short_b_f s1
      else
        let '(c, size) := utf8.DecodeRuneInString s in
        if (c =? utf8.RuneError)%Z && (size =? 1)%Z
        then String backslash "ufffd" +:+ stringBody short_b_f s1
        else
          let out (raw : string) :=
            if (c =? 8232)%Z || (c =? 8233)%Z
            then String backslash ("u202" +:+ String (hex (Z.land c 15)) "")
            else raw in
          match size, s1 with
          | 2%Z, String a1 s2 =>
              out (String a0 (String a1 "")) +:+ stringBody short_b_f s2
          | 3%Z, String a1 (String a2 s3) =>
              out (String a0 (String a1 (String a2 ""))) +:+ stringBody short_b_f s3
          | 4%Z, String a1 (String a2 (String a3 s4)) =>
              out (String a0 (String a1 (String a2 (String a3 ""))))
              +:+ stringBody short_b_f s4
          | _, _ => stringBody short_b_f s1
          end
  end.

(** [encodeState.string(s)]. *)
Definition string (short_b_f : bool) (s : String.string) : String.string :=
  String dquote (stringBody short_b_f s +:+ String dquote "").

(** The value of a hexadecimal digit. *)
Definition unhex (a : ascii) : option Z :=
  let b := byte a in
  if (48 <=? b)%Z && (b <=? 57)%Z then Some (b - 48)%Z
  else if (97 <=? b)%Z && (b <=? 102)%Z then Some (b - 87)%Z
  else if (65 <=? b)%Z && (b <=? 70)%Z then Some (b - 55)%Z
  else None.

(** [getu4]: the number of the four hexadecimal digits of a [\u] escape. *)
Definition getu4 (h1 h2 h3 h4 : ascii) : option Z :=
  match unhex h1, unhex h2, unhex h3, unhex h4 with
  | Some d1, Some d2, Some d3, Some d4 => Some (((d1 * 16 + d2) * 16 + d3) * 16 + d4)%Z
  | _, _, _, _ => None
  end.

Definition prepend (p : String.string) (r : option (String.string * String.string))
  : option (String.string * String.string) :=
  match r with
  | Some (d, rest) => Some (p +:+ d, rest)
  | None => None
  end.

(** [unquote] on the text after an opening quote: the string the literal
    stands for and the text after its closing quote.  [None] where the
    literal is not well formed, and also where the decoder would have to
    repair it (an ill-formed byte, a surrogate escape): those texts are not
    decided here. *)
Fixpoint unquoteBody (s : String.string) : option (String.string * String.string) :=
  match s with
  | EmptyString => None
  | String a0 s1 =>
      let b := byte a0 in
      if (b =? 34)%Z then Some ("", s1)
      else if (b =? 92)%Z then
        match s1 with
        | EmptyString => None
        | String e s2 =>
            let c := byte e in
            if (c =? 34)%Z || (c =? 92)%Z || (c =? 47)%Z
            then prepend (String e "") (unquoteBody s2)
            else if (c =? 98)%Z then prepend (String "008"%char "") (unquoteBody s2)
            else if (c =? 102)%Z then prepend (String "012"%char "") (unquoteBody s2)
            else if (c =? 110)%Z then prepend (String "010"%char "") (unquoteBody s2)
            else if (c =? 114)%Z then prepend (String "013"%char "") (unquoteBody s2)
            else if (c =? 116)%Z then prepend (String "009"%char "") (unquoteBody s2)
            else if (c =? 117)%Z then
              match s2 with
              | String h1 (String h2 (String h3 (String h4 s6))) =>
                  match getu4 h1 h2 h3 h4 with
                  | Some rr =>
                      if (55296 <=? rr)%Z && (rr <=? 57343)%Z then None
                      else prepend (utf8.EncodeRune rr) (unquoteBody s6)
                  | None => None
                  end
              | _ => None
              end
            else None
        end
      else if (b <? 32)%Z then None
      else if (b <? 128)%Z then prepend (String a0 "") (unquoteBody s1)
      else
        let '(c, size) := utf8.DecodeRuneInString s in
        if (c =? utf8.RuneError)%Z && (size =? 1)%Z then None
        else
          match size, s1 with
          | 2%Z, String a1 s2 =>
              prepend (String a0 (String a1 "")) (unquoteBody s2)
          | 3%Z, String a1 (String a2 s3) =>
              prepend (String a0 (String a1 (String a2 ""))) (unquoteBody s3)
          | 4%Z, String a1 (String a2 (String a3 s4)) =>
              prepend (String a0 (String a1 (String a2 (String a3 "")))) (unquoteBody s4)
          | _, _ => None
          end
  end.

End json.

Module time.

(** [time.Time] as its text form shows it: the calendar date and clock
    reading in the value's own zone, and the offset of that zone from UTC in
    seconds. *)
Record Time := {
  year : Z;
  month : Z;
  day : Z;
  hour : Z;
  minute : Z;
  second : Z;
  nanosecond : Z;
  offset : Z
}.

(** The zero [Time]: January 1, year 1, 00:00:00 UTC. *)
Definition zero : Time := {|
  year := 1; month := 1; day := 1; hour := 0; minute := 0; second := 0;
  nanosecond := 0; offset := 0
|}.

Definition isLeap (y : Z) : bool :=
  ((y mod 4 =? 0) && (negb (y mod 100 =? 0) || (y mod 400 =? 0)))%Z.

Definition daysIn (m y : Z) : Z :=
  if (m =? 2)%Z then (if isLeap y then 29 else 28)%Z
  else if ((m =? 4) || (m =? 6) || (m =? 9) || (m =? 11))%Z then 30%Z
  else 31%Z.

(** The readings a [Time] can have. *)
Definition wellFormed (t : Time) : bool :=
  ((1 <=? month t) && (month t <=? 12)
   && (1 <=? day t) && (day t <=? daysIn (month t) (year t))
   && (0 <=? hour t) && (hour t <? 24)
   && (0 <=? minute t) && (minute t <? 60)
   && (0 <=? second t) && (second t <? 60)
   && (0 <=? nanosecond t) && (nanosecond t <? 1000000000))%Z.

Definition digit (d : Z) : ascii := ascii_of_Z (48 + d).

(** The decimal digits of [u >= 0], before [acc]; at most 20 of them, the
    size of the buffer in [appendInt]. *)
Fixpoint decimal (fuel : nat) (u : Z) (acc : string) : string :=
  match fuel with
  | O => acc
  | S k =>
      let acc' := String (digit (u mod 10)) acc in
      if (u <? 10)%Z then acc' else decimal k (u / 10) acc'
  end.

Fixpoint zeros (n : nat) : string :=
  match n with
  | O => ""
  | S k => String "0" (zeros k)
  end.

(** [appendInt(b, x, width)]. *)
Definition appendInt (x : Z) (width : nat) : string :=
  let digits := decimal 20 (Z.abs x) "" in
  (if (x <? 0)%Z then "-" else "")
  +:+ zeros (width - String.length digits) +:+ digits.

(** The nine digits of the nanoseconds, the last one first. *)
Fixpoint digitsRev (k : nat) (u : Z) : list Z :=
  match k with
  | O => []
  | S k' => (u mod 10)%Z :: digitsRev k' (u / 10)
  end.

Fixpoint dropZeros (l : list Z) : list Z :=
  match l with
  | d :: l' => if (d =? 0)%Z then dropZeros l' else l
  | [] => []
  end.

Fixpoint digitString (l : list Z) : string :=
  match l with
  | [] => ""
  | d :: l' => String (digit d) (digitString l')
  end.

(** [formatNano(b, nanosec, 9, true)]: the fraction of the second without
    its trailing zeros, or nothing when it is zero. *)
Definition formatNano (nanosec : Z) : string :=
  match rev (dropZeros (digitsRev 9 nanosec)) with
  | [] => ""
  | ds => String "." (digitString ds)
  end.

(** The zone in the layout [Z07:00]. *)
Definition formatZone (offset : Z) : string :=
  if (offset =? 0)%Z then "Z"
  else
    let zone := Z.quot offset 60 in
    (if (zone <? 0)%Z then "-" else "+")
    +:+ appendInt (Z.abs zone / 60) 2 +:+ ":" +:+ appendInt (Z.abs zone mod 60) 2.

(** [t.Format(RFC3339Nano)]. *)
Definition formatRFC3339Nano (t : Time) : string :=
  appendInt (year t) 4 +:+ "-" +:+ appendInt (month t) 2 +:+ "-"
  +:+ appendInt (day t) 2 +:+ "T" +:+ appendInt (hour t) 2 +:+ ":"
  +:+ appendInt (minute t) 2 +:+ ":" +:+ appendInt (second t) 2
  +:+ formatNano (nanosecond t) +:+ formatZone (offset t).

(** [t.MarshalJSON()]: the quoted RFC 3339 text, or the error for a year
    that has not four digits. *)
Definition MarshalJSON (t : Time) : option string :=
  if ((year t <? 0) || (10000 <=? year t))%Z then None
  else Some (String dquote (formatRFC3339Nano t +:+ String dquote "")).

(** *** Reading the text back *)

Definition digitVal (a : ascii) : option Z :=
  let b := byte a in
  if ((48 <=? b) && (b <=? 57))%Z then Some (b - 48)%Z else None.

Definition read2 (s : string) : option (Z * string) :=
  match s with
  | String a (String b rest) =>
      match digitVal a, digitVal b with
      | Some x, Some y => Some ((x * 10 + y)%Z, rest)
      | _, _ => None
      end
  | _ => None
  end.

Definition read4 (s : string) : option (Z * string) :=
  match read2 s with
  | Some (hi, s') =>
      match read2 s' with
      | Some (lo, rest) => Some ((hi * 100 + lo)%Z, rest)
      | None => None
      end
  | None => None
  end.

(** The longest run of digits at the head of [s], and what follows it. *)
Fixpoint readDigits (s : string) : list Z * string :=
  match s with
  | EmptyString => ([], "")
  | String a s' =>
      match digitVal a with
      | Some d => let '(ds, rest) := readDigits s' in (d :: ds, rest)
      | None => ([], s)
      end
  end.

Definition expect (a : ascii) (s : string) : option string :=
  match s with
  | String b rest => if Ascii.eqb a b then Some rest else None
  | EmptyString => None
  end.

(** A fraction of a second: a point and one to nine digits. *)
Definition readNano (s : string) : option (Z * string) :=
  match s with
  | String "." s' =>
      let '(ds, rest) := readDigits s' in
      let k := length ds in
      if ((1 <=? k) && (k <=? 9))%nat
      then Some ((fold_left (fun acc d => acc * 10 + d) ds 0 * 10 ^ Z.of_nat (9 - k))%Z, rest)
      else None
  | _ => Some (0%Z, s)
  end.

(** A zone: [Z], or a sign, two digits of hours, a colon and two digits of
    minutes. *)
Definition readZone (s : string) : option (Z * string) :=
  match s with
  | String "Z" rest => Some (0%Z, rest)
  | String sign s' =>
      if Ascii.eqb sign "+" || Ascii.eqb sign "-" then
        match read2 s' with
        | Some (hh, s2) =>
            match expect ":" s2 with
            | Some s3 =>
                match read2 s3 with
                | Some (mm, rest) =>
                    if ((hh <=? 23) && (mm <=? 59))%Z then
                      let o := ((hh * 60 + mm) * 60)%Z in
                      Some (if Ascii.eqb sign "-" then (- o)%Z else o, rest)
                    else None
                | None => None
                end
            | None => None
            end
        | None => None
        end
      else None
  | EmptyString => None
  end.

(** [Parse(RFC3339, s)] on a text of the exact shape
    [2006-01-02T15:04:05(.fraction)(Z|+hh:mm)] whose numbers are in range:
    the [Time] with that reading, and what follows the text.  Other texts
    are not decided here. *)
Definition parseRFC3339 (s : string) : option (Time * string) :=
  match read4 s with
  | Some (y, s1) =>
  match expect "-" s1 with
  | Some s2 =>
  match read2 s2 with
  | Some (mo, s3) =>
  match expect "-" s3 with
  | Some s4 =>
  match read2 s4 with
  | Some (d, s5) =>
  match expect "T" s5 with
  | Some s6 =>
  match read2 s6 with
  | Some (h, s7) =>
  match expect ":" s7 with
  | Some s8 =>
  match read2 s8 with
  | Some (mi, s9) =>
  match expect ":" s9 with
  | Some s10 =>
  match read2 s10 with
  | Some (sec, s11) =>
  match readNano s11 with
  | Some (ns, s12) =>
  match readZone s12 with
  | Some (off, rest) =>
      let t := {| year := y; month := mo; day := d; hour := h; minute := mi;
                  second := sec; nanosecond := ns; offset := off |} in
      if wellFormed t then Some (t, rest) else None
  | None => None end
  | None => None end
  | None => None end
  | None => None end
  | None => None end
  | None => None end
  | None => None end
  | None => None end
  | None => None end
  | None => None end
  | None => None end
  | None => None end
  | None => None end.

(** [t.UnmarshalJSON] on the text after an opening quote, up to the closing
    quote. *)
Definition parseJSON (s : string) : option (Time * string) :=
  match parseRFC3339 s with
  | Some (t, s') =>
      match expect dquote s' with
      | Some rest => Some (t, rest)
      | None => None
      end
  | None => None
  end.

End time.

(** ** Standard input as [bufio.Scanner] takes it *)

(** [s[:n]] and [s[n:]]. *)
Fixpoint takeBytes (n : Z) (s : string) : string :=
  match s with
  | EmptyString => EmptyString
  | String a s' => if (n <=? 0)%Z then EmptyString else String a (takeBytes (n - 1) s')
  end.

Fixpoint dropBytes (n : Z) (s : string) : string :=
  match s with
  | EmptyString => EmptyString
  | String a s' => if (n <=? 0)%Z then s else dropBytes (n - 1) s'
  end.

(** [bytes.IndexByte(data, '\n')], [None] for -1. *)
Fixpoint IndexNewline (s : string) : option Z :=
  match s with
  | EmptyString => None
  | String a s' =>
      if Ascii.eqb a "010"%char then Some 0%Z
      else match IndexNewline s' with
           | Some i => Some (i + 1)%Z
           | None => None
           end
  end.

(** [dropCR] of [bufio.ScanLines]: the data without one final carriage
    return. *)
Fixpoint dropCR (s : string) : string :=
  match s with
  | EmptyString => EmptyString
  | String a s' =>
      match s' with
      | EmptyString => if Ascii.eqb a "013"%char then EmptyString else s
      | String _ _ => String a (dropCR s')
      end
  end.

(** [bufio.MaxScanTokenSize]. *)
Definition MaxScanTokenSize : Z := 65536.

(** The size of the scanner's buffer when it first holds the byte at index
    [i]: the buffer starts at 4096 bytes and is doubled, up to
    [MaxScanTokenSize], each time it is full without a line end in it. *)
Definition bufferHolding (i : Z) : Z :=
  if (i <? 4096)%Z then 4096%Z
  else if (i <? 8192)%Z then 8192%Z
  else if (i <? 16384)%Z then 16384%Z
  else if (i <? 32768)%Z then 32768%Z
  else 65536%Z.

(** [sc.Scan(); sc.Text()] on a new [bufio.Scanner] over an input that
    holds [input] up to its end.  The text is the first line without its
    end (a line feed, after an optional carriage return), or all of an
    input that has no line feed; it is empty at the end of input, and also
    when the first [MaxScanTokenSize] bytes hold no line feed, where [Scan]
    fails. *)
Definition Scan_token (input : string) : string :=
  match IndexNewline input with
  | Some i =>
      if (i <? MaxScanTokenSize)%Z then dropCR (takeBytes i input) else EmptyString
  | None =>
      if (len input <? MaxScanTokenSize)%Z then dropCR input else EmptyString
  end.

(** The number of bytes that [Scan] takes off the input.  The scanner reads
    in blocks: beyond the end of the line it takes [readAhead] further
    bytes, as far as the input and its buffer have them.  Without a line
    feed it reads to the end of the input, or until the buffer is full at
    its largest size. *)
Definition Scan_consumed (readAhead : Z) (input : string) : Z :=
  match IndexNewline input with
  | Some i =>
      if (i <? MaxScanTokenSize)%Z then
        (i + 1 + Z.max 0 (Z.min readAhead
                            (Z.min (len input) (bufferHolding i) - (i + 1))))%Z
      else MaxScanTokenSize
  | None =>
      if (len input <? MaxScanTokenSize)%Z then len input else MaxScanTokenSize
  end.

(** ** Data of the consumed packages *)

(** A Go [error] value, kept by its message. *)
Definition error := string.

Module oauth2.

(** [oauth2.Token]: four exported fields, which [encoding/json] sees, and
    the unexported [raw]. *)
Record Token := {
  AccessToken : string;
  TokenType : string;
  RefreshToken : string;
  Expiry : time.Time;
  raw : option string
}.

Record Endpoint := { AuthURL : string; TokenURL : string }.

Record Config := {
  ClientID : string;
  ClientSecret : string;
  Endpoint_ : Endpoint;
  Scopes : list string;
  RedirectURL : string
}.

End oauth2.

(** ** [encoding/json] on an [oauth2.Token] *)

(** The name of an object member, quoted, and its colon. *)
Definition key (name : string) : string := String dquote (name +:+ String dquote ":").

(** A member with a string value. *)
Definition member (short_b_f : bool) (name value : string) : string :=
  key name +:+ json.string short_b_f value.

(** A further member tagged [omitempty]: left out when the string is
    empty. *)
Definition omitempty (short_b_f : bool) (name value : string) : string :=
  if value =? "" then "" else "," +:+ member short_b_f name value.

Definition MarshalerError : error :=
  "json: error calling MarshalJSON for type time.Time: Time.MarshalJSON: year outside of range [0,9999]".

(** [json.Marshal(t)] for [t *oauth2.Token]: the members in the order of
    the struct fields. *)
Definition Marshal_Token (short_b_f : bool) (t : oauth2.Token) : error + string :=
  match time.MarshalJSON (oauth2.Expiry t) with
  | None => inl MarshalerError
  | Some expiry =>
      inr ("{" +:+ member short_b_f "access_token" (oauth2.AccessToken t)
           +:+ omitempty short_b_f "token_type" (oauth2.TokenType t)
           +:+ omitempty short_b_f "refresh_token" (oauth2.RefreshToken t)
           +:+ "," +:+ key "expiry" +:+ expiry +:+ "}")
  end.

(** [s] without its prefix [p]. *)
Fixpoint stripPrefix (p s : string) : option string :=
  match p, s with
  | EmptyString, _ => Some s
  | String a p', String b s' => if Ascii.eqb a b then stripPrefix p' s' else None
  | String _ _, EmptyString => None
  end.

(** A member tagged [omitempty], when it is there. *)
Definition optionalString (name s : string) : option (string * string) :=
  match stripPrefix ("," +:+ key name +:+ String dquote "") s with
  | Some s' => json.unquoteBody s'
  | None => Some ("", s)
  end.

(** [json.Unmarshal(data, t)] into a fresh [oauth2.Token], on the texts of
    the form [json.Marshal] writes for a token: the members in the order of
    the fields, no white space, string literals that need no repair and an
    expiry in the exact RFC 3339 shape.  Other texts are not decided here. *)
Definition Unmarshal_Token (data : string) : option oauth2.Token :=
  match stripPrefix ("{" +:+ key "access_token" +:+ String dquote "") data with
  | Some s0 =>
  match json.unquoteBody s0 with
  | Some (accessToken, s1) =>
  match optionalString "token_type" s1 with
  | Some (tokenType, s2) =>
  match optionalString "refresh_token" s2 with
  | Some (refreshToken, s3) =>
  match stripPrefix ("," +:+ key "expiry" +:+ String dquote "") s3 with
  | Some s4 =>
  match time.parseJSON s4 with
  | Some (expiry, s5) =>
      if s5 =? "}" then
        Some {| oauth2.AccessToken := accessToken;
                oauth2.TokenType := tokenType;
                oauth2.RefreshToken := refreshToken;
                oauth2.Expiry := expiry;
                oauth2.raw := None |}
      else None
  | None => None end
  | None => None end
  | None => None end
  | None => None end
  | None => None end
  | None => None end.

(** [type tokenCacheFile string]. *)
Definition tokenCacheFile := string.

(** The token sources the program handles; a nil interface is [None] of
    [option TokenSource]. *)
Inductive TokenSource :=
| ApplicationDefault (id : string)
| reuseTokenSource (t : option oauth2.Token) (new : option tokenCacheFile).

Module compute.

Module Address.
Record t := { Name : string; Status : string; Address : string }.
End Address.

Module AddressesScopedList.
Record t := { Addresses : list Address.t }.
End AddressesScopedList.

Module Disk.
Record t := { Name : string; SelfLink : string }.
End Disk.

Module AttachedDiskInitializeParams.
Record t := {
  DiskName : string;
  SourceImage : string;
  DiskSizeGb : Z;
  DiskType : string
}.
End AttachedDiskInitializeParams.

Module AttachedDisk.
Record t := {
  AutoDelete : bool;
  Boot : bool;
  DeviceName : string;
  Type_ : string;
  Source : string;
  Mode : string;
  InitializeParams : option AttachedDiskInitializeParams.t
}.
End AttachedDisk.

Module MetadataItems.
Record t := { Key : string; Value : option string }.
End MetadataItems.

Module AccessConfig.
Record t := { Type_ : string; Name : string; NatIP : string }.
End AccessConfig.

Module NetworkInterface.
Record t := { AccessConfigs : list AccessConfig.t; Network : string }.
End NetworkInterface.

Module ServiceAccount.
Record t := { Email : string; Scopes : list string }.
End ServiceAccount.

Module Instance.
Record t := {
  Name : string;
  Description : string;
  MachineType : string;
  Disks : list AttachedDisk.t;
  Tags : option (list string);
  Metadata : option (list MetadataItems.t);
  NetworkInterfaces : list NetworkInterface.t;
  ServiceAccounts : list ServiceAccount.t
}.
End Instance.

Module OperationErrorErrors.
Record t := { Code : string; Location : string; Message : string }.
End OperationErrorErrors.

Module OperationError.
Record t := { Errors : list OperationErrorErrors.t }.
End OperationError.

Module Operation.
Record t := {
  Name : string;
  Status : string;
  Error : option OperationError.t
}.
End Operation.

(** [*compute.Service]: the HTTP client it was built on, that is the token
    source handed to [oauth2.NewClient] (nil: no credential attached). *)
Record Service := { client : option TokenSource }.

End compute.

(** ** Flags *)

Record Flags := {
  proj : string;
  zone : string;
  mach : string;
  instName : string;
  sshPub : string;
  staticIP : string;
  reuseDisk : bool;
  ssd : bool;
  coordinator : string;
  staging : bool
}.

(** The values of the flag variables when no option is given. *)
Definition defaultFlags : Flags := {|
  proj := "symbolic-datum-552";
  zone := "us-central1-f";
  mach := "n1-standard-4";
  instName := "farmer";
  sshPub := "";
  staticIP := "";
  reuseDisk := true;
  ssd := true;
  coordinator := "https://storage.googleapis.com/go-builder-data/coordinator";
  staging := false
|}.

Definition set_proj (v : string) (f : Flags) : Flags :=
  {| proj := v; zone := zone f; mach := mach f; instName := instName f;
     sshPub := sshPub f; staticIP := staticIP f; reuseDisk := reuseDisk f;
     ssd := ssd f; coordinator := coordinator f; staging := staging f |}.

Definition set_coordinator (v : string) (f : Flags) : Flags :=
  {| proj := proj f; zone := zone f; mach := mach f; instName := instName f;
     sshPub := sshPub f; staticIP := staticIP f; reuseDisk := reuseDisk f;
     ssd := ssd f; coordinator := v; staging := staging f |}.

Definition set_staticIP (v : string) (f : Flags) : Flags :=
  {| proj := proj f; zone := zone f; mach := mach f; instName := instName f;
     sshPub := sshPub f; staticIP := v; reuseDisk := reuseDisk f;
     ssd := ssd f; coordinator := coordinator f; staging := staging f |}.

Definition baseConfig : string :=
  "#cloud-config
coreos:
  update:
    group: stable
    reboot-strategy: off
  units:
    - name: gobuild.service
      command: start
      content: |
        [Unit]
        Description=Go Builders
        After=docker.service
        Requires=docker.service
        
        [Service]
        ExecStartPre=/bin/bash -c 'mkdir -p /opt/bin && curl -s -o /opt/bin/coordinator.tmp $COORDINATOR && install -m 0755 /opt/bin/coordinator{.tmp,}'
        ExecStart=/opt/bin/coordinator
        RestartSec=10s
        Restart=always
        StartLimitInterval=0
        Type=simple
        
        [Install]
        WantedBy=multi-user.target
".

(** ** Observable events and outcomes of a run *)

(** One constructor per [log.Printf] call site, holding its arguments. *)
Inductive LogMsg :=
| Log_ErrorGettingToken (tokenFileName : string) (err : error)
| Log_GetAuthCode (url : string)
| Log_CreatingInstance
| Log_CreatedWaiting (opName : string)
| Log_Waiting (opName : string)
| Log_Error (operr : compute.OperationErrorErrors.t)
| Log_Success (op : compute.Operation.t)
| Log_Instance (inst : compute.Instance.t).

(** One constructor per [log.Fatalf] / [log.Fatal] call site. *)
Inductive FatalMsg :=
| Fatal_ReadFile (v : string) (err : error)
| Fatal_MissingProject
| Fatal_AggregatedList (err : error)
| Fatal_CloudConfigTooLong (length limit : Z)
| Fatal_CreateInstance (err : error)
| Fatal_GetOp (opName : string) (err : error)
| Fatal_FailedToStart
| Fatal_UnknownStatus (status : string) (op : compute.Operation.t)
| Fatal_GetInstance (err : error)
| Fatal_Exchange (err : error)
| Fatal_WriteToken (tokenFileName : string) (err : error)
| Fatal_ListDisks (err : error).

(** Requests that leave the process. *)
Inductive Call :=
| Call_Exchange (authCode : string)
| Call_AddressesAggregatedList (svc : compute.Service) (project : string)
| Call_DisksList (svc : compute.Service) (project zone : string)
| Call_InstancesInsert (svc : compute.Service) (project zone : string)
    (instance : compute.Instance.t)
| Call_ZoneOperationsGet (svc : compute.Service) (project zone opName : string)
| Call_InstancesGet (svc : compute.Service) (project zone name : string).

Inductive Event :=
| EvLog (m : LogMsg)
| EvPrint (s : string)
| EvSleep (seconds : Z)
| EvCall (c : Call).

Record State := {
  flags : Flags;
  files : gmap string string;
  stdin : string;
  trace : list Event
}.

(** How a computation ends: it returns, or the process exits through
    [log.Fatalf], or (in the poll loop only) the answers recorded for the run
    are used up while the loop is still polling. *)
Inductive Outcome (A : Type) : Type :=
| Ret (a : A)
| Exit (m : FatalMsg)
| Waiting.
Arguments Ret {A} a.
Arguments Exit {A} m.
Arguments Waiting {A}.

Definition M (A : Type) : Type := State -> Outcome A * State.

Definition ret {A} (a : A) : M A := fun st => (Ret a, st).

Definition bind {A B} (m : M A) (k : A -> M B) : M B :=
  fun st =>
    match m st with
    | (Ret a, st') => k a st'
    | (Exit msg, st') => (Exit msg, st')
    | (Waiting, st') => (Waiting, st')
    end.

Notation "'let*' x ':=' m 'in' k" := (bind m (fun x => k))
  (at level 10, x name, m at level 100, k at level 200).

Definition fatal {A} (m : FatalMsg) : M A := fun st => (Exit m, st).

Definition waiting {A} : M A := fun st => (Waiting, st).

Definition getFlags : M Flags := fun st => (Ret (flags st), st).

Definition modifyFlags (f : Flags -> Flags) : M unit :=
  fun st =>
    (Ret tt, {| flags := f (flags st); files := files st;
                stdin := stdin st; trace := trace st |}).

Definition emit (e : Event) : M unit :=
  fun st =>
    (Ret tt, {| flags := flags st; files := files st;
                stdin := stdin st; trace := trace st ++ [e] |}).

Definition Printf (m : LogMsg) : M unit := emit (EvLog m).

(** [ioutil.ReadFile]. *)
Definition ReadFile (name : string) : M (error + string) :=
  fun st =>
    match files st !! name with
    | Some data => (Ret (inr data), st)
    | None => (Ret (inl ("open " +:+ name +:+ ": no such file or directory")), st)
    end.

(** ** What the run depends on from outside the repository *)

Record GoLib := {
  TrimSpace : string -> string;
  json_escapes_b_f : bool;
  json_Unmarshal_other : string -> error + oauth2.Token;
  AuthCodeURL : oauth2.Config -> string -> string;
  google_Endpoint : oauth2.Endpoint;
  DevstorageFullControlScope : string;
  DevstorageReadWriteScope : string;
  ComputeScope : string;
  CloudPlatformScope : string
}.

(** [json.Marshal(t)] for [t *oauth2.Token].  The one thing that differs
    between versions of the library is whether backspace and form feed are
    written by their letter: [json_escapes_b_f]. *)
Definition json_Marshal (L : GoLib) (t : oauth2.Token) : error + string :=
  Marshal_Token (json_escapes_b_f L) t.

(** [json.Unmarshal(data, t)] into a fresh token: decided by
    [Unmarshal_Token] on the texts that has an answer for, and otherwise
    whatever the library makes of the text, [json_Unmarshal_other]. *)
Definition json_Unmarshal (L : GoLib) (data : string) : error + oauth2.Token :=
  match Unmarshal_Token data with
  | Some t => inr t
  | None => json_Unmarshal_other L data
  end.

(** [Stdin_readAhead input]: how many bytes beyond the first line the reads
    of the scanner take off standard input when it holds [input] (a
    terminal hands over one line, a pipe or a file whatever is there).
    [WriteFile_error name]: the error of [ioutil.WriteFile] on [name], if it
    fails; [WriteFile_written name data] then says how far it got: [None],
    the file could not be opened and is untouched; [Some n], it was opened,
    which creates or truncates it, and the first [n] bytes of [data] were
    written. *)
Record World := {
  Getenv : string -> string;
  DefaultTokenSource : error + TokenSource;
  Valid : oauth2.Token -> bool;
  Exchange : oauth2.Config -> string -> error + oauth2.Token;
  Stdin_readAhead : string -> Z;
  WriteFile_error : string -> option error;
  WriteFile_written : string -> string -> option Z;
  Addresses_AggregatedList :
    compute.Service -> string ->
    error + list (string * compute.AddressesScopedList.t);
  Disks_List :
    compute.Service -> string -> string -> error + list compute.Disk.t;
  Instances_Insert :
    compute.Service -> string -> string -> compute.Instance.t ->
    error + compute.Operation.t;
  ZoneOperations_Get :
    compute.Service -> string -> string -> string ->
    list (error + compute.Operation.t);
  Instances_Get :
    compute.Service -> string -> string -> string -> error + compute.Instance.t
}.

(** ** The program *)

Section Program.

Variable L : GoLib.
Variable W : World.

(** [sc := bufio.NewScanner(os.Stdin); sc.Scan(); sc.Text()]. *)
Definition Scan_Text : M string :=
  fun st =>
    (Ret (Scan_token (stdin st)),
     {| flags := flags st; files := files st;
        stdin := dropBytes (Scan_consumed (Stdin_readAhead W (stdin st)) (stdin st))
                   (stdin st);
        trace := trace st |}).

(** [ioutil.WriteFile(name, data, 0600)]: the file is opened with
    [O_WRONLY|O_CREATE|O_TRUNC], written and closed.  A call that fails
    after the open leaves the file with what was written of [data]. *)
Definition WriteFile (name data : string) : M (option error) :=
  fun st =>
    match WriteFile_error W name with
    | Some err =>
        (Ret (Some err),
         match WriteFile_written W name data with
         | Some n =>
             {| flags := flags st; files := <[name := takeBytes n data]> (files st);
                stdin := stdin st; trace := trace st |}
         | None => st
         end)
    | None =>
        (Ret None, {| flags := flags st; files := <[name := data]> (files st);
                      stdin := stdin st; trace := trace st |})
    end.

Definition stagingPrefix : M string :=
  let* f := getFlags in
  ret (if staging f then "staging-" else "").

Definition readFile (v : string) : M string :=
  let* r := ReadFile v in
  match r with
  | inl err => fatal (Fatal_ReadFile v err)
  | inr slurp => ret (TrimSpace L slurp)
  end.

(** *** [tokenCacheFile] *)

Definition tokenCacheFile_Token (f : tokenCacheFile) : M (error + oauth2.Token) :=
  let* r := ReadFile f in
  match r with
  | inl err => ret (inl err)
  | inr slurp =>
      match json_Unmarshal L slurp with
      | inl err => ret (inl err)
      | inr t => ret (inr t)
      end
  end.

Definition tokenCacheFile_WriteToken (f : tokenCacheFile) (t : oauth2.Token)
  : M (option error) :=
  match json_Marshal L t with
  | inl err => ret (Some err)
  | inr jt => WriteFile f jt
  end.

(** [Token()] of the source [oauth2.ReuseTokenSource(t, new)] built over a
    cache file: the held token while it is valid, otherwise what the file
    yields. *)
Definition reuseTokenSource_Token (t : option oauth2.Token) (new : tokenCacheFile)
  : M (error + oauth2.Token) :=
  match t with
  | Some tok => if Valid W tok then ret (inr tok) else tokenCacheFile_Token new
  | None => tokenCacheFile_Token new
  end.

(** *** [tokenSource]

    The function declares [tokensource], assigns the sources it builds to
    the distinct variable [tokenSource], and ends in [return tokensource]. *)
Definition tokenSource : M (option TokenSource) :=
  let tokensource : option TokenSource := None in
  match DefaultTokenSource W with
  | inr tokenSource => ret (Some tokenSource)
  | inl _ =>
      let* p := stagingPrefix in
      let* clientID := readFile (p +:+ "client-id.dat") in
      let* p := stagingPrefix in
      let* clientSecret := readFile (p +:+ "client-secret.dat") in
      let oauthConfig := {|
        oauth2.ClientID := clientID;
        oauth2.ClientSecret := clientSecret;
        oauth2.Endpoint_ := google_Endpoint L;
        oauth2.Scopes := [
          DevstorageFullControlScope L;
          ComputeScope L;
          CloudPlatformScope L;
          "https://www.googleapis.com/auth/sqlservice";
          "https://www.googleapis.com/auth/sqlservice.admin"
        ];
        oauth2.RedirectURL := "urn:ietf:wg:oauth:2.0:oob"
      |} in
      let* p := stagingPrefix in
      let tokenFileName := p +:+ "token.dat" in
      let tokenFile : tokenCacheFile := tokenFileName in
      let tokenSource := reuseTokenSource None (Some tokenFile) in
      let* r := reuseTokenSource_Token None tokenFile in
      match r with
      | inl err =>
          let* _ := Printf (Log_ErrorGettingToken tokenFileName err) in
          let* _ := Printf (Log_GetAuthCode (AuthCodeURL L oauthConfig "my-state")) in
          let* _ := emit (EvPrint "
Enter auth code: ") in
          let* line := Scan_Text in
          let authCode := TrimSpace L line in
          let* _ := emit (EvCall (Call_Exchange authCode)) in
          match Exchange W oauthConfig authCode with
          | inl err => fatal (Fatal_Exchange err)
          | inr token =>
              let* w := tokenCacheFile_WriteToken tokenFile token in
              match w with
              | Some err => fatal (Fatal_WriteToken tokenFileName err)
              | None =>
                  let tokenSource := reuseTokenSource (Some token) None in
                  ret tokensource
              end
          end
      | inr token => ret tokensource
      end
  end.

(** *** [instanceDisk] *)

Definition imageURL : string :=
  "https://www.googleapis.com/compute/v1/projects/coreos-cloud/global/images/coreos-stable-723-3-0-v20150804".

(** The [for _, disk := range dl.Items] loop: the descriptor it returns
    from inside, or [None] when it runs to the end. *)
Fixpoint diskLoop (diskName : string) (items : list compute.Disk.t)
  : option compute.AttachedDisk.t :=
  match items with
  | [] => None
  | disk :: rest =>
      if negb (compute.Disk.Name disk =? diskName) then diskLoop diskName rest
      else Some {|
        compute.AttachedDisk.AutoDelete := false;
        compute.AttachedDisk.Boot := true;
        compute.AttachedDisk.DeviceName := diskName;
        compute.AttachedDisk.Type_ := "PERSISTENT";
        compute.AttachedDisk.Source := compute.Disk.SelfLink disk;
        compute.AttachedDisk.Mode := "READ_WRITE";
        compute.AttachedDisk.InitializeParams := None
      |}
  end.

Definition instanceDisk (svc : compute.Service) : M compute.AttachedDisk.t :=
  let* f := getFlags in
  let diskName := instName f +:+ "-coreos-stateless-pd" in
  let* reused :=
    (if reuseDisk f then
       let* _ := emit (EvCall (Call_DisksList svc (proj f) (zone f))) in
       match Disks_List W svc (proj f) (zone f) with
       | inl err => fatal (Fatal_ListDisks err)
       | inr dl => ret (diskLoop diskName dl)
       end
     else ret None) in
  match reused with
  | Some d => ret d
  | None =>
      let diskType :=
        if ssd f
        then "https://www.googleapis.com/compute/v1/projects/" +:+ proj f
             +:+ "/zones/" +:+ zone f +:+ "/diskTypes/pd-ssd"
        else "" in
      ret {|
        compute.AttachedDisk.AutoDelete := negb (reuseDisk f);
        compute.AttachedDisk.Boot := true;
        compute.AttachedDisk.DeviceName := "";
        compute.AttachedDisk.Type_ := "PERSISTENT";
        compute.AttachedDisk.Source := "";
        compute.AttachedDisk.Mode := "";
        compute.AttachedDisk.InitializeParams := Some {|
          compute.AttachedDiskInitializeParams.DiskName := diskName;
          compute.AttachedDiskInitializeParams.SourceImage := imageURL;
          compute.AttachedDiskInitializeParams.DiskSizeGb := 50;
          compute.AttachedDiskInitializeParams.DiskType := diskType
        |}
      |}
  end.

(** *** [main], block by block *)

(** Lines 81-102: the staging defaults, the project check and the
    hard-coded static addresses. *)
Definition adjustFlags : M unit :=
  let* f := getFlags in
  let* _ :=
    (if staging f then
       let* _ :=
         (if proj f =? "symbolic-datum-552"
          then modifyFlags (set_proj "go-dashboard-dev")
          else ret tt) in
       let* f := getFlags in
       if coordinator f =? "https://storage.googleapis.com/go-builder-data/coordinator"
       then modifyFlags
              (set_coordinator "https://storage.googleapis.com/dev-go-builder-data/coordinator")
       else ret tt
     else ret tt) in
  let* f := getFlags in
  let* _ := (if proj f =? "" then fatal Fatal_MissingProject else ret tt) in
  let* f := getFlags in
  if staticIP f =? "" then
    if proj f =? "symbolic-datum-552" then modifyFlags (set_staticIP "107.178.219.46")
    else if proj f =? "go-dashboard-dev" then modifyFlags (set_staticIP "104.154.113.235")
    else ret tt
  else ret tt.

(** The inner loop of [IPLoop], over the addresses of one scope. *)
Fixpoint addrLoop (name : string) (addrs : list compute.Address.t) : option string :=
  match addrs with
  | [] => None
  | addr :: rest =>
      if (compute.Address.Name addr =? name)
         && (compute.Address.Status addr =? "RESERVED")
      then Some (compute.Address.Address addr)
      else addrLoop name rest
  end.

(** [IPLoop] over [aggAddrList.Items], a Go map: [items] lists its entries
    in the order in which the [range] statement visits them. *)
Fixpoint IPLoop (name : string)
    (items : list (string * compute.AddressesScopedList.t)) (natIP : string) : string :=
  match items with
  | [] => natIP
  | (_, asl) :: rest =>
      match addrLoop name (compute.AddressesScopedList.Addresses asl) with
      | Some a => a
      | None => IPLoop name rest natIP
      end
  end.

(** Lines 110-127. *)
Definition resolveNatIP (svc : compute.Service) : M string :=
  let* f := getFlags in
  let natIP := staticIP f in
  if natIP =? "" then
    let* _ := emit (EvCall (Call_AddressesAggregatedList svc (proj f))) in
    match Addresses_AggregatedList W svc (proj f) with
    | inl err => fatal (Fatal_AggregatedList err)
    | inr items => ret (IPLoop (instName f +:+ "-ip") items natIP)
    end
  else ret natIP.

Definition bradfitzKey : string :=
  "ssh-rsa AAAAB3NzaC1yc2EAAAABIwAAAIEAwks9dwWKlRC+73gRbvYtVg0vdCwDSuIlyt4z6xa/YU/jTDynM4R4W10hm2tPjy8iR1k8XhDv4/qdxe6m07NjG/By1tkmGpm1mGwho4Pr5kbAAy/Qg+NLCSdAYnnE00FQEcFOC15GFVMOW2AzDGKisReohwH9eIzHPzdYQNPRWXE= bradfitz@papag.bradfitz.com".

(** Lines 129-136. *)
Definition renderCloudConfig : M string :=
  let* f := getFlags in
  let cloudConfig := Replace baseConfig "$COORDINATOR" (coordinator f) 1 in
  let* cloudConfig :=
    (if negb (sshPub f =? "") then
       let* k := readFile (sshPub f) in
       let key := TrimSpace L k in
       ret (cloudConfig +:+ Sprintf_ssh_authorized_keys key)
     else ret cloudConfig) in
  if Getenv W "USER" =? "bradfitz"
  then ret (cloudConfig +:+ Sprintf_ssh_authorized_keys bradfitzKey)
  else ret cloudConfig.

Definition maxCloudConfig : Z := 32 ≪ 10.

(** Lines 137-140. *)
Definition checkCloudConfig (cloudConfig : string) : M unit :=
  if (len cloudConfig >? maxCloudConfig)%Z
  then fatal (Fatal_CloudConfigTooLong (len cloudConfig) maxCloudConfig)
  else ret tt.

(** Lines 142-180: the instance literal; its [Disks] field calls
    [instanceDisk]. *)
Definition buildInstance (svc : compute.Service)
    (prefix machType natIP cloudConfig : string) : M compute.Instance.t :=
  let* f := getFlags in
  let* disk := instanceDisk svc in
  ret {|
    compute.Instance.Name := instName f;
    compute.Instance.Description := "Go Builder";
    compute.Instance.MachineType := machType;
    compute.Instance.Disks := [disk];
    compute.Instance.Tags := Some ["http-server"; "https-server"; "allow-ssh"];
    compute.Instance.Metadata := Some [
      {| compute.MetadataItems.Key := "user-data";
         compute.MetadataItems.Value := Some cloudConfig |}
    ];
    compute.Instance.NetworkInterfaces := [
      {| compute.NetworkInterface.AccessConfigs := [
           {| compute.AccessConfig.Type_ := "ONE_TO_ONE_NAT";
              compute.AccessConfig.Name := "External NAT";
              compute.AccessConfig.NatIP := natIP |}
         ];
         compute.NetworkInterface.Network := prefix +:+ "/global/networks/default" |}
    ];
    compute.Instance.ServiceAccounts := [
      {| compute.ServiceAccount.Email := "default";
         compute.ServiceAccount.Scopes := [
           DevstorageFullControlScope L;
           ComputeScope L;
           CloudPlatformScope L
         ] |}
    ]
  |}.

(** Lines 182-188. *)
Definition createInstance (svc : compute.Service) (instance : compute.Instance.t)
  : M string :=
  let* _ := Printf Log_CreatingInstance in
  let* f := getFlags in
  let* _ := emit (EvCall (Call_InstancesInsert svc (proj f) (zone f) instance)) in
  match Instances_Insert W svc (proj f) (zone f) instance with
  | inl err => fatal (Fatal_CreateInstance err)
  | inr op =>
      let opName := compute.Operation.Name op in
      let* _ := Printf (Log_CreatedWaiting opName) in
      ret opName
  end.

(** The [for _, operr := range op.Error.Errors] loop. *)
Fixpoint logErrors (errs : list compute.OperationErrorErrors.t) : M unit :=
  match errs with
  | [] => ret tt
  | operr :: rest =>
      let* _ := Printf (Log_Error operr) in
      logErrors rest
  end.

(** Lines 189-212.  [answers] are the successive results of
    [ZoneOperations.Get(...).Do()]; the loop has no bound of its own, so a
    run over a finite record of answers is [Waiting] when they are used up
    before the loop left. *)
Fixpoint OpLoop (svc : compute.Service) (opName : string)
    (answers : list (error + compute.Operation.t)) : M unit :=
  match answers with
  | [] => waiting
  | answer :: later =>
      let* _ := emit (EvSleep 2) in
      let* f := getFlags in
      let* _ := emit (EvCall (Call_ZoneOperationsGet svc (proj f) (zone f) opName)) in
      match answer with
      | inl err => fatal (Fatal_GetOp opName err)
      | inr op =>
          if (compute.Operation.Status op =? "PENDING")
             || (compute.Operation.Status op =? "RUNNING")
          then
            let* _ := Printf (Log_Waiting opName) in
            OpLoop svc opName later
          else if compute.Operation.Status op =? "DONE" then
            match compute.Operation.Error op with
            | Some e =>
                let* _ := logErrors (compute.OperationError.Errors e) in
                fatal Fatal_FailedToStart
            | None => Printf (Log_Success op)
            end
          else fatal (Fatal_UnknownStatus (compute.Operation.Status op) op)
      end
  end.

(** Lines 214-219. *)
Definition describeInstance (svc : compute.Service) : M unit :=
  let* f := getFlags in
  let* _ := emit (EvCall (Call_InstancesGet svc (proj f) (zone f) (instName f))) in
  match Instances_Get W svc (proj f) (zone f) (instName f) with
  | inl err => fatal (Fatal_GetInstance err)
  | inr inst => Printf (Log_Instance inst)
  end.

(** Lines 189-219: the poll loop, then the final fetch. *)
Definition awaitOperation (svc : compute.Service) (opName : string)
    (answers : list (error + compute.Operation.t)) : M unit :=
  let* _ := OpLoop svc opName answers in
  describeInstance svc.

(** Lines 79-108: the flags, the URL prefixes and the API client.  The
    service is [compute.New] over [oauth2.NewClient] of what [tokenSource]
    returned; the error of [compute.New] is dropped, as in the source. *)
Definition connect : M (compute.Service * string * string) :=
  let* _ := adjustFlags in
  let* f := getFlags in
  let prefix := "https://www.googleapis.com/compute/v1/projects/" +:+ proj f in
  let machType := prefix +:+ "/zones/" +:+ zone f +:+ "/machineTypes/" +:+ mach f in
  let* ts := tokenSource in
  ret ({| compute.client := ts |}, prefix, machType).

Definition main : M unit :=
  let* c := connect in
  let '(computeService, prefix, machType) := c in
  let* natIP := resolveNatIP computeService in
  let* cloudConfig := renderCloudConfig in
  let* _ := checkCloudConfig cloudConfig in
  let* instance := buildInstance computeService prefix machType natIP cloudConfig in
  let* opName := createInstance computeService instance in
  let* f := getFlags in
  awaitOperation computeService opName
    (ZoneOperations_Get W computeService (proj f) (zone f) opName).

End Program.

(** ** A concrete library and concrete worlds, for running the program *)

Module Demo.

Definition isSpace (a : ascii) : bool :=
  (a =? "009")%char || (a =? "010")%char || (a =? "011")%char
  || (a =? "012")%char || (a =? "013")%char || (a =? " ")%char.

Fixpoint trimLeft (s : string) : string :=
  match s with
  | EmptyString => EmptyString
  | String a s' => if isSpace a then trimLeft s' else s
  end.

Fixpoint trimRight (s : string) : string :=
  match s with
  | EmptyString => EmptyString
  | String a s' =>
      match trimRight s' with
      | EmptyString => if isSpace a then EmptyString else String a EmptyString
      | r => String a r
      end
  end.

Definition token : oauth2.Token := {|
  oauth2.AccessToken := "ya29.access";
  oauth2.TokenType := "Bearer";
  oauth2.RefreshToken := "1/refresh";
  oauth2.Expiry := {| time.year := 2015; time.month := 10; time.day := 28;
                      time.hour := 2; time.minute := 40; time.second := 0;
                      time.nanosecond := 0; time.offset := 0 |};
  oauth2.raw := None
|}.

(** A library that writes backspace and form feed by their code point,
    and whose decoder takes no text but those decided here. *)
Definition lib : GoLib := {|
  TrimSpace := fun s => trimRight (trimLeft s);
  json_escapes_b_f := false;
  json_Unmarshal_other := fun _ => inl "invalid character";
  AuthCodeURL := fun c state =>
    "https://accounts.google.com/o/oauth2/auth?client_id="
    +:+ oauth2.ClientID c +:+ "&state=" +:+ state;
  google_Endpoint := {|
    oauth2.AuthURL := "https://accounts.google.com/o/oauth2/auth";
    oauth2.TokenURL := "https://accounts.google.com/o/oauth2/token"
  |};
  DevstorageFullControlScope := "https://www.googleapis.com/auth/devstorage.full_control";
  DevstorageReadWriteScope := "https://www.googleapis.com/auth/devstorage.read_write";
  ComputeScope := "https://www.googleapis.com/auth/compute";
  CloudPlatformScope := "https://www.googleapis.com/auth/cloud-platform"
|}.

(** The text the token is cached as. *)
Definition tokenJSON : string :=
  match json_Marshal lib token with
  | inr jt => jt
  | inl _ => ""
  end.

Definition operation (status : string) (err : option compute.OperationError.t)
  : compute.Operation.t :=
  {| compute.Operation.Name := "operation-1";
     compute.Operation.Status := status;
     compute.Operation.Error := err |}.

Definition created : compute.Instance.t := {|
  compute.Instance.Name := "farmer";
  compute.Instance.Description := "Go Builder";
  compute.Instance.MachineType := "n1-standard-4";
  compute.Instance.Disks := [];
  compute.Instance.Tags := None;
  compute.Instance.Metadata := None;
  compute.Instance.NetworkInterfaces := [];
  compute.Instance.ServiceAccounts := []
|}.

(** A world in which every request succeeds; what varies is [USER], the
    outcome of default credential discovery, the address and disk listings
    and the answers to the operation polls. *)
Definition world (user : string) (dts : error + TokenSource)
    (addrs : list (string * compute.AddressesScopedList.t))
    (disks : list compute.Disk.t)
    (answers : list (error + compute.Operation.t)) : World := {|
  Getenv := fun k => if k =? "USER" then user else "";
  DefaultTokenSource := dts;
  Valid := fun t => negb (oauth2.AccessToken t =? "");
  Exchange := fun _ code =>
    if code =? "4/code" then inr token else inl "oauth2: cannot fetch token";
  Stdin_readAhead := fun _ => 0%Z;
  WriteFile_error := fun _ => None;
  WriteFile_written := fun _ _ => None;
  Addresses_AggregatedList := fun _ _ => inr addrs;
  Disks_List := fun _ _ _ => inr disks;
  Instances_Insert := fun _ _ _ _ => inr (operation "PENDING" None);
  ZoneOperations_Get := fun _ _ _ _ => answers;
  Instances_Get := fun _ _ _ _ => inr created
|}.

Definition state (f : Flags) (fs : gmap string string) (input : string) : State :=
  {| flags := f; files := fs; stdin := input; trace := [] |}.

(** The files of an installed-application client without a cached token. *)
Definition clientFiles : gmap string string :=
  <["client-id.dat" := "client-1
"]> (<["client-secret.dat" := "secret-1
"]> ∅).

Definition noDefault : error + TokenSource :=
  inl "google: could not find default credentials".

Definition metadataServer : TokenSource := ApplicationDefault "metadata-server".

Definition service : compute.Service := {| compute.client := Some metadataServer |}.

(** A run with the default flags, no local files and no input. *)
Definition start : State := state defaultFlags ∅ "".

Definition pending : compute.Operation.t := operation "PENDING" None.
Definition running : compute.Operation.t := operation "RUNNING" None.
Definition finished : compute.Operation.t := operation "DONE" None.
Definition suspended : compute.Operation.t := operation "SUSPENDED" None.

Definition quotaExceeded : compute.OperationErrorErrors.t := {|
  compute.OperationErrorErrors.Code := "QUOTA_EXCEEDED";
  compute.OperationErrorErrors.Location := "";
  compute.OperationErrorErrors.Message := "Quota CPUS exceeded"
|}.

(** DONE with one reported error. *)
Definition failed : compute.Operation.t :=
  operation "DONE" (Some {| compute.OperationError.Errors := [quotaExceeded] |}).

(** DONE with an error object whose list is empty. *)
Definition doneEmptyErrors : compute.Operation.t :=
  operation "DONE" (Some {| compute.OperationError.Errors := [] |}).

Definition farmerDisk : compute.Disk.t := {|
  compute.Disk.Name := "farmer-coreos-stateless-pd";
  compute.Disk.SelfLink :=
    "https://www.googleapis.com/compute/v1/projects/symbolic-datum-552/zones/us-central1-f/disks/farmer-coreos-stateless-pd"
|}.

Definition farmerAddress : compute.Address.t := {|
  compute.Address.Name := "farmer-ip";
  compute.Address.Status := "RESERVED";
  compute.Address.Address := "203.0.113.9"
|}.

Definition reservedItems : list (string * compute.AddressesScopedList.t) :=
  [("regions/us-central1",
    {| compute.AddressesScopedList.Addresses := [farmerAddress] |})].

(** The world of a machine with default credentials and the address
    farmer-ip reserved. *)
Definition reserved : World := world "gopher" (inr metadataServer) reservedItems [] [].

(** A run on a project of one's own, other flags at their defaults. *)
Definition elsewhere : State := state (set_proj "my-project" defaultFlags) ∅ "".

(** A run with an explicit address whose coordinator URL is 33000 bytes
    long, and the user data it renders. *)
Definition longURL : string := Z.iter 33000 (String "a") "".

Definition oversized : State :=
  state (set_staticIP "203.0.113.9" (set_coordinator longURL defaultFlags)) ∅ "".

Definition oversizedConfig : string := Replace baseConfig "$COORDINATOR" longURL 1.

(** The world of a machine with default credentials and one disk. *)
Definition withDisk : World := world "gopher" (inr metadataServer) [] [farmerDisk] [].

(** The same machine, run by the user bradfitz. *)
Definition asBradfitz : World := world "bradfitz" (inr metadataServer) [] [] [].

(** No default credentials: the interactive exchange is needed. *)
Definition interactive : World := world "gopher" noDefault [] [] [].

(** The client files are in place, the token cache is not, and the
    operator types the authorization code. *)
Definition atPrompt : State := state defaultFlags clientFiles "4/code
".

(** The same, on a disk that is full: the cache file is opened, and the
    write ends after ten bytes. *)
Definition diskFull : World := {|
  Getenv := Getenv interactive;
  DefaultTokenSource := DefaultTokenSource interactive;
  Valid := Valid interactive;
  Exchange := Exchange interactive;
  Stdin_readAhead := Stdin_readAhead interactive;
  WriteFile_error := fun _ => Some "write token.dat: no space left on device";
  WriteFile_written := fun _ _ => Some 10%Z;
  Addresses_AggregatedList := Addresses_AggregatedList interactive;
  Disks_List := Disks_List interactive;
  Instances_Insert := Instances_Insert interactive;
  ZoneOperations_Get := ZoneOperations_Get interactive;
  Instances_Get := Instances_Get interactive
|}.

(** The world of a machine with default credentials and nothing reserved. *)
Definition plain : World := world "gopher" (inr metadataServer) [] [] [].

(** A run with no project. *)
Definition noProject : State := state (set_proj "" defaultFlags) ∅ "".

(** A staging run on a project of one's own. *)
Definition stagingFlags : Flags := {|
  proj := "my-project";
  zone := "us-central1-f";
  mach := "n1-standard-4";
  instName := "farmer";
  sshPub := "";
  staticIP := "";
  reuseDisk := true;
  ssd := true;
  coordinator := "https://storage.googleapis.com/go-builder-data/coordinator";
  staging := true
|}.

Definition stagingOwn : State := state stagingFlags ∅ "".

(** The client files are in place, the token cache is not, and standard
    input is at its end. *)
Definition atEOF : State := state defaultFlags clientFiles "".

(** The client files and a token cache. *)
Definition cachedFiles : gmap string string := <["token.dat" := tokenJSON]> clientFiles.

Definition cached : State := state defaultFlags cachedFiles "".

(** Only the client id is in place. *)
Definition onlyClientID : State :=
  state defaultFlags (<["client-id.dat" := "client-1
"]> ∅) "".

(** A token whose access token is the one byte 0xFF, no well-formed
    UTF-8. *)
Definition illFormed : oauth2.Token := {|
  oauth2.AccessToken := String "255"%char "";
  oauth2.TokenType := "";
  oauth2.RefreshToken := "";
  oauth2.Expiry := time.zero;
  oauth2.raw := None
|}.

(** The text it is cached as. *)
Definition illFormedJSON : string :=
  match json_Marshal lib illFormed with
  | inr jt => jt
  | inl _ => ""
  end.


Definition noCredentials : error := "google: could not find default credentials".

Definition noTokenFile : error := "open token.dat: no such file or directory".

Definition clientIDData : string := "client-1
".

Definition clientSecretData : string := "secret-1
".

End Demo.

(** ** Reasoning about runs *)

(** [steps T R m]: every run of [m] relates its initial and final state by
    [T], and a value it returns satisfies [R]. *)
Definition steps {A} (T : relation State) (R : A -> Prop) (m : M A) : Prop :=
  forall st o st', m st = (o, st') -> T st st' /\ forall a, o = Ret a -> R a.

(** The run appended events, each of which satisfies [Q]. *)
Definition appends (Q : Event -> Prop) : relation State :=
  fun st st' => exists evs, trace st' = trace st ++ evs /\ Forall Q evs.

(** The run left the flag variables as they were. *)
Definition sameFlags : relation State :=
  fun st st' => flags st' = flags st.

Definition isInsert (e : Event) : bool :=
  match e with
  | EvCall (Call_InstancesInsert _ _ _ _) => true
  | _ => false
  end.

Definition isPoll (e : Event) : bool :=
  match e with
  | EvCall (Call_ZoneOperationsGet _ _ _ _) => true
  | _ => false
  end.

Definition isFetch (e : Event) : bool :=
  match e with
  | EvCall (Call_InstancesGet _ _ _ _) => true
  | _ => false
  end.

(** The events a run added to the trace it started from. *)
Definition added (st st' : State) : list Event :=
  drop (length (trace st)) (trace st').

(** The state after the events [evs] have been appended to the trace. *)
Definition record (evs : list Event) (st : State) : State :=
  {| flags := flags st; files := files st; stdin := stdin st;
     trace := trace st ++ evs |}.

(** The postcondition that asks nothing of the returned value. *)
Definition any {A} : A -> Prop := fun _ => True.

(** What a state relation must allow for the blocks that neither write a
    flag nor issue the insert request. *)
Class Frame (T : relation State) := {
  frame_preorder :: PreOrder T;
  frame_silent st st' : flags st' = flags st -> trace st' = trace st -> T st st';
  frame_emit e st : isInsert e = false -> T st (record [e] st)
}.

(** One iteration of the poll loop: the sleep, then the request. *)
Definition pollEvents (svc : compute.Service) (f : Flags) (opName : string) : list Event :=
  [EvSleep 2; EvCall (Call_ZoneOperationsGet svc (proj f) (zone f) opName)].

Definition polls (evs : list Event) : nat := length (List.filter isPoll evs).

Definition fetches (evs : list Event) : nat := length (List.filter isFetch evs).

Definition stillRunning (op : compute.Operation.t) : Prop :=
  compute.Operation.Status op = "PENDING" \/ compute.Operation.Status op = "RUNNING".

(** The error list of an operation, empty when [op.Error] is nil. *)
Definition errorList (op : compute.Operation.t) : list compute.OperationErrorErrors.t :=
  match compute.Operation.Error op with
  | Some e => compute.OperationError.Errors e
  | None => []
  end.

Definition logged (errs : list compute.OperationErrorErrors.t) : list Event :=
  map (fun operr => EvLog (Log_Error operr)) errs.

(** *** The network address *)

(** The project the run works on once the staging default is applied. *)
Definition effectiveProject (f : Flags) : string :=
  if staging f && (proj f =? "symbolic-datum-552") then "go-dashboard-dev" else proj f.

(** The addresses [main] hard-codes, by project. *)
Definition hardCodedIP (project : string) : option string :=
  if project =? "symbolic-datum-552" then Some "107.178.219.46"
  else if project =? "go-dashboard-dev" then Some "104.154.113.235"
  else None.

(** The first listed address, over all scopes in listing order, that has
    the given name and the status RESERVED. *)
Definition firstReserved (name : string)
    (items : list (string * compute.AddressesScopedList.t)) : option string :=
  compute.Address.Address <$>
    List.find
      (fun addr => (compute.Address.Name addr =? name)
                   && (compute.Address.Status addr =? "RESERVED"))
      (concat (map (fun it => compute.AddressesScopedList.Addresses (snd it)) items)).

(** The resolution order in the words of the specification: the explicit
    input, else the named reserved address, else unassigned. *)
Definition resolve_as_specified (explicitIP instanceName : string)
    (items : list (string * compute.AddressesScopedList.t)) : string :=
  if explicitIP =? "" then default "" (firstReserved (instanceName +:+ "-ip") items)
  else explicitIP.

(** The resolution order of the program: between the explicit input and the
    lookup stands the hard-coded address of the project. *)
Definition resolve_with_hard_coded (f : Flags)
    (items : list (string * compute.AddressesScopedList.t)) : string :=
  if staticIP f =? "" then
    match hardCodedIP (effectiveProject f) with
    | Some ip => ip
    | None => default "" (firstReserved (instName f +:+ "-ip") items)
    end
  else staticIP f.

(** *** The disk descriptor *)

Definition diskNameOf (f : Flags) : string := instName f +:+ "-coreos-stateless-pd".

Definition solidStateURL (f : Flags) : string :=
  "https://www.googleapis.com/compute/v1/projects/" +:+ proj f
  +:+ "/zones/" +:+ zone f +:+ "/diskTypes/pd-ssd".

(** A reference to an existing disk. *)
Definition referenceDescriptor (f : Flags) (disk : compute.Disk.t) : compute.AttachedDisk.t := {|
  compute.AttachedDisk.AutoDelete := false;
  compute.AttachedDisk.Boot := true;
  compute.AttachedDisk.DeviceName := diskNameOf f;
  compute.AttachedDisk.Type_ := "PERSISTENT";
  compute.AttachedDisk.Source := compute.Disk.SelfLink disk;
  compute.AttachedDisk.Mode := "READ_WRITE";
  compute.AttachedDisk.InitializeParams := None
|}.

(** The specification of a fresh disk. *)
Definition freshDescriptor (f : Flags) : compute.AttachedDisk.t := {|
  compute.AttachedDisk.AutoDelete := negb (reuseDisk f);
  compute.AttachedDisk.Boot := true;
  compute.AttachedDisk.DeviceName := "";
  compute.AttachedDisk.Type_ := "PERSISTENT";
  compute.AttachedDisk.Source := "";
  compute.AttachedDisk.Mode := "";
  compute.AttachedDisk.InitializeParams := Some {|
    compute.AttachedDiskInitializeParams.DiskName := diskNameOf f;
    compute.AttachedDiskInitializeParams.SourceImage := imageURL;
    compute.AttachedDiskInitializeParams.DiskSizeGb := 50;
    compute.AttachedDiskInitializeParams.DiskType := if ssd f then solidStateURL f else ""
  |}
|}.

(** The first listed disk that carries the target name. *)
Definition matchingDisk (f : Flags) (dl : list compute.Disk.t) : option compute.Disk.t :=
  List.find (fun disk => compute.Disk.Name disk =? diskNameOf f) dl.

(** *** The service account *)

Definition fixedServiceAccounts (L : GoLib) : list compute.ServiceAccount.t := [
  {| compute.ServiceAccount.Email := "default";
     compute.ServiceAccount.Scopes :=
       [DevstorageFullControlScope L; ComputeScope L; CloudPlatformScope L] |}
].

(** An insert request, if [e] is one, asks for the fixed service account. *)
Definition insertsWithFixedScopes (L : GoLib) (e : Event) : Prop :=
  match e with
  | EvCall (Call_InstancesInsert _ _ _ inst) =>
      compute.Instance.ServiceAccounts inst = fixedServiceAccounts L
  | _ => True
  end.

(** The scopes in the words of the specification: storage read-write,
    compute management, full cloud-platform access. *)
Definition scopes_as_specified (L : GoLib) : list string :=
  [DevstorageReadWriteScope L; ComputeScope L; CloudPlatformScope L].

(** Every instance specification built from a state requests exactly the
    scopes of the specification. *)
Definition requests_scopes_as_specified (L : GoLib) (W : World) (st : State) : Prop :=
  forall svc prefix machType natIP cloudConfig inst st',
    buildInstance L W svc prefix machType natIP cloudConfig st = (Ret inst, st') ->
    concat (map compute.ServiceAccount.Scopes (compute.Instance.ServiceAccounts inst))
    = scopes_as_specified L.

(** *** The token cache *)


(** A zone offset that the RFC 3339 layout can carry: whole minutes, less
    than a day. *)
Definition minuteZone (t : time.Time) : bool :=
  ((Z.rem (time.offset t) 60 =? 0) && (-86400 <? time.offset t)
   && (time.offset t <? 86400))%Z.

(** An expiry that its text form carries: a reading a [Time] can have, in a
    zone of whole minutes. *)
Definition carriesExpiry (t : oauth2.Token) : bool :=
  time.wellFormed (oauth2.Expiry t) && minuteZone (oauth2.Expiry t).

(** [s] as it comes back from the encoder and the decoder: every byte that
    begins no well-formed encoding replaced by the encoding of U+FFFD. *)
Fixpoint repaired (s : string) : string :=
  match s with
  | EmptyString => ""
  | String a0 s1 =>
      if (byte a0 <? 128)%Z then String a0 (repaired s1)
      else
        let '(c, size) := utf8.DecodeRuneInString s in
        if (c =? utf8.RuneError)%Z && (size =? 1)%Z
        then utf8.EncodeRune utf8.RuneError +:+ repaired s1
        else
          match size, s1 with
          | 2%Z, String a1 s2 => String a0 (String a1 (repaired s2))
          | 3%Z, String a1 (String a2 s3) => String a0 (String a1 (String a2 (repaired s3)))
          | 4%Z, String a1 (String a2 (String a3 s4)) =>
              String a0 (String a1 (String a2 (String a3 (repaired s4))))
          | _, _ => repaired s1
          end
  end.

(** A token as it is read back from its text: the strings repaired, the
    unexported field gone. *)
Definition readBack (t : oauth2.Token) : oauth2.Token := {|
  oauth2.AccessToken := repaired (oauth2.AccessToken t);
  oauth2.TokenType := repaired (oauth2.TokenType t);
  oauth2.RefreshToken := repaired (oauth2.RefreshToken t);
  oauth2.Expiry := oauth2.Expiry t;
  oauth2.raw := None
|}.



(** U+2028 and U+2029, which the encoder escapes. *)
Definition lineSeparator (c : Z) : bool := ((c =? 8232) || (c =? 8233))%Z.

Definition bytes2 (c0 c1 : Z) : string :=
  String (ascii_of_Z c0) (String (ascii_of_Z c1) "").

Definition bytes3 (c0 c1 c2 : Z) : string :=
  String (ascii_of_Z c0) (String (ascii_of_Z c1) (String (ascii_of_Z c2) "")).

(** The number of a list of decimal digits, the last digit first. *)
Fixpoint valueRev (l : list Z) : Z :=
  match l with
  | [] => 0
  | d :: l' => d + 10 * valueRev l'
  end%Z.

(** A text that begins with neither a digit nor a point. *)
Definition endsNumber (t : string) : Prop :=
  match t with
  | EmptyString => True
  | String a _ => time.digitVal a = None /\ a <> "."%char
  end.

(** *** The operation poller, in the words of the specification

    For a poll answered DONE: a non-empty error list ends the run in failure
    with every sub-error logged; an empty one lets the run succeed with
    exactly one final fetch. *)
Definition DONE_as_specified (W : World) (svc : compute.Service) (opName : string)
    (op : compute.Operation.t) (later : list (error + compute.Operation.t))
    (st : State) : Prop :=
  compute.Operation.Status op = "DONE" ->
  let r := awaitOperation W svc opName (inr op :: later) st in
  (errorList op <> [] ->
     (exists m, fst r = Exit m)
     /\ Forall (fun operr => EvLog (Log_Error operr) ∈ added st (snd r)) (errorList op))
  /\ (errorList op = [] ->
        fst r = Ret tt /\ fetches (added st (snd r)) = 1).

(** The address resolution in the words of the specification, for the runs
    of a world from a given initial state. *)
Definition natIP_as_specified (L : GoLib) (W : World) (st : State) : Prop :=
  forall svc prefix machType st1 items,
    connect L W st = (Ret (svc, prefix, machType), st1) ->
    Addresses_AggregatedList W svc (effectiveProject (flags st)) = inr items ->
    exists st2,
      resolveNatIP W svc st1
      = (Ret (resolve_as_specified (staticIP (flags st)) (instName (flags st)) items), st2).

(** *** Closed forms of the blocks *)

(** The flag variables as [adjustFlags] leaves them when it returns: the
    staging defaults replace the production defaults only, and the static
    address is filled in for the two known projects. *)
Definition adjustedFlags (f : Flags) : Flags := {|
  proj := effectiveProject f;
  zone := zone f;
  mach := mach f;
  instName := instName f;
  sshPub := sshPub f;
  staticIP :=
    if staticIP f =? "" then default "" (hardCodedIP (effectiveProject f))
    else staticIP f;
  reuseDisk := reuseDisk f;
  ssd := ssd f;
  coordinator :=
    if staging f
       && (coordinator f =? "https://storage.googleapis.com/go-builder-data/coordinator")
    then "https://storage.googleapis.com/dev-go-builder-data/coordinator"
    else coordinator f;
  staging := staging f
|}.

Definition withFlags (f : Flags) (st : State) : State :=
  {| flags := f; files := files st; stdin := stdin st; trace := trace st |}.

(** The prefix of the credential files, and the three files. *)
Definition credPrefix (f : Flags) : string := if staging f then "staging-" else "".

Definition clientIDFile (f : Flags) : string := credPrefix f +:+ "client-id.dat".

Definition clientSecretFile (f : Flags) : string := credPrefix f +:+ "client-secret.dat".

Definition tokenFileOf (f : Flags) : string := credPrefix f +:+ "token.dat".

(** The [oauth2.Config] literal of [tokenSource]. *)
Definition oauthConfigOf (L : GoLib) (clientID clientSecret : string) : oauth2.Config := {|
  oauth2.ClientID := clientID;
  oauth2.ClientSecret := clientSecret;
  oauth2.Endpoint_ := google_Endpoint L;
  oauth2.Scopes := [
    DevstorageFullControlScope L;
    ComputeScope L;
    CloudPlatformScope L;
    "https://www.googleapis.com/auth/sqlservice";
    "https://www.googleapis.com/auth/sqlservice.admin"
  ];
  oauth2.RedirectURL := "urn:ietf:wg:oauth:2.0:oob"
|}.

(** What the prompt path logs and prints before the exchange request. *)
Definition promptEvents (L : GoLib) (f : Flags) (config : oauth2.Config)
    (err : error) (authCode : string) : list Event :=
  [EvLog (Log_ErrorGettingToken (tokenFileOf f) err);
   EvLog (Log_GetAuthCode (AuthCodeURL L config "my-state"));
   EvPrint "
Enter auth code: ";
   EvCall (Call_Exchange authCode)].

Definition withFile (name data : string) (st : State) : State :=
  {| flags := flags st; files := <[name := data]> (files st);
     stdin := stdin st; trace := trace st |}.

Definition withStdin (input : string) (st : State) : State :=
  {| flags := flags st; files := files st; stdin := input; trace := trace st |}.

(** The state after the one [Scan] of standard input. *)
Definition afterScan (W : World) (st : State) : State :=
  withStdin (dropBytes (Scan_consumed (Stdin_readAhead W (stdin st)) (stdin st))
               (stdin st)) st.

(** The files [fs'] are the files [fs], but for at most one write under
    [name]. *)
Definition wroteAtMost (name : string) (fs fs' : gmap string string) : Prop :=
  fs' = fs \/ exists data, fs' = <[name := data]> fs.

(** [input'] is [input] less what one [Scan] can take: a prefix of at most
    [MaxScanTokenSize] bytes. *)
Definition takenOff (input input' : string) : Prop :=
  exists n, (0 <= n <= MaxScanTokenSize)%Z /\ input' = dropBytes n input.

(** [baseConfig] up to the placeholder, and after it. *)
Definition configHead : string :=
  "#cloud-config
coreos:
  update:
    group: stable
    reboot-strategy: off
  units:
    - name: gobuild.service
      command: start
      content: |
        [Unit]
        Description=Go Builders
        After=docker.service
        Requires=docker.service
        
        [Service]
        ExecStartPre=/bin/bash -c 'mkdir -p /opt/bin && curl -s -o /opt/bin/coordinator.tmp ".

Definition configTail : string :=
  " && install -m 0755 /opt/bin/coordinator{.tmp,}'
        ExecStart=/opt/bin/coordinator
        RestartSec=10s
        Restart=always
        StartLimitInterval=0
        Type=simple
        
        [Install]
        WantedBy=multi-user.target
".

(** The user data for a coordinator URL, an optional (trimmed) key and the
    test on USER. *)
Definition userData (coordinatorURL : string) (key : option string) (bradfitz : bool)
  : string :=
  (configHead +:+ coordinatorURL +:+ configTail)
  +:+ match key with
      | Some k => Sprintf_ssh_authorized_keys k
      | None => ""
      end
  +:+ (if bradfitz then Sprintf_ssh_authorized_keys bradfitzKey else "").

(** The events of [n] iterations answered PENDING or RUNNING. *)
Fixpoint waitingEvents (svc : compute.Service) (f : Flags) (opName : string) (n : nat)
  : list Event :=
  match n with
  | O => []
  | S n' =>
      pollEvents svc f opName ++ [EvLog (Log_Waiting opName)]
      ++ waitingEvents svc f opName n'
  end.

(** An answer that keeps the loop polling. *)
Definition keepsPolling (answer : error + compute.Operation.t) : bool :=
  match answer with
  | inl _ => false
  | inr op =>
      (compute.Operation.Status op =? "PENDING")
      || (compute.Operation.Status op =? "RUNNING")
  end.

(** An answer on which the loop breaks: DONE without an error object. *)
Definition succeeds (answer : error + compute.Operation.t) : bool :=
  match answer with
  | inl _ => false
  | inr op =>
      negb (keepsPolling answer)
      && (compute.Operation.Status op =? "DONE")
      && match compute.Operation.Error op with
         | Some _ => false
         | None => true
         end
  end.

(** The first answer that does not keep the loop polling, if any. *)
Definition decisive (answers : list (error + compute.Operation.t))
  : option (error + compute.Operation.t) :=
  List.find (fun a => negb (keepsPolling a)) answers.

(** The run goes on to the final fetch: some answer is decisive and it is a
    DONE without an error object. *)
Definition reachesFetch (answers : list (error + compute.Operation.t)) : bool :=
  match decisive answers with
  | Some a => succeeds a
  | None => false
  end.

(** The requests of a trace, in order, by their place in the run:
    exchange 0, address listing 1, disk listing 2, insert 3, poll 4,
    fetch 5. *)
Definition requestOf (e : Event) : option nat :=
  match e with
  | EvCall (Call_Exchange _) => Some 0
  | EvCall (Call_AddressesAggregatedList _ _) => Some 1
  | EvCall (Call_DisksList _ _ _) => Some 2
  | EvCall (Call_InstancesInsert _ _ _ _) => Some 3
  | EvCall (Call_ZoneOperationsGet _ _ _ _) => Some 4
  | EvCall (Call_InstancesGet _ _ _ _) => Some 5
  | _ => None
  end.

Definition requests (evs : list Event) : list nat := omap requestOf evs.

(** [records P m]: every run of [m] only appends events to the trace, and
    the requests among them, in order, satisfy [P]. *)
Definition records {A} (P : list nat -> Prop) (m : M A) : Prop :=
  forall st o st', m st = (o, st') ->
    exists evs, st' = record evs st /\ P (requests evs).

(** The requests form a sublist of [p]: they come in the order of [p], each
    at most as often as [p] has it. *)
Definition within (p : list nat) : list nat -> Prop := fun l => sublist l p.

(** The requests of the poll loop and the final fetch: status requests,
    then at most one fetch. *)
Definition pollsThenFetch : list nat -> Prop :=
  fun l => exists n, sublist l (replicate n 4 ++ [5]).

(** [P1] followed by [P2]. *)
Definition andThen (P1 P2 : list nat -> Prop) : list nat -> Prop :=
  fun l => exists l1 l2, l = l1 ++ l2 /\ P1 l1 /\ P2 l2.

(** The instance literal of [main], lines 142-180. *)
Definition instanceOf (L : GoLib) (name prefix machType natIP cloudConfig : string)
    (disk : compute.AttachedDisk.t) : compute.Instance.t := {|
  compute.Instance.Name := name;
  compute.Instance.Description := "Go Builder";
  compute.Instance.MachineType := machType;
  compute.Instance.Disks := [disk];
  compute.Instance.Tags := Some ["http-server"; "https-server"; "allow-ssh"];
  compute.Instance.Metadata := Some [
    {| compute.MetadataItems.Key := "user-data";
       compute.MetadataItems.Value := Some cloudConfig |}
  ];
  compute.Instance.NetworkInterfaces := [
    {| compute.NetworkInterface.AccessConfigs := [
         {| compute.AccessConfig.Type_ := "ONE_TO_ONE_NAT";
            compute.AccessConfig.Name := "External NAT";
            compute.AccessConfig.NatIP := natIP |}
       ];
       compute.NetworkInterface.Network := prefix +:+ "/global/networks/default" |}
  ];
  compute.Instance.ServiceAccounts := fixedServiceAccounts L
|}.

(** [main] after [connect]: lines 110-219. *)
Definition provision (L : GoLib) (W : World) (computeService : compute.Service)
    (prefix machType : string) : M unit :=
  let* natIP := resolveNatIP W computeService in
  let* cloudConfig := renderCloudConfig L W in
  let* _ := checkCloudConfig cloudConfig in
  let* instance := buildInstance L W computeService prefix machType natIP cloudConfig in
  let* opName := createInstance W computeService instance in
  let* f := getFlags in
  awaitOperation W computeService opName
    (ZoneOperations_Get W computeService (proj f) (zone f) opName).

Create HintDb steps.

Section Rules.

Context (T : relation State) `{!PreOrder T}.

Lemma steps_ret {A} (R : A -> Prop) (a : A) : R a -> steps T R (ret a).
Proof.
  intros HR st o st' [= <- <-]. split; [reflexivity|].
  intros a' [= <-]. exact HR.
Qed.

Lemma steps_fatal {A} (R : A -> Prop) (m : FatalMsg) : steps T R (fatal m).
Proof. intros st o st' [= <- <-]. split; [reflexivity|]. intros a' [=]. Qed.

Lemma steps_waiting {A} (R : A -> Prop) : steps T R (@waiting A).
Proof. intros st o st' [= <- <-]. split; [reflexivity|]. intros a' [=]. Qed.

Lemma steps_getFlags (R : Flags -> Prop) : (forall f, R f) -> steps T R getFlags.
Proof.
  intros HR st o st' [= <- <-]. split; [reflexivity|]. intros a' [= <-]. apply HR.
Qed.

Lemma steps_ReadFile (name : string) (R : error + string -> Prop) :
  (forall r, R r) -> steps T R (ReadFile name).
Proof.
  intros HR st o st' H. unfold ReadFile in H.
  destruct (files st !! name); injection H as <- <-;
    (split; [reflexivity | intros a' [= <-]; apply HR]).
Qed.

Lemma steps_bind {A B} (R1 : A -> Prop) (R : B -> Prop) (m : M A) (k : A -> M B) :
  steps T R1 m -> (forall a, R1 a -> steps T R (k a)) -> steps T R (bind m k).
Proof.
  intros Hm Hk st o st' H. unfold bind in H.
  destruct (m st) as [[a | msg |] st1] eqn:E; destruct (Hm _ _ _ E) as [HT HR].
  - destruct (Hk a (HR a eq_refl) _ _ _ H) as [HT' HR'].
    split; [etransitivity; eassumption | exact HR'].
  - injection H as <- <-. split; [exact HT | intros a [=]].
  - injection H as <- <-. split; [exact HT | intros a [=]].
Qed.

Lemma steps_weaken {A} (R R' : A -> Prop) (m : M A) :
  (forall a, R a -> R' a) -> steps T R m -> steps T R' m.
Proof.
  intros HRR Hm st o st' H. destruct (Hm _ _ _ H) as [HT HR].
  split; [exact HT | intros a Ha; apply HRR, HR, Ha].
Qed.

End Rules.

Global Instance appends_preorder (Q : Event -> Prop) : PreOrder (appends Q).
Proof.
  split.
  - intros st. exists []. split; [by rewrite app_nil_r | constructor].
  - intros st1 st2 st3 (e1 & H1 & F1) (e2 & H2 & F2). exists (e1 ++ e2).
    split; [by rewrite H2, H1, app_assoc | by apply Forall_app].
Qed.

Global Instance sameFlags_preorder : PreOrder sameFlags.
Proof.
  split.
  - intros st. reflexivity.
  - intros st1 st2 st3 H1 H2. unfold sameFlags in *. congruence.
Qed.

Lemma steps_bind_any (T : relation State) `{!PreOrder T} {A B} (R : B -> Prop)
    (m : M A) (k : A -> M B) :
  steps T any m -> (forall a, steps T R (k a)) -> steps T R (bind m k).
Proof. intros Hm Hk. eapply steps_bind; [done | exact Hm | intros a _; apply Hk]. Qed.

Lemma added_record (evs : list Event) (st : State) : added st (record evs st) = evs.
Proof. unfold added, record. simpl. by rewrite drop_app_length. Qed.

Lemma added_appends (Q : Event -> Prop) (st st' : State) :
  appends Q st st' -> Forall Q (added st st').
Proof.
  intros (evs & E & F). unfold added. by rewrite E, drop_app_length.
Qed.

Lemma record_record (a b : list Event) (st : State) :
  record b (record a st) = record (a ++ b) st.
Proof. unfold record. simpl. by rewrite app_assoc. Qed.

Lemma emit_record (e : Event) (st : State) : emit e st = (Ret tt, record [e] st).
Proof. reflexivity. Qed.

(** The two relations used below are frames. *)
Lemma appends_frame (Q : Event -> Prop) :
  (forall e, isInsert e = false -> Q e) -> Frame (appends Q).
Proof.
  intros HQ. split.
  - apply _.
  - intros st st' _ E. exists []. split; [by rewrite app_nil_r | constructor].
  - intros e st He. exists [e]. split; [reflexivity | by constructor; [apply HQ|]].
Qed.

Global Instance sameFlags_frame : Frame sameFlags.
Proof.
  split.
  - apply _.
  - intros st st' E _. exact E.
  - intros e st _. reflexivity.
Qed.

Ltac steps_go :=
  repeat first
    [ apply steps_ret; [typeclasses eauto | try exact I]
    | apply steps_fatal; typeclasses eauto
    | apply steps_waiting; typeclasses eauto
    | solve [eauto with steps]
    | apply steps_bind_any; [typeclasses eauto | | intros ? ]
    | match goal with
      | |- steps _ _ (match ?x with _ => _ end) => destruct x
      | |- steps _ _ (bind (match ?x with _ => _ end) _) => destruct x
      | |- steps _ _ (let _ := _ in _) => cbv zeta
      end ].

(** ** The blocks that leave the flags alone and issue no insert request *)

Section Blocks.

Variable L : GoLib.
Variable W : World.
Context (T : relation State) `{!Frame T}.

Lemma frame_emit_any (e : Event) : isInsert e = false -> steps T any (emit e).
Proof.
  intros He st o st' [= <- <-]. split; [by apply frame_emit | done].
Qed.

Lemma frame_Printf (m : LogMsg) : steps T any (Printf m).
Proof. by apply frame_emit_any. Qed.

Lemma frame_getFlags : steps T any getFlags.
Proof. by apply steps_getFlags; [apply _|]. Qed.

Lemma frame_ReadFile (name : string) : steps T any (ReadFile name).
Proof. by apply steps_ReadFile; [apply _|]. Qed.

Lemma frame_Scan_Text : steps T any (Scan_Text W).
Proof.
  intros st o st' H. unfold Scan_Text in H. injection H as <- <-.
  split; [by apply frame_silent | done].
Qed.

Lemma frame_WriteFile (name data : string) : steps T any (WriteFile W name data).
Proof.
  intros st o st' H. unfold WriteFile in H.
  destruct (WriteFile_error W name); [destruct (WriteFile_written W name data)|];
    injection H as <- <-;
    (split; [first [by apply frame_silent | reflexivity] | done]).
Qed.

Hint Resolve frame_Printf frame_getFlags frame_ReadFile frame_Scan_Text
  frame_WriteFile : steps.
Hint Extern 1 (steps _ _ (emit _)) => apply frame_emit_any; reflexivity : steps.

Lemma frame_stagingPrefix : steps T any stagingPrefix.
Proof. unfold stagingPrefix. steps_go. Qed.

Lemma frame_readFile (v : string) : steps T any (readFile L v).
Proof. unfold readFile. steps_go. Qed.

Hint Resolve frame_stagingPrefix frame_readFile : steps.

Lemma frame_Token (f : tokenCacheFile) : steps T any (tokenCacheFile_Token L f).
Proof. unfold tokenCacheFile_Token. steps_go. Qed.

Lemma frame_WriteToken (f : tokenCacheFile) (t : oauth2.Token) :
  steps T any (tokenCacheFile_WriteToken L W f t).
Proof. unfold tokenCacheFile_WriteToken. steps_go. Qed.

Hint Resolve frame_Token frame_WriteToken : steps.

Lemma frame_tokenSource : steps T any (tokenSource L W).
Proof. unfold tokenSource, reuseTokenSource_Token. steps_go. Qed.

(** What [tokenSource] returns: the discovered default source, or nil. *)
Lemma frame_tokenSource_value :
  steps T (fun ts => match DefaultTokenSource W with
                     | inr d => ts = Some d
                     | inl _ => ts = None
                     end) (tokenSource L W).
Proof.
  unfold tokenSource, reuseTokenSource_Token. steps_go; reflexivity.
Qed.

Lemma frame_resolveNatIP (svc : compute.Service) : steps T any (resolveNatIP W svc).
Proof. unfold resolveNatIP. steps_go. Qed.

Lemma frame_renderCloudConfig : steps T any (renderCloudConfig L W).
Proof. unfold renderCloudConfig. steps_go. Qed.

Lemma frame_checkCloudConfig (c : string) : steps T any (checkCloudConfig c).
Proof. unfold checkCloudConfig. steps_go. Qed.

Lemma frame_instanceDisk (svc : compute.Service) : steps T any (instanceDisk W svc).
Proof. unfold instanceDisk. steps_go. Qed.

Lemma frame_logErrors (errs : list compute.OperationErrorErrors.t) :
  steps T any (logErrors errs).
Proof. induction errs as [|operr errs IH]; simpl; steps_go. Qed.

Hint Resolve frame_logErrors : steps.

Lemma frame_OpLoop (svc : compute.Service) (opName : string)
    (answers : list (error + compute.Operation.t)) :
  steps T any (OpLoop svc opName answers).
Proof. induction answers as [|answer later IH]; simpl; steps_go. Qed.

Lemma frame_describeInstance (svc : compute.Service) :
  steps T any (describeInstance W svc).
Proof. unfold describeInstance. steps_go. Qed.

Hint Resolve frame_OpLoop frame_describeInstance : steps.

Lemma frame_awaitOperation (svc : compute.Service) (opName : string)
    (answers : list (error + compute.Operation.t)) :
  steps T any (awaitOperation W svc opName answers).
Proof. unfold awaitOperation. steps_go. Qed.

End Blocks.

(** ** The operation poller *)

Section Poller.

Variable W : World.
Variable svc : compute.Service.
Variable opName : string.

Lemma logErrors_run (errs : list compute.OperationErrorErrors.t) (st : State) :
  logErrors errs st = (Ret tt, record (logged errs) st).
Proof.
  revert st. induction errs as [|operr errs IH]; intros st; cbn [logErrors].
  - unfold ret, record. simpl. rewrite app_nil_r. by destruct st.
  - unfold bind, Printf. rewrite emit_record, IH, record_record. reflexivity.
Qed.

(** An iteration answered PENDING or RUNNING logs and polls again. *)
Lemma OpLoop_still_running (op : compute.Operation.t)
    (later : list (error + compute.Operation.t)) (st : State) :
  stillRunning op ->
  OpLoop svc opName (inr op :: later) st
  = OpLoop svc opName later
      (record (pollEvents svc (flags st) opName ++ [EvLog (Log_Waiting opName)]) st).
Proof.
  intros Hop. cbn [OpLoop]. unfold bind, getFlags, Printf. rewrite !emit_record.
  cbn [flags record].
  replace ((compute.Operation.Status op =? "PENDING")
           || (compute.Operation.Status op =? "RUNNING")) with true
    by (destruct Hop as [-> | ->]; reflexivity).
  rewrite emit_record, !record_record. reflexivity.
Qed.

(** An iteration answered DONE leaves the loop one way or the other. *)
Lemma OpLoop_DONE (op : compute.Operation.t)
    (later : list (error + compute.Operation.t)) (st : State) :
  compute.Operation.Status op = "DONE" ->
  OpLoop svc opName (inr op :: later) st
  = match compute.Operation.Error op with
    | Some e =>
        (Exit Fatal_FailedToStart,
         record (pollEvents svc (flags st) opName
                 ++ logged (compute.OperationError.Errors e)) st)
    | None =>
        (Ret tt, record (pollEvents svc (flags st) opName ++ [EvLog (Log_Success op)]) st)
    end.
Proof.
  intros Hop. cbn [OpLoop]. unfold bind, getFlags, Printf. rewrite !emit_record.
  cbn [flags record]. rewrite Hop. cbn [String.eqb Ascii.eqb Bool.eqb orb].
  destruct (compute.Operation.Error op) as [e|].
  - rewrite logErrors_run. unfold fatal. rewrite !record_record. reflexivity.
  - rewrite emit_record, !record_record. reflexivity.
Qed.

Lemma polls_app (a b : list Event) : polls (a ++ b) = polls a + polls b.
Proof. unfold polls. by rewrite List.filter_app, length_app. Qed.

Lemma polls_logged (errs : list compute.OperationErrorErrors.t) : polls (logged errs) = 0.
Proof. induction errs as [|operr errs IH]; [reflexivity | exact IH]. Qed.

(** While the answers are PENDING or RUNNING the loop keeps polling: it
    has asked once per answer and has not left. *)
Lemma OpLoop_keeps_polling (pre : list compute.Operation.t) (st : State) :
  Forall stillRunning pre ->
  exists evs,
    OpLoop svc opName (map inr pre) st = (Waiting, record evs st)
    /\ polls evs = length pre.
Proof.
  intros Hpre. revert st.
  induction Hpre as [|op pre Hop _ IH]; intros st.
  - exists []. split; [|reflexivity]. simpl. unfold waiting, record.
    rewrite app_nil_r. by destruct st.
  - simpl map. rewrite OpLoop_still_running by exact Hop.
    destruct (IH (record (pollEvents svc (flags st) opName
                          ++ [EvLog (Log_Waiting opName)]) st)) as (evs & -> & Hn).
    eexists. split; [by rewrite record_record|].
    rewrite polls_app, Hn. reflexivity.
Qed.

(** After the PENDING or RUNNING answers, the DONE one ends the loop. *)
Lemma OpLoop_reaches_DONE (pre : list compute.Operation.t)
    (d : compute.Operation.t) (later : list (error + compute.Operation.t))
    (st : State) :
  Forall stillRunning pre ->
  compute.Operation.Status d = "DONE" ->
  exists evs,
    OpLoop svc opName (map inr pre ++ inr d :: later) st
    = (match compute.Operation.Error d with
       | Some _ => Exit Fatal_FailedToStart
       | None => Ret tt
       end, record evs st)
    /\ polls evs = S (length pre).
Proof.
  intros Hpre Hd. revert st. induction Hpre as [|op pre Hop _ IH]; intros st.
  - simpl app. rewrite OpLoop_DONE by exact Hd.
    destruct (compute.Operation.Error d) as [e|]; eexists; (split; [reflexivity|]);
      rewrite polls_app; try rewrite polls_logged; reflexivity.
  - simpl app. rewrite OpLoop_still_running by exact Hop.
    destruct (IH (record (pollEvents svc (flags st) opName
                          ++ [EvLog (Log_Waiting opName)]) st)) as (evs & -> & Hn).
    eexists. split; [by rewrite record_record|].
    rewrite polls_app, Hn. reflexivity.
Qed.

(** [C6] For every sequence of answers made of any finite number of
    PENDING or RUNNING operations followed by a DONE one, the poll loop
    leaves the loop (by [break] or by the fatal exit of a failed
    operation) having issued exactly one request per answer up to and
    including the DONE one, whatever answers would have followed; and on
    the PENDING or RUNNING answers alone it has not left. *)
Theorem OpLoop_leaves_on_DONE (pre : list compute.Operation.t)
    (d : compute.Operation.t) (later : list (error + compute.Operation.t))
    (st : State) :
  Forall stillRunning pre ->
  compute.Operation.Status d = "DONE" ->
  (exists st',
     OpLoop svc opName (map inr pre ++ inr d :: later) st
     = (match compute.Operation.Error d with
        | Some _ => Exit Fatal_FailedToStart
        | None => Ret tt
        end, st')
     /\ polls (added st st') = S (length pre))
  /\ (exists st',
        OpLoop svc opName (map inr pre) st = (Waiting, st')
        /\ polls (added st st') = length pre).
Proof.
  intros Hpre Hd. split.
  - destruct (OpLoop_reaches_DONE pre d later st Hpre Hd) as (evs & E & Hn).
    eexists. split; [exact E|]. by rewrite added_record.
  - destruct (OpLoop_keeps_polling pre st Hpre) as (evs & E & Hn).
    eexists. split; [exact E|]. by rewrite added_record.
Qed.

(** [C7] For every poll answer whose status is none of PENDING, RUNNING
    and DONE, the iteration that receives it ends the run through the fatal
    exit for an unknown status; nothing is requested after that one poll,
    whatever answers would have followed. *)
Theorem OpLoop_unknown_status_is_fatal (op : compute.Operation.t)
    (later : list (error + compute.Operation.t)) (st : State) :
  compute.Operation.Status op <> "PENDING" ->
  compute.Operation.Status op <> "RUNNING" ->
  compute.Operation.Status op <> "DONE" ->
  OpLoop svc opName (inr op :: later) st
  = (Exit (Fatal_UnknownStatus (compute.Operation.Status op) op),
     record (pollEvents svc (flags st) opName) st).
Proof.
  intros HP HR HD. cbn [OpLoop]. unfold bind, getFlags. rewrite !emit_record.
  cbn [flags record].
  apply String.eqb_neq in HP, HR, HD. rewrite HP, HR, HD. cbn [orb].
  unfold fatal. rewrite record_record. reflexivity.
Qed.

(** [C5, amended] For every poll answered DONE: if the operation carries
    an error object, the run ends in the fatal exit after logging every
    sub-error of its list, in order, and fetches nothing; if it carries
    none, the loop succeeds and the run performs exactly one fetch of the
    instance, ending normally when that fetch succeeds and in the fatal
    exit for it otherwise. *)
Theorem awaitOperation_on_DONE (op : compute.Operation.t)
    (later : list (error + compute.Operation.t)) (st : State) :
  compute.Operation.Status op = "DONE" ->
  let f := flags st in
  let fetch := EvCall (Call_InstancesGet svc (proj f) (zone f) (instName f)) in
  awaitOperation W svc opName (inr op :: later) st
  = match compute.Operation.Error op with
    | Some e =>
        (Exit Fatal_FailedToStart,
         record (pollEvents svc f opName ++ logged (compute.OperationError.Errors e)) st)
    | None =>
        match Instances_Get W svc (proj f) (zone f) (instName f) with
        | inr inst =>
            (Ret tt,
             record (pollEvents svc f opName
                     ++ [EvLog (Log_Success op); fetch; EvLog (Log_Instance inst)]) st)
        | inl err =>
            (Exit (Fatal_GetInstance err),
             record (pollEvents svc f opName ++ [EvLog (Log_Success op); fetch]) st)
        end
    end.
Proof.
  intros Hop f fetch. unfold awaitOperation, bind. rewrite OpLoop_DONE by exact Hop.
  destruct (compute.Operation.Error op) as [e|]; [reflexivity|].
  unfold describeInstance, bind, getFlags. rewrite emit_record.
  cbn [flags record]. fold f. destruct (Instances_Get W svc (proj f) (zone f) (instName f)) as [err|inst].
  - unfold fatal. rewrite record_record, <- app_assoc. reflexivity.
  - unfold Printf. rewrite emit_record, !record_record, <- !app_assoc. reflexivity.
Qed.

End Poller.

Lemma OpLoop_leaves_on_DONE_witness :
  (exists st',
     OpLoop Demo.service "operation-1"
       (map inr [Demo.pending; Demo.running] ++ [inr Demo.finished]) Demo.start
     = (Ret tt, st')
     /\ polls (added Demo.start st') = 3)
  /\ (exists st',
        OpLoop Demo.service "operation-1" (map inr [Demo.pending; Demo.running]) Demo.start
        = (Waiting, st')
        /\ polls (added Demo.start st') = 2).
Proof.
  apply (OpLoop_leaves_on_DONE Demo.service "operation-1"
           [Demo.pending; Demo.running] Demo.finished [] Demo.start).
  - constructor; [left; reflexivity|].
    constructor; [right; reflexivity|]. constructor.
  - reflexivity.
Defined.

Lemma OpLoop_unknown_status_is_fatal_witness :
  OpLoop Demo.service "operation-1" [inr Demo.suspended; inr Demo.finished] Demo.start
  = (Exit (Fatal_UnknownStatus "SUSPENDED" Demo.suspended),
     record (pollEvents Demo.service defaultFlags "operation-1") Demo.start).
Proof.
  apply (OpLoop_unknown_status_is_fatal Demo.service "operation-1"
           Demo.suspended [inr Demo.finished] Demo.start); simpl; discriminate.
Defined.

Lemma awaitOperation_on_DONE_witness :
  awaitOperation Demo.plain Demo.service "operation-1" [inr Demo.failed] Demo.start
  = (Exit Fatal_FailedToStart,
     record (pollEvents Demo.service defaultFlags "operation-1"
             ++ [EvLog (Log_Error Demo.quotaExceeded)]) Demo.start).
Proof.
  apply (awaitOperation_on_DONE Demo.plain Demo.service "operation-1"
           Demo.failed [] Demo.start).
  reflexivity.
Defined.

(** A DONE answer whose error object holds an empty list: the list is empty,
    yet the run ends in the fatal exit and fetches nothing. *)
Lemma DONE_as_specified_fails :
  ~ DONE_as_specified Demo.plain Demo.service "operation-1"
      Demo.doneEmptyErrors [] Demo.start.
Proof.
  intros H. destruct (H eq_refl) as [_ Hempty].
  destruct (Hempty eq_refl) as [Hret _].
  vm_compute in Hret. discriminate Hret.
Qed.

(** ** The disk resolver *)

Lemma diskLoop_matchingDisk (f : Flags) (dl : list compute.Disk.t) :
  diskLoop (diskNameOf f) dl = referenceDescriptor f <$> matchingDisk f dl.
Proof.
  unfold matchingDisk. induction dl as [|disk dl IH]; [reflexivity|].
  simpl. destruct (compute.Disk.Name disk =? diskNameOf f); [reflexivity | exact IH].
Qed.

Lemma solidStateURL_nonempty (f : Flags) : solidStateURL f <> "".
Proof. unfold solidStateURL. discriminate. Qed.

(** [C4] For every disk listing: when reuse is on and the listing holds a
    disk named <instanceName>-coreos-stateless-pd, [instanceDisk] returns the
    reference descriptor of the first such disk (its source the self-link of
    that disk, auto-delete off); otherwise (no such disk, or reuse off, in
    which case nothing is listed) it returns the descriptor of a fresh disk
    with auto-delete the negation of reuse, 50 GB, and as disk type the
    solid-state URL, which is never empty, when the SSD flag is on and the
    empty string when it is off. *)
Theorem instanceDisk_resolution (W : World) (svc : compute.Service)
    (dl : list compute.Disk.t) (st : State) :
  let f := flags st in
  (reuseDisk f = true -> Disks_List W svc (proj f) (zone f) = inr dl) ->
  (exists st',
     instanceDisk W svc st
     = (Ret (match (if reuseDisk f then matchingDisk f dl else None) with
             | Some disk => referenceDescriptor f disk
             | None => freshDescriptor f
             end), st'))
  /\ solidStateURL f <> "".
Proof.
  intros f Hlist. split; [|apply solidStateURL_nonempty].
  unfold instanceDisk, bind, getFlags. fold f.
  destruct (reuseDisk f) eqn:Hreuse.
  - rewrite emit_record. cbn [flags record]. fold f. rewrite (Hlist eq_refl).
    unfold ret. fold (diskNameOf f). rewrite diskLoop_matchingDisk.
    destruct (matchingDisk f dl) as [disk|]; simpl.
    + eexists. reflexivity.
    + eexists. unfold freshDescriptor. rewrite Hreuse. reflexivity.
  - unfold ret. eexists. unfold freshDescriptor. rewrite Hreuse. reflexivity.
Qed.

Lemma instanceDisk_resolution_witness :
  (exists st',
     instanceDisk Demo.withDisk Demo.service Demo.start
     = (Ret (referenceDescriptor defaultFlags Demo.farmerDisk), st'))
  /\ solidStateURL defaultFlags <> "".
Proof.
  apply (instanceDisk_resolution Demo.withDisk Demo.service [Demo.farmerDisk] Demo.start).
  intros _. reflexivity.
Defined.

(** ** The user data *)

Lemma len_app (a b : string) : len (a +:+ b) = (len a + len b)%Z.
Proof. induction a as [|c a IH]; simpl; [reflexivity | rewrite IH; lia]. Qed.

Lemma len_nonneg (a : string) : (0 <= len a)%Z.
Proof. induction a as [|c a IH]; simpl; lia. Qed.

Lemma append_stanza_differs (cfg key : string) :
  cfg +:+ Sprintf_ssh_authorized_keys key <> cfg.
Proof.
  intros E. apply (f_equal len) in E. rewrite len_app in E.
  unfold Sprintf_ssh_authorized_keys in E. rewrite !len_app in E.
  pose proof (len_nonneg key). simpl in E. lia.
Qed.

(** [C9] The user data is not a function of the flags and files alone: from
    one and the same state (flags, template, key file), a run whose USER is
    not bradfitz renders some text, and then every run whose USER is
    bradfitz renders that text followed by the stanza of the hard-coded
    key, which is a different text, while every run whose USER is not
    bradfitz renders that text itself. *)
Theorem cloudConfig_depends_on_USER (L : GoLib) (W W' : World) (st st' : State)
    (cfg : string) :
  Getenv W "USER" <> "bradfitz" ->
  renderCloudConfig L W st = (Ret cfg, st') ->
  (Getenv W' "USER" = "bradfitz" ->
     renderCloudConfig L W' st
     = (Ret (cfg +:+ Sprintf_ssh_authorized_keys bradfitzKey), st'))
  /\ (Getenv W' "USER" <> "bradfitz" -> renderCloudConfig L W' st = (Ret cfg, st'))
  /\ cfg +:+ Sprintf_ssh_authorized_keys bradfitzKey <> cfg.
Proof.
  intros HW Hrun. apply String.eqb_neq in HW.
  unfold renderCloudConfig, bind, getFlags in *. rewrite HW in Hrun.
  destruct (negb (sshPub (flags st) =? "")).
  - destruct (readFile L (sshPub (flags st)) st) as [[k|m|] st1];
      unfold ret in *; try discriminate Hrun.
    injection Hrun as <- <-. repeat split.
    + intros ->. reflexivity.
    + intros HW'. apply String.eqb_neq in HW'. rewrite HW'. reflexivity.
    + apply append_stanza_differs.
  - unfold ret in *. injection Hrun as <- <-. repeat split.
    + intros ->. reflexivity.
    + intros HW'. apply String.eqb_neq in HW'. rewrite HW'. reflexivity.
    + apply append_stanza_differs.
Qed.

Lemma cloudConfig_depends_on_USER_witness :
  let cfg :=
    Replace baseConfig "$COORDINATOR"
      "https://storage.googleapis.com/go-builder-data/coordinator" 1 in
  (Getenv Demo.asBradfitz "USER" = "bradfitz" ->
     renderCloudConfig Demo.lib Demo.asBradfitz Demo.start
     = (Ret (cfg +:+ Sprintf_ssh_authorized_keys bradfitzKey), Demo.start))
  /\ (Getenv Demo.asBradfitz "USER" <> "bradfitz" ->
        renderCloudConfig Demo.lib Demo.asBradfitz Demo.start = (Ret cfg, Demo.start))
  /\ cfg +:+ Sprintf_ssh_authorized_keys bradfitzKey <> cfg.
Proof.
  apply (cloudConfig_depends_on_USER Demo.lib Demo.plain Demo.asBradfitz
           Demo.start Demo.start).
  - simpl. discriminate.
  - reflexivity.
Defined.

(** ** The text of a token

    What [encoding/json] writes for a token it reads back, up to the repair
    of ill-formed strings. *)

Lemma append_cons (a : ascii) (s t : string) : String a s +:+ t = String a (s +:+ t).
Proof. reflexivity. Qed.

Lemma append_nil_l (t : string) : "" +:+ t = t.
Proof. reflexivity. Qed.

Lemma append_assoc (a b c : string) : (a +:+ b) +:+ c = a +:+ (b +:+ c).
Proof.
  induction a as [|x a IH]; [reflexivity|].
  rewrite !append_cons, IH. reflexivity.
Qed.

Lemma byte_range (a : ascii) : (0 <= byte a < 256)%Z.
Proof.
  unfold byte. pose proof (N_ascii_bounded a). lia.
Qed.

Lemma ascii_of_Z_byte (a : ascii) : ascii_of_Z (byte a) = a.
Proof.
  unfold ascii_of_Z, byte. rewrite N2Z.id. apply ascii_N_embedding.
Qed.

Lemma forallb_seqZ (P : Z -> bool) (lo n : Z) :
  forallb P (seqZ lo n) = true -> forall z, (lo <= z < lo + n)%Z -> P z = true.
Proof.
  intros H z Hz. rewrite forallb_forall in H. apply H.
  apply list_elem_of_In, elem_of_seqZ. lia.
Qed.

Lemma Decode2_no_separator :
  forallb (fun c0 => forallb (fun c1 =>
    negb (lineSeparator (fst (utf8.DecodeRuneInString (bytes2 c0 c1)))))
    (seqZ 128 64)) (seqZ 192 32) = true.
Proof. vm_compute. reflexivity. Qed.

Lemma Decode3_separator :
  forallb (fun c0 => forallb (fun c1 => forallb (fun c2 =>
    let c := fst (utf8.DecodeRuneInString (bytes3 c0 c1 c2)) in
    if lineSeparator c then String.eqb (utf8.EncodeRune c) (bytes3 c0 c1 c2) else true)
    (seqZ 128 64)) (seqZ 128 64)) (seqZ 224 16) = true.
Proof. vm_compute. reflexivity. Qed.

Lemma DecodeRune_shape (a0 : ascii) (s1 : string) (c size : Z) :
  utf8.DecodeRuneInString (String a0 s1) = (c, size) ->
  (byte a0 <? 128)%Z = false ->
  ((c =? utf8.RuneError)%Z && (size =? 1)%Z) = false ->
  (size = 2%Z /\ lineSeparator c = false
   /\ exists a1 s2, s1 = String a1 s2
        /\ forall t, utf8.DecodeRuneInString (String a0 (String a1 t)) = (c, 2%Z))
  \/ (size = 3%Z
      /\ exists a1 a2 s3, s1 = String a1 (String a2 s3)
           /\ (forall t, utf8.DecodeRuneInString (String a0 (String a1 (String a2 t)))
                         = (c, 3%Z))
           /\ (lineSeparator c = true
               -> utf8.EncodeRune c = String a0 (String a1 (String a2 ""))))
  \/ (size = 4%Z /\ lineSeparator c = false
      /\ exists a1 a2 a3 s4, s1 = String a1 (String a2 (String a3 s4))
           /\ forall t,
                utf8.DecodeRuneInString (String a0 (String a1 (String a2 (String a3 t))))
                = (c, 4%Z)).
Proof.
  intros Hd Hb Herr.
  assert (Hbad : (utf8.RuneError, 1%Z) = (c, size) -> False).
  { intros E. injection E as <- <-. discriminate Herr. }
  unfold utf8.DecodeRuneInString in Hd. rewrite Hb in Hd.
  destruct (byte a0 <? 192)%Z eqn:H192; [tauto|].
  destruct s1 as [|a1 s2]; [tauto|].
  destruct ((byte a1 <? 128)%Z || (192 <=? byte a1)%Z) eqn:Hc1; [tauto|].
  destruct (byte a0 <? 224)%Z eqn:H224.
  { cbv zeta in Hd.
    destruct (_ <=? 127)%Z eqn:Hr in Hd; [tauto|]. injection Hd as <- <-.
    left. split; [reflexivity|]. split.
    - pose proof (forallb_seqZ _ _ _ Decode2_no_separator (byte a0) ltac:(lia)) as H1.
      cbv beta in H1.
      pose proof (forallb_seqZ _ _ _ H1 (byte a1) ltac:(lia)) as H2. cbv beta in H2.
      unfold bytes2 in H2. rewrite !ascii_of_Z_byte in H2.
      unfold utf8.DecodeRuneInString in H2.
      rewrite Hb, H192, Hc1, H224 in H2. cbv zeta in H2. rewrite Hr in H2.
      cbn [fst] in H2. by apply negb_true_iff in H2.
    - exists a1, s2. split; [reflexivity|]. intros t.
      unfold utf8.DecodeRuneInString. rewrite Hb, H192, Hc1, H224. cbv zeta.
      rewrite Hr. reflexivity. }
  destruct s2 as [|a2 s3]; [tauto|].
  destruct ((byte a2 <? 128)%Z || (192 <=? byte a2)%Z) eqn:Hc2; [tauto|].
  destruct (byte a0 <? 240)%Z eqn:H240.
  { cbv zeta in Hd.
    destruct (_ <=? 2047)%Z eqn:Hr in Hd; [tauto|].
    destruct ((55296 <=? _)%Z && (_ <=? 57343)%Z) eqn:Hs in Hd; [tauto|].
    injection Hd as <- <-.
    right. left. split; [reflexivity|]. exists a1, a2, s3. split; [reflexivity|].
    assert (E : forall t, utf8.DecodeRuneInString (String a0 (String a1 (String a2 t)))
                = (Z.lor (Z.lor (Z.shiftl (Z.land (byte a0) 15) 12)
                            (Z.shiftl (Z.land (byte a1) 63) 6))
                     (Z.land (byte a2) 63), 3%Z)).
    { intros t. unfold utf8.DecodeRuneInString.
      rewrite Hb, H192, Hc1, H224, Hc2, H240. cbv zeta. rewrite Hr, Hs. reflexivity. }
    split; [exact E|]. intros Hsep.
    pose proof (forallb_seqZ _ _ _ Decode3_separator (byte a0) ltac:(lia)) as H1.
    cbv beta in H1.
    pose proof (forallb_seqZ _ _ _ H1 (byte a1) ltac:(lia)) as H2. cbv beta in H2.
    pose proof (forallb_seqZ _ _ _ H2 (byte a2) ltac:(lia)) as H3. cbv beta zeta in H3.
    unfold bytes3 in H3. rewrite !ascii_of_Z_byte in H3.
    rewrite E in H3. cbn [fst] in H3. rewrite Hsep in H3.
    by apply String.eqb_eq in H3. }
  destruct s3 as [|a3 s4]; [tauto|].
  destruct ((byte a3 <? 128)%Z || (192 <=? byte a3)%Z) eqn:Hc3; [tauto|].
  destruct (byte a0 <? 248)%Z eqn:H248; [|tauto].
  cbv zeta in Hd.
  destruct ((_ <=? 65535)%Z || (1114111 <? _)%Z) eqn:Hr in Hd; [tauto|].
  injection Hd as <- <-.
  right. right. split; [reflexivity|]. split.
  - apply orb_false_iff in Hr as [Hr _]. unfold lineSeparator. lia.
  - exists a1, a2, a3, s4. split; [reflexivity|]. intros t.
    unfold utf8.DecodeRuneInString.
    rewrite Hb, H192, Hc1, H224, Hc2, H240, Hc3, H248. cbv zeta. rewrite Hr. reflexivity.
Qed.

Lemma stringBody_cons (sb : bool) (a0 : ascii) (s1 : string) :
  json.stringBody sb (String a0 s1)
  = if (byte a0 <? 128)%Z then json.escape sb a0 +:+ json.stringBody sb s1
    else
      let '(c, size) := utf8.DecodeRuneInString (String a0 s1) in
      if (c =? utf8.RuneError)%Z && (size =? 1)%Z
      then String backslash "ufffd" +:+ json.stringBody sb s1
      else
        let out (raw : string) :=
          if (c =? 8232)%Z || (c =? 8233)%Z
          then String backslash ("u202" +:+ String (json.hex (Z.land c 15)) "")
          else raw in
        match size, s1 with
        | 2%Z, String a1 s2 =>
            out (String a0 (String a1 "")) +:+ json.stringBody sb s2
        | 3%Z, String a1 (String a2 s3) =>
            out (String a0 (String a1 (String a2 ""))) +:+ json.stringBody sb s3
        | 4%Z, String a1 (String a2 (String a3 s4)) =>
            out (String a0 (String a1 (String a2 (String a3 ""))))
            +:+ json.stringBody sb s4
        | _, _ => json.stringBody sb s1
        end.
Proof. reflexivity. Qed.

Lemma unquoteBody_high (a0 : ascii) (s1 : string) :
  (byte a0 <? 128)%Z = false ->
  json.unquoteBody (String a0 s1)
  = let '(c, size) := utf8.DecodeRuneInString (String a0 s1) in
    if (c =? utf8.RuneError)%Z && (size =? 1)%Z then None
    else
      match size, s1 with
      | 2%Z, String a1 s2 =>
          json.prepend (String a0 (String a1 "")) (json.unquoteBody s2)
      | 3%Z, String a1 (String a2 s3) =>
          json.prepend (String a0 (String a1 (String a2 ""))) (json.unquoteBody s3)
      | 4%Z, String a1 (String a2 (String a3 s4)) =>
          json.prepend (String a0 (String a1 (String a2 (String a3 ""))))
            (json.unquoteBody s4)
      | _, _ => None
      end.
Proof.
  intros Hb.
  change (json.unquoteBody (String a0 s1)) with
    (let b := byte a0 in
     if (b =? 34)%Z then Some ("", s1)
     else if (b =? 92)%Z then
       match s1 with
       | EmptyString => None
       | String e s2 =>
           let c := byte e in
           if (c =? 34)%Z || (c =? 92)%Z || (c =? 47)%Z
           then json.prepend (String e "") (json.unquoteBody s2)
           else if (c =? 98)%Z then json.prepend (String "008"%char "") (json.unquoteBody s2)
           else if (c =? 102)%Z then json.prepend (String "012"%char "") (json.unquoteBody s2)
           else if (c =? 110)%Z then json.prepend (String "010"%char "") (json.unquoteBody s2)
           else if (c =? 114)%Z then json.prepend (String "013"%char "") (json.unquoteBody s2)
           else if (c =? 116)%Z then json.prepend (String "009"%char "") (json.unquoteBody s2)
           else if (c =? 117)%Z then
             match s2 with
             | String h1 (String h2 (String h3 (String h4 s6))) =>
                 match json.getu4 h1 h2 h3 h4 with
                 | Some rr =>
                     if (55296 <=? rr)%Z && (rr <=? 57343)%Z then None
                     else json.prepend (utf8.EncodeRune rr) (json.unquoteBody s6)
                 | None => None
                 end
             | _ => None
             end
           else None
       end
     else if (b <? 32)%Z then None
     else if (b <? 128)%Z then json.prepend (String a0 "") (json.unquoteBody s1)
     else
       let '(c, size) := utf8.DecodeRuneInString (String a0 s1) in
       if (c =? utf8.RuneError)%Z && (size =? 1)%Z then None
       else
         match size, s1 with
         | 2%Z, String a1 s2 =>
             json.prepend (String a0 (String a1 "")) (json.unquoteBody s2)
         | 3%Z, String a1 (String a2 s3) =>
             json.prepend (String a0 (String a1 (String a2 ""))) (json.unquoteBody s3)
         | 4%Z, String a1 (String a2 (String a3 s4)) =>
             json.prepend (String a0 (String a1 (String a2 (String a3 ""))))
               (json.unquoteBody s4)
         | _, _ => None
         end).
  cbv zeta.
  assert (H1 : (byte a0 =? 34)%Z = false) by lia.
  assert (H2 : (byte a0 =? 92)%Z = false) by lia.
  assert (H3 : (byte a0 <? 32)%Z = false) by lia.
  rewrite H1, H2, H3, Hb. reflexivity.
Qed.

Lemma unquoteBody_escape (sb : bool) (a : ascii) (t : string) :
  (byte a <? 128)%Z = true ->
  json.unquoteBody (json.escape sb a +:+ t)
  = json.prepend (String a "") (json.unquoteBody t).
Proof.
  destruct sb; destruct a as [[] [] [] [] [] [] [] []]; intros H;
    try discriminate H; reflexivity.
Qed.

Lemma unquoteBody_separator (c : Z) (t : string) :
  lineSeparator c = true ->
  json.unquoteBody
    (String backslash ("u202" +:+ String (json.hex (Z.land c 15)) "") +:+ t)
  = json.prepend (utf8.EncodeRune c) (json.unquoteBody t).
Proof.
  unfold lineSeparator. intros H.
  assert (E : c = 8232%Z \/ c = 8233%Z) by lia.
  destruct E as [-> | ->]; reflexivity.
Qed.


Lemma repaired_cons (a0 : ascii) (s1 : string) :
  repaired (String a0 s1)
  = if (byte a0 <? 128)%Z then String a0 (repaired s1)
    else
      let '(c, size) := utf8.DecodeRuneInString (String a0 s1) in
      if (c =? utf8.RuneError)%Z && (size =? 1)%Z
      then utf8.EncodeRune utf8.RuneError +:+ repaired s1
      else
        match size, s1 with
        | 2%Z, String a1 s2 => String a0 (String a1 (repaired s2))
        | 3%Z, String a1 (String a2 s3) => String a0 (String a1 (String a2 (repaired s3)))
        | 4%Z, String a1 (String a2 (String a3 s4)) =>
            String a0 (String a1 (String a2 (String a3 (repaired s4))))
        | _, _ => repaired s1
        end.
Proof. reflexivity. Qed.


(** What the decoder reads from the literal the encoder wrote for [s]: [s]
    repaired. *)
Lemma unquoteBody_stringBody (sb : bool) (n : nat) :
  forall s, (String.length s < n)%nat ->
  forall rest,
    json.unquoteBody (json.stringBody sb s +:+ String dquote rest)
    = Some (repaired s, rest).
Proof.
  induction n as [|n IH]; intros s Hlen rest; [lia|].
  destruct s as [|a0 s1]; [reflexivity|].
  rewrite stringBody_cons, repaired_cons.
  cbn [String.length] in Hlen.
  destruct (byte a0 <? 128)%Z eqn:Hb.
  { rewrite append_assoc, unquoteBody_escape by exact Hb.
    rewrite IH by lia. reflexivity. }
  destruct (utf8.DecodeRuneInString (String a0 s1)) as [c size] eqn:Hd.
  destruct ((c =? utf8.RuneError)%Z && (size =? 1)%Z) eqn:Herr.
  { rewrite append_assoc.
    change (json.unquoteBody (String backslash "ufffd" +:+ json.stringBody sb s1
                              +:+ String dquote rest))
      with (json.prepend (utf8.EncodeRune utf8.RuneError)
              (json.unquoteBody (json.stringBody sb s1 +:+ String dquote rest))).
    rewrite IH by lia. reflexivity. }
  destruct (DecodeRune_shape a0 s1 c size Hd Hb Herr)
    as [(-> & Hsep & a1 & s2 & -> & Hpre)
       | [(-> & a1 & a2 & s3 & -> & Hpre & Henc)
         | (-> & Hsep & a1 & a2 & a3 & s4 & -> & Hpre)]];
    cbn [String.length] in Hlen.
  - fold (lineSeparator c). rewrite Hsep. cbv beta zeta.
    rewrite !append_cons, append_nil_l.
    rewrite unquoteBody_high by exact Hb. rewrite Hpre, Herr.
    rewrite IH by lia. reflexivity.
  - fold (lineSeparator c). destruct (lineSeparator c) eqn:Hsep.
    + cbv beta zeta. rewrite append_assoc, unquoteBody_separator by exact Hsep.
      rewrite IH by lia.
      rewrite Henc by reflexivity. reflexivity.
    + cbv beta zeta. rewrite !append_cons, append_nil_l.
      rewrite unquoteBody_high by exact Hb. rewrite Hpre, Herr.
      rewrite IH by lia. reflexivity.
  - fold (lineSeparator c). rewrite Hsep. cbv beta zeta.
    rewrite !append_cons, append_nil_l.
    rewrite unquoteBody_high by exact Hb. rewrite Hpre, Herr.
    rewrite IH by lia. reflexivity.
Qed.


(** ** The text form of a [Time] *)

Lemma byte_ascii_of_Z (z : Z) : (0 <= z < 256)%Z -> byte (ascii_of_Z z) = z.
Proof.
  intros H. unfold byte, ascii_of_Z. rewrite N_ascii_embedding; lia.
Qed.

Lemma digitVal_digit (d : Z) : (0 <= d < 10)%Z -> time.digitVal (time.digit d) = Some d.
Proof.
  intros H. unfold time.digitVal, time.digit. rewrite byte_ascii_of_Z by lia.
  replace ((48 <=? 48 + d)%Z && (48 + d <=? 57)%Z) with true by lia.
  f_equal. lia.
Qed.

Lemma appendInt_2 :
  forallb (fun x => String.eqb (time.appendInt x 2)
                      (String (time.digit (x / 10)) (String (time.digit (x mod 10)) "")))
    (seqZ 0 100) = true.
Proof. vm_compute. reflexivity. Qed.

Lemma appendInt_4 :
  forallb (fun y => String.eqb (time.appendInt y 4)
                      (time.appendInt (y / 100) 2 +:+ time.appendInt (y mod 100) 2))
    (seqZ 0 10000) = true.
Proof. vm_compute. reflexivity. Qed.

Lemma read2_appendInt (x : Z) (rest : string) :
  (0 <= x < 100)%Z -> time.read2 (time.appendInt x 2 +:+ rest) = Some (x, rest).
Proof.
  intros H. pose proof (forallb_seqZ _ _ _ appendInt_2 x ltac:(lia)) as E.
  cbv beta in E. apply String.eqb_eq in E. rewrite E.
  rewrite !append_cons, append_nil_l. unfold time.read2.
  rewrite !digitVal_digit.
  - do 2 f_equal. pose proof (Z.div_mod x 10). lia.
  - pose proof (Z.mod_pos_bound x 10). lia.
  - split; [apply Z.div_pos; lia | apply Z.div_lt_upper_bound; lia].
Qed.

Lemma read4_appendInt (y : Z) (rest : string) :
  (0 <= y < 10000)%Z -> time.read4 (time.appendInt y 4 +:+ rest) = Some (y, rest).
Proof.
  intros H. pose proof (forallb_seqZ _ _ _ appendInt_4 y ltac:(lia)) as E.
  cbv beta in E. apply String.eqb_eq in E. rewrite E. unfold time.read4.
  rewrite append_assoc, read2_appendInt.
  - rewrite read2_appendInt.
    + do 2 f_equal. pose proof (Z.div_mod y 100). lia.
    + pose proof (Z.mod_pos_bound y 100). lia.
  - split; [apply Z.div_pos; lia | apply Z.div_lt_upper_bound; lia].
Qed.

Lemma valueRev_digitsRev (k : nat) :
  forall u, (0 <= u)%Z -> valueRev (time.digitsRev k u) = (u mod 10 ^ Z.of_nat k)%Z.
Proof.
  induction k as [|k IH]; intros u Hu.
  - cbn. rewrite Z.mod_1_r. reflexivity.
  - cbn [time.digitsRev valueRev]. rewrite IH by (apply Z.div_pos; lia).
    rewrite Nat2Z.inj_succ, Z.pow_succ_r by lia.
    rewrite Z.rem_mul_r by lia. reflexivity.
Qed.

Lemma digitsRev_length (k : nat) : forall u, length (time.digitsRev k u) = k.
Proof. induction k as [|k IH]; intros u; cbn; [reflexivity | by rewrite IH]. Qed.

Lemma digitsRev_range (k : nat) :
  forall u, Forall (fun d => (0 <= d < 10)%Z) (time.digitsRev k u).
Proof.
  induction k as [|k IH]; intros u; cbn; constructor; [|apply IH].
  pose proof (Z.mod_pos_bound u 10). lia.
Qed.

Lemma dropZeros_spec (l : list Z) :
  Forall (fun d => (0 <= d < 10)%Z) l ->
  exists z : nat,
    length l = (z + length (time.dropZeros l))%nat
    /\ valueRev l = (10 ^ Z.of_nat z * valueRev (time.dropZeros l))%Z
    /\ Forall (fun d => (0 <= d < 10)%Z) (time.dropZeros l)
    /\ (time.dropZeros l = [] -> valueRev l = 0%Z).
Proof.
  induction 1 as [|d l Hd Hl IH].
  - exists 0%nat. cbn. split; [reflexivity|]. split; [reflexivity|].
    split; [constructor | reflexivity].
  - cbn [time.dropZeros]. destruct (d =? 0)%Z eqn:E.
    + destruct IH as (z & H1 & H2 & H3 & H4). exists (S z).
      apply Z.eqb_eq in E. subst d. cbn [length valueRev].
      rewrite Nat2Z.inj_succ, Z.pow_succ_r by lia.
      split; [lia|]. split; [lia|]. split; [exact H3|].
      intros H0. rewrite H4 by exact H0. reflexivity.
    + exists 0%nat. cbn [length valueRev Nat.add].
      split; [reflexivity|]. split; [cbn; lia|].
      split; [by constructor | discriminate].
Qed.

Lemma fold_left_rev_value (l : list Z) :
  fold_left (fun acc d => acc * 10 + d)%Z (rev l) 0%Z = valueRev l.
Proof.
  induction l as [|d l IH]; [reflexivity|].
  cbn [rev valueRev]. rewrite fold_left_app. cbn [fold_left]. rewrite IH. lia.
Qed.

Lemma readDigits_digitString (ds : list Z) (t : string) :
  Forall (fun d => (0 <= d < 10)%Z) ds ->
  endsNumber t ->
  time.readDigits (time.digitString ds +:+ t) = (ds, t).
Proof.
  intros Hds Ht. induction Hds as [|d ds Hd _ IH].
  - rewrite append_nil_l. destruct t as [|a t]; [reflexivity|].
    cbn [time.readDigits]. destruct Ht as [-> _]. reflexivity.
  - cbn [time.digitString]. rewrite append_cons. cbn [time.readDigits].
    rewrite digitVal_digit by exact Hd. rewrite IH. reflexivity.
Qed.

Lemma readNano_formatNano (ns : Z) (t : string) :
  (0 <= ns < 1000000000)%Z ->
  endsNumber t ->
  time.readNano (time.formatNano ns +:+ t) = Some (ns, t).
Proof.
  intros Hns Ht. unfold time.formatNano.
  pose proof (valueRev_digitsRev 9 ns ltac:(lia)) as Hval.
  rewrite Z.mod_small in Hval by lia.
  destruct (dropZeros_spec _ (digitsRev_range 9 ns)) as (z & Hlen & Hz & Hr & H0).
  rewrite digitsRev_length in Hlen.
  destruct (rev (time.dropZeros (time.digitsRev 9 ns))) as [|d ds] eqn:E.
  - assert (E' : time.dropZeros (time.digitsRev 9 ns) = []).
    { apply (f_equal (@rev Z)) in E. by rewrite rev_involutive in E. }
    rewrite append_nil_l. rewrite H0 in Hval by exact E'. subst ns.
    unfold time.readNano. destruct t as [|a t]; [reflexivity|].
    destruct Ht as [_ Ha].
    destruct (Ascii.eqb_spec a "."%char) as [->|_]; [done|].
    destruct a as [[] [] [] [] [] [] [] []]; try reflexivity. done.
  - rewrite append_cons. unfold time.readNano.
    assert (Hf : Forall (fun d => (0 <= d < 10)%Z) (d :: ds)).
    { rewrite <- E. apply Forall_rev, Hr. }
    rewrite readDigits_digitString by assumption.
    assert (Hk : length (d :: ds) = length (time.dropZeros (time.digitsRev 9 ns))).
    { rewrite <- E. apply length_rev. }
    assert (Hk1 : (1 <= length (d :: ds) <= 9)%nat) by (cbn [length] in *; lia).
    replace ((1 <=? length (d :: ds))%nat && (length (d :: ds) <=? 9)%nat) with true.
    2:{ symmetry. apply andb_true_iff. split; apply Nat.leb_le; lia. }
    do 2 f_equal. rewrite <- E, fold_left_rev_value, length_rev.
    replace (9 - length (time.dropZeros (time.digitsRev 9 ns)))%nat with z by lia.
    rewrite Z.mul_comm, <- Hz. exact Hval.
Qed.

Lemma expect_cons (a : ascii) (s : string) :
  time.expect a (String a "" +:+ s) = Some s.
Proof.
  rewrite append_cons, append_nil_l. unfold time.expect.
  by rewrite Ascii.eqb_refl.
Qed.

Lemma formatZone_endsNumber (off : Z) (t : string) :
  endsNumber (time.formatZone off +:+ t).
Proof.
  unfold time.formatZone. destruct (off =? 0)%Z; [by split|].
  cbv zeta. destruct (_ <? 0)%Z; by split.
Qed.

Lemma readZone_formatZone (off : Z) (rest : string) :
  (Z.rem off 60 = 0)%Z -> (-86400 < off < 86400)%Z ->
  time.readZone (time.formatZone off +:+ rest) = Some (off, rest).
Proof.
  intros Hrem Hoff. unfold time.formatZone.
  destruct (off =? 0)%Z eqn:E0.
  { apply Z.eqb_eq in E0. subst off. reflexivity. }
  cbv zeta. pose proof (Z.quot_rem' off 60) as Hq. rewrite Hrem in Hq.
  set (zone := Z.quot off 60) in *.
  assert (Hz : (0 < Z.abs zone < 1440)%Z) by lia.
  pose proof (Z.div_mod (Z.abs zone) 60 ltac:(lia)) as Hdm.
  pose proof (Z.mod_pos_bound (Z.abs zone) 60 ltac:(lia)) as Hm.
  assert (Hh : (0 <= Z.abs zone / 60 < 24)%Z).
  { split; [apply Z.div_pos; lia | apply Z.div_lt_upper_bound; lia]. }
  destruct (zone <? 0)%Z eqn:Es;
    rewrite !append_assoc, append_cons, append_nil_l;
    unfold time.readZone; cbn [Ascii.eqb Bool.eqb orb];
    rewrite read2_appendInt by lia;
    rewrite expect_cons, read2_appendInt by lia;
    (replace ((Z.abs zone / 60 <=? 23)%Z && (Z.abs zone mod 60 <=? 59)%Z) with true by lia);
    do 2 f_equal; lia.
Qed.

Lemma daysIn_le (m y : Z) : (time.daysIn m y <= 31)%Z.
Proof.
  unfold time.daysIn. destruct (m =? 2)%Z; [destruct (time.isLeap y); lia|].
  destruct (_ || _); lia.
Qed.

(** The time round trip: the text written for a [Time] is read back as that
    [Time]. *)
Lemma parseRFC3339_format (t : time.Time) (rest : string) :
  time.wellFormed t = true ->
  minuteZone t = true ->
  (0 <= time.year t < 10000)%Z ->
  time.parseRFC3339 (time.formatRFC3339Nano t +:+ rest) = Some (t, rest).
Proof.
  intros Hw Hz Hy. pose proof Hw as Hw'. unfold time.wellFormed in Hw'.
  unfold minuteZone in Hz.
  destruct t as [y mo d h mi s ns off].
  cbn [time.year time.month time.day time.hour time.minute time.second
       time.nanosecond time.offset] in *.
  pose proof (daysIn_le mo y) as Hd.
  repeat (apply andb_true_iff in Hw' as [Hw' ?]).
  repeat (apply andb_true_iff in Hz as [Hz ?]).
  unfold time.formatRFC3339Nano.
  cbn [time.year time.month time.day time.hour time.minute time.second
       time.nanosecond time.offset].
  rewrite !append_assoc. unfold time.parseRFC3339.
  rewrite read4_appendInt by lia. rewrite expect_cons.
  rewrite read2_appendInt by lia. rewrite expect_cons.
  rewrite read2_appendInt by lia. rewrite expect_cons.
  rewrite read2_appendInt by lia. rewrite expect_cons.
  rewrite read2_appendInt by lia. rewrite expect_cons.
  rewrite read2_appendInt by lia.
  rewrite readNano_formatNano by (first [lia | apply formatZone_endsNumber]).
  rewrite readZone_formatZone by lia.
  cbv zeta. rewrite Hw. reflexivity.
Qed.

(** ** The token cache *)

Lemma stripPrefix_app (p s : string) : stripPrefix p (p +:+ s) = Some s.
Proof.
  induction p as [|a p IH]; [by destruct s|].
  rewrite append_cons. cbn [stripPrefix]. by rewrite Ascii.eqb_refl.
Qed.

Lemma unquoteBody_string (sb : bool) (v rest : string) :
  json.unquoteBody (json.stringBody sb v +:+ String dquote "" +:+ rest)
  = Some (repaired v, rest).
Proof.
  rewrite append_cons, append_nil_l.
  apply (unquoteBody_stringBody sb (S (String.length v))). lia.
Qed.

Lemma stripPrefix_member (sb : bool) (lead name v rest : string) :
  stripPrefix (lead +:+ key name +:+ String dquote "")
    (lead +:+ member sb name v +:+ rest)
  = Some (json.stringBody sb v +:+ String dquote "" +:+ rest).
Proof.
  unfold member, json.string.
  replace (lead +:+ (key name +:+ String dquote (json.stringBody sb v +:+ String dquote ""))
           +:+ rest)
    with ((lead +:+ key name +:+ String dquote "")
          +:+ json.stringBody sb v +:+ String dquote "" +:+ rest).
  - apply stripPrefix_app.
  - rewrite !append_assoc, !append_cons, !append_nil_l, !append_assoc. reflexivity.
Qed.

Lemma optionalString_omitempty (sb : bool) (name v rest : string) :
  (v = "" -> stripPrefix ("," +:+ key name +:+ String dquote "") rest = None) ->
  optionalString name (omitempty sb name v +:+ rest) = Some (repaired v, rest).
Proof.
  intros Hrest. unfold optionalString, omitempty.
  destruct (String.eqb_spec v "") as [-> | _].
  - rewrite append_nil_l, Hrest by reflexivity. reflexivity.
  - rewrite append_assoc, stripPrefix_member. apply unquoteBody_string.
Qed.

(** Whatever [json.Marshal] writes for a token whose expiry the text
    carries, [json.Unmarshal] reads back: the token, its strings repaired. *)
Lemma Unmarshal_Marshal_Token (sb : bool) (t : oauth2.Token) (jt : string) :
  carriesExpiry t = true ->
  Marshal_Token sb t = inr jt ->
  Unmarshal_Token jt = Some (readBack t).
Proof.
  unfold carriesExpiry. intros Hr Hm.
  apply andb_true_iff in Hr as [Hw Hz].
  unfold Marshal_Token, time.MarshalJSON in Hm.
  destruct ((time.year (oauth2.Expiry t) <? 0)%Z
            || (10000 <=? time.year (oauth2.Expiry t))%Z) eqn:Hy; [discriminate Hm|].
  injection Hm as <-. unfold Unmarshal_Token.
  rewrite (stripPrefix_member sb "{").
  rewrite unquoteBody_string.
  rewrite optionalString_omitempty.
  2:{ intros _. unfold omitempty. by destruct (_ =? ""). }
  rewrite optionalString_omitempty by (intros _; reflexivity).
  replace ("," +:+ key "expiry"
           +:+ String dquote (time.formatRFC3339Nano (oauth2.Expiry t) +:+ String dquote "")
           +:+ "}")
    with (("," +:+ key "expiry" +:+ String dquote "")
          +:+ time.formatRFC3339Nano (oauth2.Expiry t) +:+ String dquote "}").
  2:{ rewrite !append_assoc, !append_cons, !append_nil_l, !append_assoc.
      rewrite !append_cons, !append_nil_l. reflexivity. }
  rewrite stripPrefix_app. unfold time.parseJSON.
  rewrite parseRFC3339_format by (first [assumption | lia]).
  reflexivity.
Qed.



(** What [Token] reads after a successful [WriteToken] is the unmarshalling
    of what was marshalled: the file in between loses nothing. *)
Lemma Token_after_WriteToken (L : GoLib) (W : World) (f : tokenCacheFile)
    (t : oauth2.Token) (jt : string) (st : State) :
  json_Marshal L t = inr jt ->
  WriteFile_error W f = None ->
  exists st',
    tokenCacheFile_WriteToken L W f t st = (Ret None, st')
    /\ files st' = <[f := jt]> (files st)
    /\ tokenCacheFile_Token L f st'
       = (Ret (match json_Unmarshal L jt with
               | inl err => inl err
               | inr t' => inr t'
               end), st').
Proof.
  intros Hm Hw. unfold tokenCacheFile_WriteToken, WriteFile. rewrite Hm, Hw.
  eexists. split; [reflexivity|]. split; [reflexivity|].
  unfold tokenCacheFile_Token, bind, ReadFile. cbn [files].
  rewrite lookup_insert_eq. by destruct (json_Unmarshal L jt).
Qed.

(** The cache file that [WriteToken] has written is read back by [Token]
    without error. *)
Lemma Token_reads_back (L : GoLib) (W : World) (f : tokenCacheFile)
    (t : oauth2.Token) (jt : string) (st : State) :
  carriesExpiry t = true ->
  json_Marshal L t = inr jt ->
  WriteFile_error W f = None ->
  exists st',
    tokenCacheFile_WriteToken L W f t st = (Ret None, st')
    /\ files st' = <[f := jt]> (files st)
    /\ json_Unmarshal L jt = inr (readBack t)
    /\ tokenCacheFile_Token L f st' = (Ret (inr (readBack t)), st').
Proof.
  intros Hc Hm Hw.
  destruct (Token_after_WriteToken L W f t jt st Hm Hw) as (st' & E1 & E2 & E3).
  assert (Hu : json_Unmarshal L jt = inr (readBack t)).
  { unfold json_Unmarshal.
    by rewrite (Unmarshal_Marshal_Token (json_escapes_b_f L) t jt Hc Hm). }
  exists st'. split; [exact E1|]. split; [exact E2|]. split; [exact Hu|].
  rewrite E3, Hu. reflexivity.
Qed.




(** ** Credential acquisition *)

(** Once default discovery has failed, whatever [tokenSource] returns is the
    nil token source. *)
Lemma tokenSource_nil_without_default (L : GoLib) (W : World) (err : error)
    (st st' : State) (ts : option TokenSource) :
  DefaultTokenSource W = inl err ->
  tokenSource L W st = (Ret ts, st') ->
  ts = None.
Proof.
  intros Hd E.
  destruct (frame_tokenSource_value L W sameFlags _ _ _ E) as [_ HR].
  specialize (HR ts eq_refl). rewrite Hd in HR. exact HR.
Qed.

(** [C1, at the failing input] Default discovery fails, no cached token can
    be loaded, the operator enters a code, the exchange yields a token and
    the cache write succeeds (the token is in the cache file afterwards): the
    function returns the nil token source, not a source built from the
    exchanged token. *)
Theorem tokenSource_returns_nil_after_exchange :
  let run := tokenSource Demo.lib Demo.interactive Demo.atPrompt in
  DefaultTokenSource Demo.interactive = Demo.noDefault
  /\ fst (tokenCacheFile_Token Demo.lib "token.dat" Demo.atPrompt)
     = Ret (inl "open token.dat: no such file or directory")
  /\ EvCall (Call_Exchange "4/code") ∈ trace (snd run)
  /\ files (snd run) !! "token.dat" = Some Demo.tokenJSON
  /\ fst run = Ret None
  /\ fst run <> Ret (Some (reuseTokenSource (Some Demo.token) None)).
Proof.
  vm_compute. repeat split; try discriminate.
  apply list_elem_of_In. simpl. tauto.
Qed.

(** ** The flags after [connect] *)

Lemma adjustFlags_flags (st st1 : State) :
  adjustFlags st = (Ret tt, st1) ->
  proj (flags st1) = effectiveProject (flags st)
  /\ zone (flags st1) = zone (flags st)
  /\ instName (flags st1) = instName (flags st)
  /\ staticIP (flags st1)
     = (if staticIP (flags st) =? ""
        then default "" (hardCodedIP (effectiveProject (flags st)))
        else staticIP (flags st)).
Proof.
  destruct st as [[p z m i k ip r s c g] fs input tr].
  unfold adjustFlags, bind, getFlags, modifyFlags, ret, fatal, effectiveProject,
    hardCodedIP.
  cbn [flags proj zone mach instName sshPub staticIP reuseDisk ssd coordinator
       staging set_proj set_coordinator set_staticIP andb].
  intros H.
  repeat match type of H with
         | context [if ?b then _ else _] => destruct b eqn:?
         end;
    cbn [flags proj zone mach instName sshPub staticIP reuseDisk ssd coordinator
         staging set_proj set_coordinator set_staticIP andb] in *;
    try discriminate.
  all: injection H as <-; simpl.
  all: repeat match goal with
              | Hb : ?b = _ |- context [?b] => rewrite Hb
              end.
  all: try (repeat split; reflexivity).
  all: match goal with
       | Hb : (?x =? "") = true |- _ /\ _ /\ _ /\ ?x = _ =>
           apply String.eqb_eq in Hb; subst x
       end; repeat split; reflexivity.
Qed.

Lemma connect_flags (L : GoLib) (W : World) (st st1 : State)
    (svc : compute.Service) (prefix machType : string) :
  connect L W st = (Ret (svc, prefix, machType), st1) ->
  proj (flags st1) = effectiveProject (flags st)
  /\ zone (flags st1) = zone (flags st)
  /\ instName (flags st1) = instName (flags st)
  /\ staticIP (flags st1)
     = (if staticIP (flags st) =? ""
        then default "" (hardCodedIP (effectiveProject (flags st)))
        else staticIP (flags st)).
Proof.
  unfold connect, bind. intros H.
  destruct (adjustFlags st) as [[[]|m|] st0] eqn:Ha; try discriminate H.
  unfold getFlags in H.
  destruct (tokenSource L W st0) as [[ts|m|] st2] eqn:Ht; try discriminate H.
  injection H as _ _ _ <-.
  destruct (frame_tokenSource L W sameFlags _ _ _ Ht) as [Hf _].
  unfold sameFlags in Hf. rewrite Hf. by apply adjustFlags_flags.
Qed.

(** ** The network resolver *)

Lemma find_app_first {A} (p : A -> bool) (a b : list A) :
  List.find p (a ++ b) = match List.find p a with
                         | Some x => Some x
                         | None => List.find p b
                         end.
Proof.
  induction a as [|x a IH]; [reflexivity|]. simpl. by destruct (p x).
Qed.

Lemma addrLoop_find (name : string) (addrs : list compute.Address.t) :
  addrLoop name addrs
  = compute.Address.Address <$>
      List.find (fun addr => (compute.Address.Name addr =? name)
                             && (compute.Address.Status addr =? "RESERVED")) addrs.
Proof.
  induction addrs as [|addr addrs IH]; [reflexivity|]. simpl.
  by destruct ((compute.Address.Name addr =? name)
               && (compute.Address.Status addr =? "RESERVED")).
Qed.

Lemma IPLoop_firstReserved (name : string)
    (items : list (string * compute.AddressesScopedList.t)) (natIP : string) :
  IPLoop name items natIP = default natIP (firstReserved name items).
Proof.
  unfold firstReserved. induction items as [|[scope asl] items IH]; [reflexivity|].
  simpl. rewrite find_app_first, addrLoop_find.
  destruct (List.find _ (compute.AddressesScopedList.Addresses asl)); [reflexivity|].
  exact IH.
Qed.

(** [C3, amended] For every project, instance name and address listing, the
    address handed to the instance is determined in this order: the explicit
    static-IP input when it is not empty; otherwise the address hard-coded
    for the project, when the project (after the staging default) is
    symbolic-datum-552 or go-dashboard-dev; otherwise the address of the
    first listed entry named <instanceName>-ip whose status is RESERVED;
    otherwise the empty string. *)
Theorem natIP_resolution (L : GoLib) (W : World) (st st1 : State)
    (svc : compute.Service) (prefix machType : string)
    (items : list (string * compute.AddressesScopedList.t)) :
  connect L W st = (Ret (svc, prefix, machType), st1) ->
  (staticIP (flags st) = "" ->
   hardCodedIP (effectiveProject (flags st)) = None ->
   Addresses_AggregatedList W svc (effectiveProject (flags st)) = inr items) ->
  exists st2,
    resolveNatIP W svc st1 = (Ret (resolve_with_hard_coded (flags st) items), st2).
Proof.
  intros Hc Hlist. destruct (connect_flags _ _ _ _ _ _ _ Hc) as (Hp & _ & Hi & Hs).
  unfold resolveNatIP, resolve_with_hard_coded, bind, getFlags. rewrite Hs, Hp, Hi.
  destruct (staticIP (flags st) =? "") eqn:Hip.
  - destruct (hardCodedIP (effectiveProject (flags st))) as [ip|] eqn:Hh.
    + assert (Hne : (ip =? "") = false).
      { unfold hardCodedIP in Hh.
        repeat match type of Hh with
               | context [if ?b then _ else _] => destruct b
               end; by inversion Hh. }
      simpl. rewrite Hne. eexists. reflexivity.
    + change (default "" None =? "") with true. cbv beta iota. rewrite emit_record.
      rewrite (Hlist (proj1 (String.eqb_eq _ _) Hip) eq_refl).
      unfold ret. rewrite IPLoop_firstReserved. eexists. reflexivity.
  - rewrite Hip. eexists. reflexivity.
Qed.

Lemma natIP_resolution_witness :
  exists st2,
    resolveNatIP Demo.reserved Demo.service Demo.elsewhere = (Ret "203.0.113.9", st2).
Proof.
  eapply (natIP_resolution Demo.lib Demo.reserved Demo.elsewhere Demo.elsewhere
            Demo.service _ _ Demo.reservedItems).
  - reflexivity.
  - intros _ _. reflexivity.
Defined.

(** With the default project and the address farmer-ip reserved at
    203.0.113.9, no explicit address given: the run uses 107.178.219.46. *)
Lemma natIP_as_specified_fails :
  ~ natIP_as_specified Demo.lib Demo.reserved Demo.start.
Proof.
  intros H.
  destruct (H Demo.service
              "https://www.googleapis.com/compute/v1/projects/symbolic-datum-552"
              "https://www.googleapis.com/compute/v1/projects/symbolic-datum-552/zones/us-central1-f/machineTypes/n1-standard-4"
              (Demo.state (set_staticIP "107.178.219.46" defaultFlags) ∅ "")
              Demo.reservedItems eq_refl eq_refl) as (st2 & E).
  vm_compute in E. discriminate E.
Qed.

(** ** The whole run and its requests *)

Section Requests.

Variable L : GoLib.
Variable W : World.
Variable Q : Event -> Prop.
Hypothesis HQ : forall e, isInsert e = false -> Q e.

Local Instance requests_frame : Frame (appends Q) := appends_frame Q HQ.

Lemma appends_modifyFlags (g : Flags -> Flags) : steps (appends Q) any (modifyFlags g).
Proof.
  intros st o st' [= <- <-]. split; [|done].
  exists []. split; [by rewrite app_nil_r | constructor].
Qed.

Hint Resolve appends_modifyFlags : steps.
Hint Extern 1 (steps _ _ getFlags) => apply frame_getFlags; apply _ : steps.
Hint Extern 1 (steps _ _ (tokenSource _ _)) => apply frame_tokenSource; apply _ : steps.
Hint Extern 1 (steps _ _ (instanceDisk _ _)) => apply frame_instanceDisk; apply _ : steps.
Hint Extern 1 (steps _ _ (resolveNatIP _ _)) => apply frame_resolveNatIP; apply _ : steps.
Hint Extern 1 (steps _ _ (renderCloudConfig _ _)) =>
  apply frame_renderCloudConfig; apply _ : steps.
Hint Extern 1 (steps _ _ (checkCloudConfig _)) =>
  apply frame_checkCloudConfig; apply _ : steps.
Hint Extern 1 (steps _ _ (awaitOperation _ _ _ _)) =>
  apply frame_awaitOperation; apply _ : steps.
Hint Extern 1 (steps _ _ (Printf _)) => apply frame_Printf; apply _ : steps.

Lemma appends_adjustFlags : steps (appends Q) any adjustFlags.
Proof. unfold adjustFlags. steps_go. Qed.

Hint Resolve appends_adjustFlags : steps.

Lemma appends_connect : steps (appends Q) any (connect L W).
Proof. unfold connect. steps_go. Qed.

(** The instance literal: whatever the arguments, the service account is
    the fixed one. *)
Lemma appends_buildInstance (svc : compute.Service)
    (prefix machType natIP cloudConfig : string) :
  steps (appends Q)
    (fun inst => compute.Instance.ServiceAccounts inst = fixedServiceAccounts L)
    (buildInstance L W svc prefix machType natIP cloudConfig).
Proof. unfold buildInstance. steps_go. Qed.

Lemma appends_createInstance (svc : compute.Service) (instance : compute.Instance.t) :
  (forall p z, Q (EvCall (Call_InstancesInsert svc p z instance))) ->
  steps (appends Q) any (createInstance W svc instance).
Proof.
  intros Hins. unfold createInstance. steps_go.
  intros st o st' [= <- <-]. split; [|done].
  exists [EvCall (Call_InstancesInsert svc (proj a0) (zone a0) instance)].
  split; [reflexivity | by constructor].
Qed.

Lemma appends_main :
  (forall svc p z inst,
     compute.Instance.ServiceAccounts inst = fixedServiceAccounts L ->
     Q (EvCall (Call_InstancesInsert svc p z inst))) ->
  steps (appends Q) any (main L W).
Proof.
  intros Hins. unfold main.
  apply steps_bind_any; [apply _ | apply appends_connect |].
  intros [[svc prefix] machType].
  apply steps_bind_any; [apply _ | steps_go |]. intros natIP.
  apply steps_bind_any; [apply _ | steps_go |]. intros cloudConfig.
  apply steps_bind_any; [apply _ | steps_go |]. intros _.
  eapply steps_bind; [apply _ | apply appends_buildInstance |].
  intros instance Hinst.
  apply steps_bind_any; [apply _ | |].
  - apply appends_createInstance. intros p z. by apply Hins.
  - intros opName. steps_go.
Qed.

End Requests.

(** [C2] For every run that gets as far as rendering the user data (the
    client is set up, the address is resolved, the key file, if any, is
    read): if the rendered text is longer than 32768 bytes, [main] ends in
    the fatal exit that reports the length and the limit, in the state the
    rendering left, and no instance-insert request has been issued. *)
Theorem oversized_cloudConfig_is_fatal (L : GoLib) (W : World)
    (st st1 st2 st3 : State) (svc : compute.Service)
    (prefix machType natIP cfg : string) :
  connect L W st = (Ret (svc, prefix, machType), st1) ->
  resolveNatIP W svc st1 = (Ret natIP, st2) ->
  renderCloudConfig L W st2 = (Ret cfg, st3) ->
  (len cfg > 32768)%Z ->
  main L W st = (Exit (Fatal_CloudConfigTooLong (len cfg) 32768), st3)
  /\ Forall (fun e => isInsert e = false) (added st st3).
Proof.
  intros Hc Hn Hr Hlen. split.
  - unfold main, bind. rewrite Hc, Hn, Hr. unfold checkCloudConfig.
    change maxCloudConfig with 32768%Z.
    destruct (len cfg >? 32768)%Z eqn:Hgt; [reflexivity|]. lia.
  - set (Q := fun e => isInsert e = false).
    assert (HQ : forall e, isInsert e = false -> Q e) by done.
    apply added_appends.
    destruct (appends_connect L W Q HQ _ _ _ Hc) as [H1 _].
    destruct (frame_resolveNatIP W (appends Q) (Frame0 := appends_frame Q HQ)
                svc _ _ _ Hn) as [H2 _].
    destruct (frame_renderCloudConfig L W (appends Q) (Frame0 := appends_frame Q HQ)
                _ _ _ Hr) as [H3 _].
    etransitivity; [exact H1|]. etransitivity; [exact H2 | exact H3].
Qed.

Lemma oversized_cloudConfig_is_fatal_witness :
  exists cfg,
    (main Demo.lib Demo.plain Demo.oversized
     = (Exit (Fatal_CloudConfigTooLong (len cfg) 32768), Demo.oversized)
     /\ Forall (fun e => isInsert e = false) (added Demo.oversized Demo.oversized))
    /\ (len cfg > 32768)%Z.
Proof.
  eexists. split.
  - eapply (oversized_cloudConfig_is_fatal Demo.lib Demo.plain
              Demo.oversized Demo.oversized Demo.oversized Demo.oversized
              Demo.service _ _ "203.0.113.9").
    + reflexivity.
    + reflexivity.
    + reflexivity.
    + vm_compute. reflexivity.
  - vm_compute. reflexivity.
Defined.

(** [C8, amended] For every input configuration: the instance literal
    carries exactly one service account, default, with exactly the three
    scopes storage full-control ([DevstorageFullControlScope]), compute
    management ([ComputeScope]) and full cloud-platform access
    ([CloudPlatformScope]), whatever the flags, the files, the environment
    and the answers of the provider; building it fails only when the disk
    listing does; and every instance-insert request a run of [main] issues
    carries that service account. *)
Theorem service_account_scopes_fixed (L : GoLib) (W : World) (st : State) :
  (forall svc prefix machType natIP cloudConfig,
     match buildInstance L W svc prefix machType natIP cloudConfig st with
     | (Ret inst, _) => compute.Instance.ServiceAccounts inst = fixedServiceAccounts L
     | (Exit m, _) => exists err, m = Fatal_ListDisks err
     | (Waiting, _) => False
     end)
  /\ Forall (insertsWithFixedScopes L) (added st (snd (main L W st))).
Proof.
  split.
  - intros svc prefix machType natIP cloudConfig.
    unfold buildInstance, instanceDisk, bind, getFlags.
    destruct (reuseDisk (flags st)); [|reflexivity].
    rewrite emit_record. cbn [flags record].
    destruct (Disks_List W svc (proj (flags st)) (zone (flags st))) as [err|dl].
    + simpl. by exists err.
    + unfold ret. by destruct (diskLoop _ dl).
  - apply added_appends.
    assert (HQ : forall e, isInsert e = false -> insertsWithFixedScopes L e).
    { intros [| | |[]]; simpl; done. }
    destruct (main L W st) as [o st'] eqn:E.
    by destruct (appends_main L W _ HQ (fun _ _ _ _ H => H) _ _ _ E) as [H _].
Qed.

(** With the constants of the compute package at their values, the storage
    scope the instance asks for is full-control, not read-write. *)
Lemma requests_scopes_as_specified_fails :
  ~ requests_scopes_as_specified Demo.lib Demo.plain Demo.start.
Proof.
  intros H.
  destruct (buildInstance Demo.lib Demo.plain Demo.service "" "" "" "" Demo.start)
    as [o st'] eqn:E.
  vm_compute in E. injection E as <- <-.
  specialize (H Demo.service "" "" "" "" _ _ eq_refl).
  vm_compute in H. discriminate H.
Qed.

(** A run that gets through: one insert request, two polls, one fetch. *)
Example main_demo_run :
  let w := Demo.world "gopher" (inr Demo.metadataServer) [] [Demo.farmerDisk]
             [inr Demo.pending; inr Demo.finished] in
  let r := main Demo.lib w Demo.start in
  fst r = Ret tt
  /\ length (List.filter isInsert (trace (snd r))) = 1
  /\ polls (trace (snd r)) = 2
  /\ fetches (trace (snd r)) = 1.
Proof. vm_compute. repeat split. Qed.

(** * Further properties of the run *)

Lemma record_nil (st : State) : record [] st = st.
Proof. destruct st. unfold record. simpl. by rewrite app_nil_r. Qed.

Lemma bind_inv {A B} (m : M A) (k : A -> M B) (st st' : State) (o : Outcome B) :
  bind m k st = (o, st') ->
  exists o1 st1,
    m st = (o1, st1)
    /\ match o1 with
       | Ret a => k a st1 = (o, st')
       | Exit msg => o = Exit msg /\ st' = st1
       | Waiting => o = Waiting /\ st' = st1
       end.
Proof.
  unfold bind. destruct (m st) as [[a|msg|] st1]; intros H.
  - exists (Ret a), st1. by split.
  - exists (Exit msg), st1. by injection H as <- <-.
  - exists Waiting, st1. by injection H as <- <-.
Qed.

(** ** The flags *)

(** [adjustFlags] in closed form. *)
Lemma adjustFlags_run (st : State) :
  proj (flags st) <> "" ->
  adjustFlags st = (Ret tt, withFlags (adjustedFlags (flags st)) st).
Proof.
  destruct st as [[p z m i k ip r s c g] fs input tr].
  unfold adjustFlags, bind, getFlags, modifyFlags, ret, fatal, withFlags,
    adjustedFlags, effectiveProject, hardCodedIP.
  intros Hp. apply String.eqb_neq in Hp. simpl in *.
  repeat (match goal with
          | |- context [if ?b then _ else _] => destruct b eqn:?
          end; simpl in *);
    try reflexivity; try congruence.
  all: repeat match goal with
              | H : (_ =? _) = true |- _ => apply String.eqb_eq in H
              end; subst; reflexivity.
Qed.

Lemma effectiveProject_nonempty (f : Flags) :
  proj f <> "" -> effectiveProject f <> "".
Proof.
  unfold effectiveProject. intros H.
  destruct (staging f && (proj f =? "symbolic-datum-552")); [discriminate | exact H].
Qed.

Lemma adjustedFlags_idem (f : Flags) :
  adjustedFlags (adjustedFlags f) = adjustedFlags f.
Proof.
  destruct f as [p z m i s ip rd sd c sg].
  unfold adjustedFlags, effectiveProject, hardCodedIP; cbn [proj zone mach instName sshPub staticIP reuseDisk ssd coordinator staging].
  destruct sg; cbn [andb];
    destruct (String.eqb_spec p "symbolic-datum-552"); subst;
    destruct (String.eqb_spec c "https://storage.googleapis.com/go-builder-data/coordinator"); subst;
    destruct (String.eqb_spec ip ""); subst; cbn;
    try reflexivity.
  all: try (destruct (String.eqb_spec p "go-dashboard-dev"); subst; cbn; try reflexivity).
  all: repeat match goal with
       | |- context [String.eqb ?a ?b] => destruct (String.eqb_spec a b); try congruence
       end; try reflexivity.
Qed.

(** [X2] When the project flag is not empty, [adjustFlags] returns and
    leaves the flags in their adjusted form (under staging only a project or
    coordinator URL left at its production default is replaced, every other
    flag but the static address keeps its value) and everything else as it
    was.  The adjustment settles at once: run again on the state it left,
    [adjustFlags] returns and changes nothing. *)
Theorem adjustFlags_closed_form (st : State) :
  proj (flags st) <> "" ->
  let st' := withFlags (adjustedFlags (flags st)) st in
  adjustFlags st = (Ret tt, st') /\ adjustFlags st' = (Ret tt, st').
Proof.
  intros H st'. split; [apply adjustFlags_run, H|].
  rewrite adjustFlags_run.
  - unfold st', withFlags; cbn [flags files stdin trace].
    rewrite adjustedFlags_idem. reflexivity.
  - unfold st', withFlags; cbn [flags]. apply effectiveProject_nonempty, H.
Qed.

(** [X1] With an empty project flag, whatever the other flags, [main] ends
    in the fatal exit for the missing project before anything else happens:
    nothing is logged, printed or requested, no file is written and no input
    is read. *)
Theorem main_missing_project (L : GoLib) (W : World) (st : State) :
  proj (flags st) = "" ->
  exists st',
    main L W st = (Exit Fatal_MissingProject, st')
    /\ trace st' = trace st /\ files st' = files st /\ stdin st' = stdin st.
Proof.
  destruct st as [[p z m i k ip r s c g] fs input tr]. simpl. intros ->.
  unfold main, connect, adjustFlags, bind, getFlags, modifyFlags, ret, fatal.
  simpl.
  destruct g; simpl;
    [destruct (c =? "https://storage.googleapis.com/go-builder-data/coordinator")|];
    simpl; eexists; (split; [reflexivity|]); simpl; auto.
Qed.



(** ** Credential acquisition, path by path *)

Ltac fold_files st :=
  cbv beta iota;
  fold (credPrefix (flags st)); fold (clientIDFile (flags st));
  fold (clientSecretFile (flags st)); fold (tokenFileOf (flags st)).

Lemma dropBytes_0 (s : string) : dropBytes 0 s = s.
Proof. by destruct s. Qed.

Lemma IndexNewline_nonneg (s : string) (i : Z) : IndexNewline s = Some i -> (0 <= i)%Z.
Proof.
  revert i. induction s as [|a s IH]; intros i; cbn [IndexNewline]; [discriminate|].
  destruct (Ascii.eqb a "010"); [intros [= <-]; lia|].
  destruct (IndexNewline s) as [j|]; [|discriminate].
  intros [= <-]. specialize (IH j eq_refl). lia.
Qed.

(** One [Scan] takes at most [MaxScanTokenSize] bytes. *)
Lemma Scan_consumed_bound (readAhead : Z) (input : string) :
  (0 <= Scan_consumed readAhead input <= MaxScanTokenSize)%Z.
Proof.
  unfold Scan_consumed, MaxScanTokenSize.
  pose proof (len_nonneg input) as Hlen.
  destruct (IndexNewline input) as [i|] eqn:Hi.
  - apply IndexNewline_nonneg in Hi.
    destruct (i <? 65536)%Z eqn:Hlt; [|lia].
    unfold bufferHolding.
    repeat match goal with
           | |- context [(i <? ?k)%Z] => destruct (i <? k)%Z eqn:?
           end; lia.
  - destruct (len input <? 65536)%Z eqn:Hlt; lia.
Qed.

Lemma takenOff_refl (input : string) : takenOff input input.
Proof.
  exists 0%Z. split; [unfold MaxScanTokenSize; lia | by rewrite dropBytes_0].
Qed.

Lemma takenOff_afterScan (W : World) (st : State) :
  takenOff (stdin st) (stdin (afterScan W st)).
Proof.
  eexists. split; [apply Scan_consumed_bound | reflexivity].
Qed.

(** [X3] Without default credentials, a missing client file ends
    [tokenSource] in the fatal exit that names it: the client-id file when
    that one is missing, the client-secret file when the client-id file is
    there and it is missing; whatever the token cache holds.  Nothing is
    logged or printed, no input is read, no exchange is attempted and no
    file is written. *)
Theorem tokenSource_needs_client_files (L : GoLib) (W : World) (st : State)
    (err : error) :
  DefaultTokenSource W = inl err ->
  let f := flags st in
  let missing (v : string) : Outcome (option TokenSource) :=
    Exit (Fatal_ReadFile v ("open " +:+ v +:+ ": no such file or directory")) in
  (files st !! clientIDFile f = None ->
   tokenSource L W st = (missing (clientIDFile f), st))
  /\ (forall a,
        files st !! clientIDFile f = Some a ->
        files st !! clientSecretFile f = None ->
        tokenSource L W st = (missing (clientSecretFile f), st)).
Proof.
  intros Hd f missing. subst f missing. cbv beta.
  unfold tokenSource. rewrite Hd.
  unfold stagingPrefix, readFile, ReadFile, bind, getFlags, ret, fatal.
  fold_files st. split.
  - intros Ha. rewrite Ha. reflexivity.
  - intros a Ha Hb. rewrite Ha. fold_files st. rewrite Hb. reflexivity.
Qed.

(** The cached path. *)
Lemma tokenSource_cached_run (L : GoLib) (W : World) (st : State) (err : error)
    (a b data : string) (t : oauth2.Token) :
  DefaultTokenSource W = inl err ->
  files st !! clientIDFile (flags st) = Some a ->
  files st !! clientSecretFile (flags st) = Some b ->
  files st !! tokenFileOf (flags st) = Some data ->
  json_Unmarshal L data = inr t ->
  tokenSource L W st = (Ret None, st).
Proof.
  intros Hd Ha Hb Ht Hu. unfold tokenSource. rewrite Hd.
  unfold reuseTokenSource_Token, tokenCacheFile_Token, stagingPrefix, readFile,
    ReadFile, bind, getFlags, ret, fatal.
  fold_files st.
  rewrite Ha. fold_files st. rewrite Hb. fold_files st. rewrite Ht.
  cbv beta iota. rewrite Hu. reflexivity.
Qed.

(** [X4] Without default credentials but with the client files and a cache
    file that unmarshals, [tokenSource] returns without any effect: nothing
    is logged or printed, no input is read, no exchange is attempted and no
    file is written.  What it returns is the nil token source. *)
Theorem tokenSource_cached (L : GoLib) (W : World) (st : State) (err : error)
    (a b data : string) (t : oauth2.Token) :
  DefaultTokenSource W = inl err ->
  files st !! clientIDFile (flags st) = Some a ->
  files st !! clientSecretFile (flags st) = Some b ->
  files st !! tokenFileOf (flags st) = Some data ->
  json_Unmarshal L data = inr t ->
  tokenSource L W st = (Ret None, st).
Proof. apply tokenSource_cached_run. Qed.

(** The prompt path in closed form. *)
Lemma tokenSource_prompt (L : GoLib) (W : World) (st : State) (err err0 : error)
    (a b : string) :
  DefaultTokenSource W = inl err ->
  files st !! clientIDFile (flags st) = Some a ->
  files st !! clientSecretFile (flags st) = Some b ->
  fst (tokenCacheFile_Token L (tokenFileOf (flags st)) st) = Ret (inl err0) ->
  let f := flags st in
  let config := oauthConfigOf L (TrimSpace L a) (TrimSpace L b) in
  let authCode := TrimSpace L (Scan_token (stdin st)) in
  let st1 := record (promptEvents L f config err0 authCode) (afterScan W st) in
  tokenSource L W st
  = match Exchange W config authCode with
    | inl e => (Exit (Fatal_Exchange e), st1)
    | inr token =>
        match json_Marshal L token with
        | inl e => (Exit (Fatal_WriteToken (tokenFileOf f) e), st1)
        | inr jt =>
            match WriteFile_error W (tokenFileOf f) with
            | Some e =>
                (Exit (Fatal_WriteToken (tokenFileOf f) e),
                 match WriteFile_written W (tokenFileOf f) jt with
                 | Some n => withFile (tokenFileOf f) (takeBytes n jt) st1
                 | None => st1
                 end)
            | None => (Ret None, withFile (tokenFileOf f) jt st1)
            end
        end
    end.
Proof.
  intros Hd Ha Hb Ht. cbv zeta. unfold tokenSource. rewrite Hd.
  unfold reuseTokenSource_Token, stagingPrefix, readFile, bind, getFlags, ret.
  unfold ReadFile at 1 2.
  fold_files st.
  rewrite Ha. fold_files st. rewrite Hb. fold_files st.
  assert (Hst : snd (tokenCacheFile_Token L (tokenFileOf (flags st)) st) = st).
  { unfold tokenCacheFile_Token, bind, ReadFile, ret.
    destruct (files st !! tokenFileOf (flags st)); [|reflexivity].
    by destruct (json_Unmarshal L s). }
  destruct (tokenCacheFile_Token L (tokenFileOf (flags st)) st) as [o st0].
  simpl in Ht, Hst. subst o st0.
  unfold Printf, emit, Scan_Text, fatal, tokenCacheFile_WriteToken, WriteFile, ret.
  cbn [stdin flags files trace].
  fold (oauthConfigOf L (TrimSpace L a) (TrimSpace L b)).
  destruct (Exchange W _ _) as [e|token];
    [|destruct (json_Marshal L token) as [e|jt];
      [|cbn [stdin flags files trace];
        destruct (WriteFile_error W (tokenFileOf (flags st)));
        [destruct (WriteFile_written W (tokenFileOf (flags st)) jt)|]]];
    unfold record, promptEvents, afterScan, withStdin, withFile;
    cbn [stdin flags files trace]; rewrite <- ?app_assoc; reflexivity.
Qed.

Lemma tokenFile_not_client_file (f : Flags) :
  tokenFileOf f <> clientIDFile f /\ tokenFileOf f <> clientSecretFile f.
Proof.
  unfold tokenFileOf, clientIDFile, clientSecretFile, credPrefix.
  destruct (staging f); split; discriminate.
Qed.

(** [X5] On the prompt path (no default credentials, client files in place,
    no loadable cached token) the code sent is what the one [Scan] of
    standard input returns, trimmed, and what is logged, printed and
    requested is the two log lines, the prompt and the one exchange request,
    however the run ends.  A failed exchange ends it in the fatal exit for
    the exchange, a token that does not marshal or a failed write in the
    fatal exit for the cache write, each with its own error.  The first two
    leave the files as they were; a failed write leaves the cache file
    untouched when it could not be opened, and otherwise with the part of
    the text that was written. *)
Theorem tokenSource_prompt_failures (L : GoLib) (W : World) (st : State)
    (err err0 : error) (a b : string) :
  DefaultTokenSource W = inl err ->
  files st !! clientIDFile (flags st) = Some a ->
  files st !! clientSecretFile (flags st) = Some b ->
  fst (tokenCacheFile_Token L (tokenFileOf (flags st)) st) = Ret (inl err0) ->
  let f := flags st in
  let config := oauthConfigOf L (TrimSpace L a) (TrimSpace L b) in
  let authCode := TrimSpace L (Scan_token (stdin st)) in
  let r := tokenSource L W st in
  added st (snd r) = promptEvents L f config err0 authCode
  /\ (forall e,
        Exchange W config authCode = inl e ->
        fst r = Exit (Fatal_Exchange e) /\ files (snd r) = files st)
  /\ (forall token e,
        Exchange W config authCode = inr token ->
        json_Marshal L token = inl e ->
        fst r = Exit (Fatal_WriteToken (tokenFileOf f) e) /\ files (snd r) = files st)
  /\ (forall token jt e,
        Exchange W config authCode = inr token ->
        json_Marshal L token = inr jt ->
        WriteFile_error W (tokenFileOf f) = Some e ->
        fst r = Exit (Fatal_WriteToken (tokenFileOf f) e)
        /\ files (snd r) !! tokenFileOf f
           = match WriteFile_written W (tokenFileOf f) jt with
             | Some n => Some (takeBytes n jt)
             | None => files st !! tokenFileOf f
             end).
Proof.
  intros Hd Ha Hb Ht f config authCode r. subst r.
  rewrite (tokenSource_prompt L W st err err0 a b Hd Ha Hb Ht). cbv zeta.
  fold f config authCode.
  assert (Hadd : forall fs input,
            added st {| flags := flags st; files := fs; stdin := input;
                        trace := trace st ++ promptEvents L f config err0 authCode |}
            = promptEvents L f config err0 authCode).
  { intros fs input. unfold added. cbn [trace]. by rewrite drop_app_length. }
  split.
  - destruct (Exchange W config authCode) as [e|token]; [apply Hadd|].
    destruct (json_Marshal L token) as [e|jt]; [apply Hadd|].
    destruct (WriteFile_error W (tokenFileOf f)) as [e|]; [|apply Hadd].
    destruct (WriteFile_written W (tokenFileOf f) jt); apply Hadd.
  - split; [|split].
    + intros e He. rewrite He. by split.
    + intros token e He Hm. rewrite He, Hm. by split.
    + intros token jt e He Hm Hw. rewrite He, Hm, Hw. split; [reflexivity|].
      cbn [snd].
      destruct (WriteFile_written W (tokenFileOf f) jt); [|reflexivity].
      unfold withFile. cbn [files]. by rewrite lookup_insert_eq.
Qed.

(** [X6] After a run of the prompt path that succeeds, for a token whose
    expiry its text carries, the cache file holds the marshalled token, and
    a second call of [tokenSource] in the state the first one left takes
    the cached path: it returns at once, with no prompt, no exchange and no
    write. *)
Theorem tokenSource_second_run_uses_cache (L : GoLib) (W : World) (st : State)
    (err err0 : error) (a b jt : string) (token : oauth2.Token) :
  DefaultTokenSource W = inl err ->
  files st !! clientIDFile (flags st) = Some a ->
  files st !! clientSecretFile (flags st) = Some b ->
  fst (tokenCacheFile_Token L (tokenFileOf (flags st)) st) = Ret (inl err0) ->
  Exchange W (oauthConfigOf L (TrimSpace L a) (TrimSpace L b))
    (TrimSpace L (Scan_token (stdin st))) = inr token ->
  carriesExpiry token = true ->
  json_Marshal L token = inr jt ->
  WriteFile_error W (tokenFileOf (flags st)) = None ->
  exists st',
    tokenSource L W st = (Ret None, st')
    /\ files st' !! tokenFileOf (flags st) = Some jt
    /\ tokenSource L W st' = (Ret None, st').
Proof.
  intros Hd Ha Hb Ht He Hc Hm Hw.
  rewrite (tokenSource_prompt L W st err err0 a b Hd Ha Hb Ht). cbv zeta.
  rewrite He, Hm, Hw. eexists. split; [reflexivity|].
  split; [unfold withFile; cbn [files]; by rewrite lookup_insert_eq|].
  destruct (tokenFile_not_client_file (flags st)) as [Hid Hsec].
  destruct (Token_reads_back L W (tokenFileOf (flags st)) token jt st Hc Hm Hw)
    as (_ & _ & _ & Hu & _).
  eapply (tokenSource_cached_run L W _ err a b jt (readBack token) Hd);
    cbn [files flags withFile record afterScan withStdin].
  - by rewrite lookup_insert_ne.
  - by rewrite lookup_insert_ne.
  - by rewrite lookup_insert_eq.
  - exact Hu.
Qed.

(** ** The token cache, file by file *)

(** [X7] The cache file that [WriteToken] has written is always one that
    [Token] reads back without error, for every token whose expiry its text
    carries, whatever its strings hold.  What comes back is the token with
    every ill-formed byte of its strings replaced by U+FFFD and without its
    unexported field, in a state that the reading has not changed. *)
Theorem written_cache_reads_back (L : GoLib) (W : World) (f : tokenCacheFile)
    (t : oauth2.Token) (jt : string) (st : State) :
  carriesExpiry t = true ->
  json_Marshal L t = inr jt ->
  WriteFile_error W f = None ->
  exists st',
    tokenCacheFile_WriteToken L W f t st = (Ret None, st')
    /\ files st' !! f = Some jt
    /\ tokenCacheFile_Token L f st' = (Ret (inr (readBack t)), st').
Proof.
  intros Hc Hm Hw.
  destruct (Token_reads_back L W f t jt st Hc Hm Hw) as (st' & E1 & E2 & _ & E3).
  exists st'. split; [exact E1|]. split; [|exact E3].
  rewrite E2. by rewrite lookup_insert_eq.
Qed.

(** ** The user data in closed form *)

Lemma append_nil_r (a : string) : a +:+ "" = a.
Proof.
  induction a as [|c a IH]; [reflexivity|].
  change (String c a +:+ "") with (String c (a +:+ "")). by rewrite IH.
Qed.

Lemma baseConfig_split : baseConfig = configHead +:+ "$COORDINATOR" +:+ configTail.
Proof. reflexivity. Qed.

(** The one placeholder of the template is what [Replace] replaces. *)
Lemma Replace_baseConfig (url : string) :
  Replace baseConfig "$COORDINATOR" url 1 = configHead +:+ url +:+ configTail.
Proof. vm_compute. reflexivity. Qed.

(** [renderCloudConfig] in closed form. *)
Lemma renderCloudConfig_run (L : GoLib) (W : World) (st : State) :
  let f := flags st in
  let bradfitz := Getenv W "USER" =? "bradfitz" in
  renderCloudConfig L W st
  = if sshPub f =? "" then (Ret (userData (coordinator f) None bradfitz), st)
    else match files st !! sshPub f with
         | Some data =>
             (Ret (userData (coordinator f)
                     (Some (TrimSpace L (TrimSpace L data))) bradfitz), st)
         | None =>
             (Exit (Fatal_ReadFile (sshPub f)
                      ("open " +:+ sshPub f +:+ ": no such file or directory")), st)
         end.
Proof.
  cbv zeta. unfold renderCloudConfig, readFile, ReadFile, bind, getFlags, ret, fatal,
    userData.
  rewrite Replace_baseConfig.
  destruct (sshPub (flags st) =? ""); cbn [negb].
  - destruct (Getenv W "USER" =? "bradfitz"); cbn [append];
      by rewrite ?append_nil_r.
  - destruct (files st !! sshPub (flags st)) as [data|]; [|reflexivity].
    destruct (Getenv W "USER" =? "bradfitz");
      by rewrite ?append_nil_r, ?append_assoc.
Qed.

(** [X8] [renderCloudConfig] never changes the state.  It returns the
    template with its one placeholder replaced by the coordinator URL as it
    stands (a URL that itself contains the placeholder is not expanded
    again), followed by the stanza of the key file, trimmed, when a key file
    is named, and then by the stanza of the hard-coded key when USER is
    bradfitz; when the named key file cannot be read it ends in the fatal
    exit for that file. *)
Theorem renderCloudConfig_closed_form (L : GoLib) (W : World) (st : State) :
  let f := flags st in
  let bradfitz := Getenv W "USER" =? "bradfitz" in
  renderCloudConfig L W st
  = if sshPub f =? "" then (Ret (userData (coordinator f) None bradfitz), st)
    else match files st !! sshPub f with
         | Some data =>
             (Ret (userData (coordinator f)
                     (Some (TrimSpace L (TrimSpace L data))) bradfitz), st)
         | None =>
             (Exit (Fatal_ReadFile (sshPub f)
                      ("open " +:+ sshPub f +:+ ": no such file or directory")), st)
         end.
Proof. apply renderCloudConfig_run. Qed.

Lemma len_stanza (key : string) : len (Sprintf_ssh_authorized_keys key) = (29 + len key)%Z.
Proof. unfold Sprintf_ssh_authorized_keys. rewrite !len_app. simpl. lia. Qed.

Lemma len_userData (url : string) (key : option string) (bradfitz : bool) :
  len (userData url key bradfitz)
  = (622 + len url
     + match key with Some k => 29 + len k | None => 0 end
     + (if bradfitz then 265 else 0))%Z.
Proof.
  unfold userData. rewrite !len_app.
  assert (Hh : len configHead = 377%Z) by reflexivity.
  assert (Ht : len configTail = 245%Z) by reflexivity.
  assert (Hb : len (Sprintf_ssh_authorized_keys bradfitzKey) = 265%Z) by reflexivity.
  rewrite Hh, Ht. destruct key as [k|]; destruct bradfitz;
    rewrite ?len_stanza, ?Hb; simpl len; lia.
Qed.

(** [X9] When [renderCloudConfig] returns, the user data is 622 bytes of
    template plus the coordinator URL, plus 29 bytes and the trimmed key
    for the stanza of a key file, plus 265 bytes for the stanza of the
    hard-coded key when USER is bradfitz; so the size check lets it pass
    exactly when the URL and the stanzas together take at most 32146
    bytes. *)
Theorem cloudConfig_size_limit (L : GoLib) (W : World) (st st' : State)
    (cfg : string) :
  renderCloudConfig L W st = (Ret cfg, st') ->
  let f := flags st in
  let keyStanza : Z :=
    if sshPub f =? "" then 0%Z
    else match files st !! sshPub f with
         | Some data => (29 + len (TrimSpace L (TrimSpace L data)))%Z
         | None => 0%Z
         end in
  let hardCodedStanza : Z := if Getenv W "USER" =? "bradfitz" then 265%Z else 0%Z in
  let stanzas : Z := (keyStanza + hardCodedStanza)%Z in
  len cfg = (622 + len (coordinator f) + stanzas)%Z
  /\ (checkCloudConfig cfg st' = (Ret tt, st')
      <-> (len (coordinator f) + stanzas <= 32146)%Z).
Proof.
  intros H f keyStanza hardCodedStanza stanzas.
  subst stanzas hardCodedStanza keyStanza f.
  assert (Hcheck : forall n : Z,
            len cfg = (622 + n)%Z ->
            checkCloudConfig cfg st' = (Ret tt, st') <-> (n <= 32146)%Z).
  { intros n Hn. unfold checkCloudConfig. change maxCloudConfig with 32768%Z.
    rewrite Hn. destruct (_ >? 32768)%Z eqn:Hgt; unfold fatal, ret; split; intros H0;
      try discriminate H0; try reflexivity; lia. }
  rewrite renderCloudConfig_run in H. cbv zeta in H.
  destruct (sshPub (flags st) =? "").
  - injection H as <- <-. rewrite len_userData.
    split; [lia|]. rewrite <- Hcheck; [reflexivity|]. rewrite len_userData. lia.
  - destruct (files st !! sshPub (flags st)) as [data|]; [|discriminate H].
    injection H as <- <-. rewrite len_userData.
    split; [lia|]. rewrite <- Hcheck; [reflexivity|]. rewrite len_userData. lia.
Qed.

(** ** What the resolvers request *)

Lemma resolveNatIP_requests_run (L : GoLib) (W : World) (st st1 st2 : State)
    (svc : compute.Service) (prefix machType : string) (o : Outcome string) :
  connect L W st = (Ret (svc, prefix, machType), st1) ->
  resolveNatIP W svc st1 = (o, st2) ->
  let f := flags st in
  let listed :=
    (staticIP f =? "")
    && match hardCodedIP (effectiveProject f) with Some _ => false | None => true end in
  st2 = record (if listed
                then [EvCall (Call_AddressesAggregatedList svc (effectiveProject f))]
                else []) st1
  /\ match o with
     | Ret _ => True
     | Exit m =>
         listed = true
         /\ exists err,
              Addresses_AggregatedList W svc (effectiveProject f) = inl err
              /\ m = Fatal_AggregatedList err
     | Waiting => False
     end.
Proof.
  intros Hc Hr f listed. subst listed f.
  destruct (connect_flags _ _ _ _ _ _ _ Hc) as (Hp & _ & _ & Hs).
  unfold resolveNatIP, bind, getFlags in Hr. rewrite Hs, Hp in Hr.
  destruct (staticIP (flags st) =? "") eqn:Hip; cbn [andb].
  - destruct (hardCodedIP (effectiveProject (flags st))) as [ip|] eqn:Hh.
    + assert (Hne : (ip =? "") = false).
      { unfold hardCodedIP in Hh.
        repeat match type of Hh with
               | context [if ?b then _ else _] => destruct b
               end; by inversion Hh. }
      change (default "" (Some ip)) with ip in Hr. rewrite Hne in Hr.
      injection Hr as <- <-.
      by rewrite record_nil.
    + change (default "" None =? "") with true in Hr. cbv beta iota in Hr.
      rewrite emit_record in Hr.
      destruct (Addresses_AggregatedList W svc (effectiveProject (flags st)))
        as [err|items]; injection Hr as <- <-; (split; [reflexivity|]).
      * split; [reflexivity|]. by exists err.
      * exact I.
  - rewrite Hip in Hr. injection Hr as <- <-. by rewrite record_nil.
Qed.

(** [X10] After [connect], [resolveNatIP] requests the address listing
    exactly when no static address was given and the project (after the
    staging default) is neither of the two with a hard-coded address; it
    makes no other change to the state, and the only way it can fail is the
    fatal exit for a failed listing. *)
Theorem resolveNatIP_requests (L : GoLib) (W : World) (st st1 : State)
    (svc : compute.Service) (prefix machType : string) :
  connect L W st = (Ret (svc, prefix, machType), st1) ->
  let f := flags st in
  let listed :=
    (staticIP f =? "")
    && match hardCodedIP (effectiveProject f) with Some _ => false | None => true end in
  let r := resolveNatIP W svc st1 in
  snd r = record (if listed
                  then [EvCall (Call_AddressesAggregatedList svc (effectiveProject f))]
                  else []) st1
  /\ match fst r with
     | Ret _ => True
     | Exit m =>
         listed = true
         /\ exists err,
              Addresses_AggregatedList W svc (effectiveProject f) = inl err
              /\ m = Fatal_AggregatedList err
     | Waiting => False
     end.
Proof.
  intros Hc f listed r. destruct r as [o st2] eqn:E. cbn [fst snd].
  exact (resolveNatIP_requests_run L W st st1 st2 svc prefix machType o Hc E).
Qed.

Lemma instanceDisk_requests_run (W : World) (svc : compute.Service) (st st' : State)
    (o : Outcome compute.AttachedDisk.t) :
  instanceDisk W svc st = (o, st') ->
  let f := flags st in
  st' = record (if reuseDisk f then [EvCall (Call_DisksList svc (proj f) (zone f))]
                else []) st
  /\ (forall err,
        o = Exit (Fatal_ListDisks err)
        <-> reuseDisk f = true /\ Disks_List W svc (proj f) (zone f) = inl err)
  /\ (forall m, o = Exit m -> exists err, m = Fatal_ListDisks err)
  /\ o <> Waiting.
Proof.
  intros H f. subst f. unfold instanceDisk, bind, getFlags in H.
  destruct (reuseDisk (flags st)) eqn:Hreuse.
  - rewrite emit_record in H. cbn [flags record] in H.
    destruct (Disks_List W svc (proj (flags st)) (zone (flags st))) as [e|dl] eqn:Hl.
    + injection H as <- <-. split; [reflexivity|]. split; [|split].
      * intros err. split; [intros [= ->]; by split | intros [_ [= ->]]; reflexivity].
      * intros m [= <-]. by exists e.
      * discriminate.
    + unfold ret in H. destruct (diskLoop _ dl); injection H as <- <-;
        (split; [reflexivity|]); (split; [|split]);
        try (intros err; split; [discriminate | intros [_ [=]]]);
        try (intros m; discriminate); discriminate.
  - unfold ret in H. injection H as <- <-. rewrite record_nil.
    split; [reflexivity|]. split; [|split].
    + intros err. split; [discriminate | intros [[=] _]].
    + intros m. discriminate.
    + discriminate.
Qed.

(** [X11] [instanceDisk] requests the disk listing exactly when reuse is
    on, and makes no other change to the state.  It fails only when reuse is
    on and the listing fails, and then always: a failed listing is the fatal
    exit for it, never a fresh disk. *)
Theorem instanceDisk_requests (W : World) (svc : compute.Service) (st : State) :
  let f := flags st in
  let r := instanceDisk W svc st in
  snd r = record (if reuseDisk f then [EvCall (Call_DisksList svc (proj f) (zone f))]
                  else []) st
  /\ (forall err,
        fst r = Exit (Fatal_ListDisks err)
        <-> reuseDisk f = true /\ Disks_List W svc (proj f) (zone f) = inl err)
  /\ (forall m, fst r = Exit m -> exists err, m = Fatal_ListDisks err)
  /\ fst r <> Waiting.
Proof.
  intros f r. destruct r as [o st'] eqn:E. cbn [fst snd].
  exact (instanceDisk_requests_run W svc st st' o E).
Qed.

(** ** The poll loop, answer by answer *)

(** One iteration of the loop. *)
Lemma OpLoop_step (svc : compute.Service) (opName : string)
    (answer : error + compute.Operation.t)
    (later : list (error + compute.Operation.t)) (st : State) :
  OpLoop svc opName (answer :: later) st
  = let st1 := record (pollEvents svc (flags st) opName) st in
    match answer with
    | inl err => (Exit (Fatal_GetOp opName err), st1)
    | inr op =>
        if keepsPolling answer
        then OpLoop svc opName later (record [EvLog (Log_Waiting opName)] st1)
        else if compute.Operation.Status op =? "DONE" then
          match compute.Operation.Error op with
          | Some e =>
              (Exit Fatal_FailedToStart,
               record (logged (compute.OperationError.Errors e)) st1)
          | None => (Ret tt, record [EvLog (Log_Success op)] st1)
          end
        else (Exit (Fatal_UnknownStatus (compute.Operation.Status op) op), st1)
    end.
Proof.
  cbn [OpLoop]. unfold bind, getFlags, Printf. rewrite !emit_record.
  cbn [flags record]. rewrite record_record.
  change ([EvSleep 2] ++ [EvCall (Call_ZoneOperationsGet svc (proj (flags st))
                                    (zone (flags st)) opName)])
    with (pollEvents svc (flags st) opName).
  destruct answer as [err|op]; [reflexivity|]. cbn [keepsPolling].
  destruct ((compute.Operation.Status op =? "PENDING")
            || (compute.Operation.Status op =? "RUNNING")).
  - by rewrite emit_record.
  - destruct (compute.Operation.Status op =? "DONE"); [|reflexivity].
    destruct (compute.Operation.Error op) as [e|].
    + by rewrite logErrors_run.
    + by rewrite emit_record.
Qed.

Lemma stillRunning_keepsPolling (op : compute.Operation.t) :
  stillRunning op -> keepsPolling (inr op) = true.
Proof. intros [H | H]; unfold keepsPolling; rewrite H; reflexivity. Qed.

(** [X12] Answers that are PENDING or RUNNING are passed over one by one:
    each costs a sleep of 2 seconds, one status request and one log line, in
    this order, and after them the loop goes on with the remaining answers
    exactly as a loop started on those. *)
Theorem OpLoop_passes_over_running (svc : compute.Service) (opName : string)
    (pre : list compute.Operation.t) (rest : list (error + compute.Operation.t))
    (st : State) :
  Forall stillRunning pre ->
  OpLoop svc opName (map inr pre ++ rest) st
  = OpLoop svc opName rest
      (record (waitingEvents svc (flags st) opName (length pre)) st).
Proof.
  intros Hpre. revert st. induction Hpre as [|op pre Hop _ IH]; intros st.
  - simpl. by rewrite record_nil.
  - cbn [map app length waitingEvents]. rewrite OpLoop_step. cbv zeta.
    rewrite (stillRunning_keepsPolling op Hop), IH, !record_record.
    cbn [flags record]. rewrite <- ?app_assoc. reflexivity.
Qed.

(** [X13] After any number of PENDING or RUNNING answers, a status request
    that fails ends the run in the fatal exit for it, and so does an answer
    whose status is none of PENDING, RUNNING and DONE; one request was made
    per answer up to that one, and the answers after it play no part. *)
Theorem OpLoop_stops_at_failure (svc : compute.Service) (opName : string)
    (pre : list compute.Operation.t) (answer : error + compute.Operation.t)
    (later : list (error + compute.Operation.t)) (st : State) :
  Forall stillRunning pre ->
  match answer with
  | inl _ => True
  | inr op =>
      compute.Operation.Status op <> "PENDING"
      /\ compute.Operation.Status op <> "RUNNING"
      /\ compute.Operation.Status op <> "DONE"
  end ->
  exists st',
    OpLoop svc opName (map inr pre ++ answer :: later) st
    = (Exit match answer with
            | inl err => Fatal_GetOp opName err
            | inr op => Fatal_UnknownStatus (compute.Operation.Status op) op
            end, st')
    /\ polls (added st st') = S (length pre)
    /\ fetches (added st st') = 0.
Proof.
  intros Hpre Hans. revert st. induction Hpre as [|op pre Hop _ IH]; intros st.
  - cbn [map app]. rewrite OpLoop_step. cbv zeta.
    destruct answer as [err|op].
    + eexists. split; [reflexivity|]. by rewrite added_record.
    + destruct Hans as (HP & HR & HD). apply String.eqb_neq in HP, HR, HD.
      cbn [keepsPolling]. rewrite HP, HR, HD. cbn [orb].
      eexists. split; [reflexivity|]. by rewrite added_record.
  - cbn [map app]. rewrite OpLoop_step. cbv zeta.
    rewrite (stillRunning_keepsPolling op Hop), record_record.
    destruct (IH (record (pollEvents svc (flags st) opName
                          ++ [EvLog (Log_Waiting opName)]) st)) as (st' & E & Hn & Hf).
    exists st'. split; [exact E|].
    destruct (@frame_OpLoop (appends any) (appends_frame any (fun _ _ => I))
                svc opName _ _ _ _ E) as [(evs & Etr & _) _].
    unfold added in Hn, Hf. rewrite Etr, drop_app_length in Hn, Hf.
    assert (Ha : added st st'
                 = (pollEvents svc (flags st) opName ++ [EvLog (Log_Waiting opName)])
                   ++ evs).
    { unfold added. rewrite Etr. unfold record. cbn [trace].
      by rewrite <- app_assoc, drop_app_length. }
    rewrite Ha. unfold polls, fetches in *.
    rewrite !List.filter_app, !length_app, Hn, Hf. split; reflexivity.
Qed.

(** ** Requests, in order *)

Lemma requests_app (a b : list Event) : requests (a ++ b) = requests a ++ requests b.
Proof. unfold requests. apply omap_app. Qed.

Lemma requests_logged (errs : list compute.OperationErrorErrors.t) :
  requests (logged errs) = [].
Proof. induction errs as [|operr errs IH]; [reflexivity | exact IH]. Qed.

Lemma fetches_app (a b : list Event) : fetches (a ++ b) = fetches a + fetches b.
Proof. unfold fetches. by rewrite List.filter_app, length_app. Qed.

Lemma fetches_logged (errs : list compute.OperationErrorErrors.t) :
  fetches (logged errs) = 0.
Proof. induction errs as [|operr errs IH]; [reflexivity | exact IH]. Qed.

(** The loop in outline: it only appends events, its requests are status
    requests, and it returns exactly when the decisive answer is a DONE
    without an error object. *)
Lemma OpLoop_shape (svc : compute.Service) (opName : string)
    (answers : list (error + compute.Operation.t)) (st : State) :
  exists evs,
    snd (OpLoop svc opName answers st) = record evs st
    /\ requests evs = replicate (polls evs) 4
    /\ fetches evs = 0
    /\ (reachesFetch answers = true -> fst (OpLoop svc opName answers st) = Ret tt)
    /\ (fst (OpLoop svc opName answers st) = Ret tt -> reachesFetch answers = true).
Proof.
  revert st. induction answers as [|answer later IH]; intros st.
  - exists []. rewrite record_nil. simpl. repeat split; try reflexivity; discriminate.
  - rewrite OpLoop_step. cbv zeta. unfold reachesFetch, decisive. cbn [List.find].
    destruct answer as [err|op].
    + cbn [keepsPolling negb succeeds]. eexists. cbn [fst snd].
      repeat split; try reflexivity; discriminate.
    + destruct (keepsPolling (inr op)) eqn:Hk; cbn [negb].
      * rewrite record_record.
        destruct (IH (record (pollEvents svc (flags st) opName
                              ++ [EvLog (Log_Waiting opName)]) st))
          as (evs & Hs & Hr & Hf & Ho & Hret).
        exists ((pollEvents svc (flags st) opName ++ [EvLog (Log_Waiting opName)])
                ++ evs).
        rewrite Hs, record_record.
        split; [reflexivity|].
        rewrite !requests_app, Hr, !polls_app, !fetches_app, Hf.
        repeat split; [exact Ho | exact Hret].
      * unfold succeeds. rewrite Hk. cbn [negb andb].
        destruct (compute.Operation.Status op =? "DONE").
        -- destruct (compute.Operation.Error op) as [e|]; eexists; cbn [fst snd];
             rewrite record_record; (split; [reflexivity|]);
             rewrite !requests_app, !polls_app, !fetches_app,
               ?requests_logged, ?polls_logged, ?fetches_logged;
             repeat split; try reflexivity; discriminate.
        -- eexists. cbn [fst snd]. repeat split; try reflexivity; discriminate.
Qed.

Lemma fetch_only_after_success_run (W : World) (svc : compute.Service)
    (opName : string) (answers : list (error + compute.Operation.t))
    (st st' : State) (o : Outcome unit) :
  awaitOperation W svc opName answers st = (o, st') ->
  fetches (added st st') = (if reachesFetch answers then 1 else 0)
  /\ requests (added st st')
     = replicate (polls (added st st')) 4 ++ replicate (fetches (added st st')) 5
  /\ (o = Ret tt -> reachesFetch answers = true).
Proof.
  unfold awaitOperation, bind. intros H.
  destruct (OpLoop_shape svc opName answers st) as (evs & Hs & Hr & Hf & Ho & Hret).
  destruct (OpLoop svc opName answers st) as [o1 st1]. cbn [fst snd] in *. subst st1.
  destruct o1 as [[]|m|].
  - specialize (Hret eq_refl). rewrite Hret.
    unfold describeInstance, bind, getFlags in H. rewrite emit_record in H.
    cbn [flags record] in H.
    destruct (Instances_Get W svc _ _ _) as [err|inst].
    + injection H as <- <-. rewrite record_record, added_record.
      rewrite requests_app, polls_app, fetches_app, Hr, Hf. cbn.
      rewrite Nat.add_0_r. repeat split; reflexivity.
    + unfold Printf in H. rewrite emit_record, !record_record in H.
      injection H as <- <-. rewrite added_record.
      rewrite !requests_app, !polls_app, !fetches_app, Hr, Hf. cbn.
      rewrite Nat.add_0_r. repeat split; reflexivity.
  - injection H as <- <-. rewrite added_record, Hr, Hf, app_nil_r.
    destruct (reachesFetch answers); [discriminate (Ho eq_refl)|].
    repeat split; try reflexivity; discriminate.
  - injection H as <- <-. rewrite added_record, Hr, Hf, app_nil_r.
    destruct (reachesFetch answers); [discriminate (Ho eq_refl)|].
    repeat split; try reflexivity; discriminate.
Qed.

(** [X14] In [awaitOperation] the instance is fetched at most once, and
    exactly when the first answer that is neither PENDING nor RUNNING is a
    DONE without an error object: never after a failed request, an unknown
    status or a failed operation, and never while the answers are all
    PENDING or RUNNING.  All status requests come before the fetch, and a
    normal return implies the fetch was made. *)
Theorem fetch_only_after_success (W : World) (svc : compute.Service)
    (opName : string) (answers : list (error + compute.Operation.t)) (st : State) :
  let r := awaitOperation W svc opName answers st in
  let evs := added st (snd r) in
  fetches evs = (if reachesFetch answers then 1 else 0)
  /\ requests evs = replicate (polls evs) 4 ++ replicate (fetches evs) 5
  /\ (fst r = Ret tt -> reachesFetch answers = true).
Proof.
  intros r evs. subst evs. destruct r as [o st'] eqn:E. cbn [fst snd].
  exact (fetch_only_after_success_run W svc opName answers st st' o E).
Qed.

(** ** The run as a whole *)

Lemma main_provision (L : GoLib) (W : World) :
  main L W
  = bind (connect L W) (fun c => let '(svc, prefix, machType) := c in
                                 provision L W svc prefix machType).
Proof. reflexivity. Qed.

Section Records.

Lemma records_ret {A} (P : list nat -> Prop) (a : A) : P [] -> records P (ret a).
Proof. intros HP st o st' [= <- <-]. exists []. by rewrite record_nil. Qed.

Lemma records_fatal {A} (P : list nat -> Prop) (m : FatalMsg) :
  P [] -> records P (@fatal A m).
Proof. intros HP st o st' [= <- <-]. exists []. by rewrite record_nil. Qed.

Lemma records_getFlags (P : list nat -> Prop) : P [] -> records P getFlags.
Proof. intros HP st o st' [= <- <-]. exists []. by rewrite record_nil. Qed.

Lemma records_weaken {A} (P P' : list nat -> Prop) (m : M A) :
  (forall l, P l -> P' l) -> records P m -> records P' m.
Proof.
  intros HPP Hm st o st' H. destruct (Hm _ _ _ H) as (evs & E & HP).
  exists evs. split; [exact E | by apply HPP].
Qed.

Lemma records_bind {A B} (P1 P2 : list nat -> Prop) (m : M A) (k : A -> M B) :
  records P1 m -> (forall a, records P2 (k a)) -> P2 [] ->
  records (andThen P1 P2) (bind m k).
Proof.
  intros Hm Hk Hnil st o st' H.
  apply bind_inv in H as (o1 & st1 & H1 & H2).
  destruct (Hm _ _ _ H1) as (e1 & -> & HP1).
  destruct o1 as [a|msg|].
  - destruct (Hk a _ _ _ H2) as (e2 & -> & HP2).
    exists (e1 ++ e2). rewrite record_record. split; [reflexivity|].
    exists (requests e1), (requests e2). by rewrite requests_app.
  - destruct H2 as [_ ->]. exists e1. split; [reflexivity|].
    exists (requests e1), []. by rewrite app_nil_r.
  - destruct H2 as [_ ->]. exists e1. split; [reflexivity|].
    exists (requests e1), []. by rewrite app_nil_r.
Qed.

Lemma andThen_within (p q : list nat) (l : list nat) :
  andThen (within p) (within q) l -> within (p ++ q) l.
Proof. intros (l1 & l2 & -> & H1 & H2). by apply sublist_app. Qed.

Lemma within_nil (p : list nat) : within p [].
Proof. apply sublist_nil_l. Qed.

End Records.

Ltac within_done :=
  unfold within; cbn; first [reflexivity | apply sublist_nil_l].

Lemma records_resolveNatIP (W : World) (svc : compute.Service) :
  records (within [1]) (resolveNatIP W svc).
Proof.
  intros st o st' H. unfold resolveNatIP, bind, getFlags in H.
  destruct (staticIP (flags st) =? "").
  - rewrite emit_record in H. eexists. 
    destruct (Addresses_AggregatedList W svc (proj (flags st))); injection H as <- <-;
      (split; [reflexivity | within_done]).
  - injection H as <- <-. exists []. rewrite record_nil. split; [reflexivity|].
    apply within_nil.
Qed.

Lemma records_renderCloudConfig (L : GoLib) (W : World) :
  records (within []) (renderCloudConfig L W).
Proof.
  intros st o st' H. exists []. rewrite record_nil. split; [|within_done].
  unfold renderCloudConfig, readFile, ReadFile, bind, getFlags, ret, fatal in H.
  destruct (negb (sshPub (flags st) =? "")).
  - destruct (files st !! sshPub (flags st)).
    + destruct (Getenv W "USER" =? "bradfitz"); by injection H as <- <-.
    + by injection H as <- <-.
  - destruct (Getenv W "USER" =? "bradfitz"); by injection H as <- <-.
Qed.

Lemma records_checkCloudConfig (cloudConfig : string) :
  records (within []) (checkCloudConfig cloudConfig).
Proof.
  intros st o st' H. exists []. rewrite record_nil. split; [|within_done].
  unfold checkCloudConfig, ret, fatal in H.
  destruct (len cloudConfig >? maxCloudConfig)%Z; by injection H as <- <-.
Qed.

Lemma records_buildInstance (L : GoLib) (W : World) (svc : compute.Service)
    (prefix machType natIP cloudConfig : string) :
  records (within [2]) (buildInstance L W svc prefix machType natIP cloudConfig).
Proof.
  intros st o st' H. unfold buildInstance, instanceDisk, bind, getFlags, ret, fatal in H.
  destruct (reuseDisk (flags st)).
  - rewrite emit_record in H. cbn [flags record] in H.
    destruct (Disks_List W svc (proj (flags st)) (zone (flags st))) as [err|dl].
    + injection H as <- <-. eexists. split; [reflexivity | within_done].
    + destruct (diskLoop _ dl); injection H as <- <-; eexists;
        (split; [reflexivity | within_done]).
  - injection H as <- <-. exists []. rewrite record_nil. split; [reflexivity | within_done].
Qed.

Lemma records_createInstance (W : World) (svc : compute.Service)
    (instance : compute.Instance.t) :
  records (within [3]) (createInstance W svc instance).
Proof.
  intros st o st' H. unfold createInstance, bind, getFlags, Printf, ret, fatal in H.
  rewrite !emit_record in H. cbn [flags record] in H.
  destruct (Instances_Insert W svc (proj (flags st)) (zone (flags st)) instance)
    as [err|op].
  - injection H as <- <-. rewrite record_record. eexists.
    split; [reflexivity | within_done].
  - rewrite emit_record, !record_record in H. injection H as <- <-. eexists.
    split; [reflexivity | within_done].
Qed.

Lemma records_awaitOperation (W : World) (svc : compute.Service) (opName : string)
    (answers : list (error + compute.Operation.t)) :
  records pollsThenFetch (awaitOperation W svc opName answers).
Proof.
  intros st o st' H. unfold awaitOperation, bind in H.
  destruct (OpLoop_shape svc opName answers st) as (evs & Hs & Hr & _).
  destruct (OpLoop svc opName answers st) as [o1 st1]. cbn [snd] in Hs. subst st1.
  destruct o1 as [[]|m|].
  - unfold describeInstance, bind, getFlags, Printf, fatal in H.
    rewrite emit_record in H. cbn [flags record] in H.
    destruct (Instances_Get W svc _ _ _) as [err|inst].
    + injection H as <- <-. rewrite record_record. eexists. split; [reflexivity|].
      exists (polls evs). rewrite requests_app, Hr. reflexivity.
    + rewrite emit_record, !record_record in H. injection H as <- <-.
      eexists. split; [reflexivity|].
      exists (polls evs). rewrite !requests_app, Hr. reflexivity.
  - injection H as <- <-. exists evs. split; [reflexivity|].
    exists (polls evs). rewrite Hr. apply sublist_inserts_r. reflexivity.
  - injection H as <- <-. exists evs. split; [reflexivity|].
    exists (polls evs). rewrite Hr. apply sublist_inserts_r. reflexivity.
Qed.

Lemma records_seq {A B} (p : list nat) (q : nat -> list nat) (m : M A) (k : A -> M B) :
  records (within p) m ->
  (forall a, records (fun l => exists n, sublist l (q n)) (k a)) ->
  records (fun l => exists n, sublist l (p ++ q n)) (bind m k).
Proof.
  intros Hm Hk.
  eapply records_weaken; [|apply (records_bind _ _ _ _ Hm Hk)].
  - intros l (l1 & l2 & -> & H1 & n & H2). exists n. by apply sublist_app.
  - exists 0. apply sublist_nil_l.
Qed.

(** After [connect], a run only appends events, and its requests come in
    the order: listing of addresses, listing of disks, insert, status
    requests, fetch. *)
Lemma records_provision (L : GoLib) (W : World) (svc : compute.Service)
    (prefix machType : string) :
  records (fun l => exists n, sublist l ([1; 2; 3] ++ replicate n 4 ++ [5]))
    (provision L W svc prefix machType).
Proof.
  unfold provision.
  apply (records_seq [1] (fun n => [2; 3] ++ replicate n 4 ++ [5]));
    [apply records_resolveNatIP | intros natIP].
  apply (records_seq [] (fun n => [2; 3] ++ replicate n 4 ++ [5]));
    [apply records_renderCloudConfig | intros cloudConfig].
  apply (records_seq [] (fun n => [2; 3] ++ replicate n 4 ++ [5]));
    [apply records_checkCloudConfig | intros _].
  apply (records_seq [2] (fun n => [3] ++ replicate n 4 ++ [5]));
    [apply records_buildInstance | intros instance].
  apply (records_seq [3] (fun n => replicate n 4 ++ [5]));
    [apply records_createInstance | intros opName].
  apply (records_seq [] (fun n => replicate n 4 ++ [5]));
    [apply records_getFlags; within_done | intros f].
  apply records_awaitOperation.
Qed.

(** [Token] only reads. *)
Lemma Token_read_only (L : GoLib) (f : tokenCacheFile) (st : State) :
  exists r, tokenCacheFile_Token L f st = (Ret r, st).
Proof.
  unfold tokenCacheFile_Token, bind, ReadFile, ret.
  match goal with
  | |- context [match ?x with Some _ => _ | None => _ end] => destruct x as [data|]
  end.
  - destruct (json_Unmarshal L data) as [e|t]; [exists (inl e) | exists (inr t)];
      reflexivity.
  - eexists. reflexivity.
Qed.

(** [tokenSource] in outline. *)
Lemma tokenSource_shape (L : GoLib) (W : World) (st st' : State)
    (o : Outcome (option TokenSource)) :
  tokenSource L W st = (o, st') ->
  flags st' = flags st
  /\ (exists evs, trace st' = trace st ++ evs /\ sublist (requests evs) [0])
  /\ takenOff (stdin st) (stdin st')
  /\ wroteAtMost (tokenFileOf (flags st)) (files st) (files st')
  /\ (forall d, DefaultTokenSource W = inr d -> st' = st).
Proof.
  intros H.
  assert (Hsame : st' = st ->
            flags st' = flags st
            /\ (exists evs, trace st' = trace st ++ evs /\ sublist (requests evs) [0])
            /\ takenOff (stdin st) (stdin st')
            /\ wroteAtMost (tokenFileOf (flags st)) (files st) (files st')).
  { intros ->. split; [reflexivity|].
    split; [|split; [apply takenOff_refl | by left]].
    exists []. rewrite app_nil_r. split; [done|]. apply sublist_nil_l. }
  destruct (DefaultTokenSource W) as [err|d] eqn:Hd.
  2: { unfold tokenSource in H. rewrite Hd in H. injection H as <- <-.
       destruct (Hsame eq_refl) as (? & ? & ? & ?). repeat split; auto. }
  assert (Hgoal :
            flags st' = flags st
            /\ (exists evs, trace st' = trace st ++ evs /\ sublist (requests evs) [0])
            /\ takenOff (stdin st) (stdin st')
            /\ wroteAtMost (tokenFileOf (flags st)) (files st) (files st')).
  2: { destruct Hgoal as (? & ? & ? & ?). repeat split; auto. intros d [=]. }
  destruct (files st !! clientIDFile (flags st)) as [a|] eqn:Ha.
  2: { apply Hsame. unfold tokenSource in H. rewrite Hd in H.
       unfold stagingPrefix, readFile, ReadFile, bind, getFlags, ret, fatal in H.
       fold_files st. revert H. fold_files st. rewrite Ha. by intros [= <- <-]. }
  destruct (files st !! clientSecretFile (flags st)) as [b|] eqn:Hb.
  2: { apply Hsame. unfold tokenSource in H. rewrite Hd in H.
       unfold stagingPrefix, readFile, ReadFile, bind, getFlags, ret, fatal in H.
       revert H. fold_files st. rewrite Ha. fold_files st. rewrite Hb.
       by intros [= <- <-]. }
  destruct (Token_read_only L (tokenFileOf (flags st)) st) as ([err0|t] & Ht).
  - rewrite (tokenSource_prompt L W st err err0 a b Hd Ha Hb) in H
      by (rewrite Ht; reflexivity).
    cbv zeta in H.
    assert (Hst1 : forall input evs jt,
              takenOff (stdin st) input ->
              sublist (requests evs) [0] ->
              (st' = record evs (withStdin input st)
               \/ st' = withFile (tokenFileOf (flags st)) jt
                          (record evs (withStdin input st))) ->
              flags st' = flags st
              /\ (exists evs, trace st' = trace st ++ evs /\ sublist (requests evs) [0])
              /\ takenOff (stdin st) (stdin st')
              /\ wroteAtMost (tokenFileOf (flags st)) (files st) (files st')).
    { intros input evs jt Hin Hsub [-> | ->]; cbn [flags files stdin trace record
                                                     withStdin withFile];
        (split; [reflexivity|]); (split; [by exists evs|]); (split; [exact Hin|]).
      - by left.
      - right. by exists jt. }
    pose proof (takenOff_afterScan W st) as Hscan.
    destruct (Exchange W _ _) as [e|token].
    + injection H as <- <-. eapply (Hst1 _ _ ""); [exact Hscan | | by left]. within_done.
    + destruct (json_Marshal L token) as [e|jt].
      * injection H as <- <-.
        eapply (Hst1 _ _ ""); [exact Hscan | | by left]. within_done.
      * destruct (WriteFile_error W (tokenFileOf (flags st))) as [e|].
        -- destruct (WriteFile_written W (tokenFileOf (flags st)) jt) as [n|];
             injection H as <- <-.
           ++ eapply (Hst1 _ _ (takeBytes n jt)); [exact Hscan | | by right].
              within_done.
           ++ eapply (Hst1 _ _ ""); [exact Hscan | | by left]. within_done.
        -- injection H as <- <-.
           eapply (Hst1 _ _ jt); [exact Hscan | | by right]. within_done.
  - apply Hsame. unfold tokenSource in H. rewrite Hd in H.
    unfold reuseTokenSource_Token, stagingPrefix, readFile, bind, getFlags, ret in H.
    unfold ReadFile at 1 2 in H.
    revert H. fold_files st. rewrite Ha. fold_files st. rewrite Hb. fold_files st.
    rewrite Ht. by intros [= <- <-].
Qed.

(** [adjustFlags] touches nothing but the flags, and not the staging flag. *)
Lemma adjustFlags_quiet (st st' : State) (o : Outcome unit) :
  adjustFlags st = (o, st') ->
  trace st' = trace st /\ files st' = files st /\ stdin st' = stdin st
  /\ staging (flags st') = staging (flags st).
Proof.
  destruct st as [[p z m i k ip r s c g] fs input tr].
  unfold adjustFlags, bind, getFlags, modifyFlags, ret, fatal.
  simpl. intros H.
  repeat match type of H with
         | context [if ?b then _ else _] => destruct b eqn:?
         end; simpl in *; injection H as <- <-; simpl; auto.
Qed.

(** [connect] in outline. *)
Lemma connect_shape (L : GoLib) (W : World) (st st' : State)
    (o : Outcome (compute.Service * string * string)) :
  connect L W st = (o, st') ->
  (exists evs, trace st' = trace st ++ evs /\ sublist (requests evs) [0])
  /\ takenOff (stdin st) (stdin st')
  /\ wroteAtMost (tokenFileOf (flags st)) (files st) (files st')
  /\ (forall d, DefaultTokenSource W = inr d ->
        files st' = files st /\ stdin st' = stdin st).
Proof.
  unfold connect. intros H.
  apply bind_inv in H as (o1 & st1 & H1 & H2).
  destruct (adjustFlags_quiet _ _ _ H1) as (Htr & Hfs & Hin & Hst).
  assert (Hquiet :
            st' = st1 ->
            (exists evs, trace st' = trace st ++ evs /\ sublist (requests evs) [0])
            /\ takenOff (stdin st) (stdin st')
            /\ wroteAtMost (tokenFileOf (flags st)) (files st) (files st')
            /\ (forall d, DefaultTokenSource W = inr d ->
                  files st' = files st /\ stdin st' = stdin st)).
  { intros ->. rewrite Htr, Hfs, Hin.
    split; [|split; [apply takenOff_refl | split; [by left | auto]]].
    exists []. rewrite app_nil_r. split; [done | apply sublist_nil_l]. }
  destruct o1 as [[]|m|]; [|by destruct H2 as [_ ->]; auto..].
  unfold bind, getFlags in H2.
  destruct (tokenSource L W st1) as [o2 st2] eqn:Hts.
  destruct (tokenSource_shape L W _ _ _ Hts) as (_ & (evs & Hev & Hsub) & Hin2 & Hfs2 & Hd).
  assert (Est : st' = st2).
  { destruct o2 as [ts|m|]; unfold ret in H2; by injection H2 as <- <-. }
  subst st'. rewrite Hev, Htr. split; [by exists evs|].
  split; [by rewrite <- Hin|].
  split.
  - rewrite <- Hfs.
    replace (tokenFileOf (flags st)) with (tokenFileOf (flags st1)); [exact Hfs2|].
    unfold tokenFileOf, credPrefix. by rewrite Hst.
  - intros d Hdef. rewrite (Hd d Hdef). by split.
Qed.

Lemma main_requests_in_order_run (L : GoLib) (W : World) (st st' : State)
    (o : Outcome unit) :
  main L W st = (o, st') ->
  exists n, sublist (requests (added st st')) ([0; 1; 2; 3] ++ replicate n 4 ++ [5]).
Proof.
  rewrite main_provision. intros H.
  apply bind_inv in H as (o1 & st1 & H1 & H2).
  destruct (connect_shape _ _ _ _ _ H1) as ((e1 & He1 & Hs1) & _).
  assert (Hadd1 : added st st1 = e1).
  { unfold added. by rewrite He1, drop_app_length. }
  destruct o1 as [[[svc prefix] machType]|m|].
  - destruct (records_provision L W svc prefix machType _ _ _ H2) as (e2 & -> & n & Hs2).
    exists n. unfold added, record. cbn [trace].
    rewrite He1, <- app_assoc, drop_app_length, requests_app.
    change ([0; 1; 2; 3] ++ replicate n 4 ++ [5])
      with ([0] ++ [1; 2; 3] ++ replicate n 4 ++ [5]).
    by apply sublist_app.
  - destruct H2 as [_ ->]. exists 0. rewrite Hadd1.
    change ([0; 1; 2; 3] ++ replicate 0 4 ++ [5]) with ([0] ++ [1; 2; 3; 5]).
    by apply sublist_inserts_r.
  - destruct H2 as [_ ->]. exists 0. rewrite Hadd1.
    change ([0; 1; 2; 3] ++ replicate 0 4 ++ [5]) with ([0] ++ [1; 2; 3; 5]).
    by apply sublist_inserts_r.
Qed.

(** [X15] In every run of [main] the requests are issued in this order:
    the token exchange, the listing of addresses, the listing of disks, the
    insert, the status requests, the fetch of the instance.  Each but the
    status request is issued at most once; in particular a run never issues
    two inserts, never lists after the insert and never polls or fetches
    before it. *)
Theorem main_requests_in_order (L : GoLib) (W : World) (st : State) :
  exists n,
    sublist (requests (added st (snd (main L W st))))
      ([0; 1; 2; 3] ++ replicate n 4 ++ [5]).
Proof.
  destruct (main L W st) as [o st'] eqn:E. cbn [snd].
  exact (main_requests_in_order_run L W st st' o E).
Qed.

Lemma main_touches_only_token_cache_run (L : GoLib) (W : World) (st st' : State)
    (o : Outcome unit) :
  main L W st = (o, st') ->
  wroteAtMost (tokenFileOf (flags st)) (files st) (files st')
  /\ takenOff (stdin st) (stdin st')
  /\ (forall d, DefaultTokenSource W = inr d ->
        files st' = files st /\ stdin st' = stdin st).
Proof.
  rewrite main_provision. intros H.
  apply bind_inv in H as (o1 & st1 & H1 & H2).
  destruct (connect_shape _ _ _ _ _ H1) as (_ & Hin & Hfs & Hd).
  assert (E : files st' = files st1 /\ stdin st' = stdin st1).
  { destruct o1 as [[[svc prefix] machType]|m|].
    - by destruct (records_provision L W svc prefix machType _ _ _ H2) as (e2 & -> & _).
    - by destruct H2 as [_ ->].
    - by destruct H2 as [_ ->]. }
  destruct E as [-> ->]. auto.
Qed.

(** [X16] The only write of a run of [main] is at most one, to the token
    cache of its credential prefix, and what it takes off standard input is
    what one [Scan] takes: a prefix of at most 65536 bytes.  When default
    credentials are found it writes no file at all and reads no input. *)
Theorem main_touches_only_token_cache (L : GoLib) (W : World) (st : State) :
  let st' := snd (main L W st) in
  wroteAtMost (tokenFileOf (flags st)) (files st) (files st')
  /\ takenOff (stdin st) (stdin st')
  /\ (forall d, DefaultTokenSource W = inr d ->
        files st' = files st /\ stdin st' = stdin st).
Proof.
  intros st'. subst st'. destruct (main L W st) as [o st'] eqn:E. cbn [snd].
  exact (main_touches_only_token_cache_run L W st st' o E).
Qed.

(** [connect] returns only when the project is not empty. *)
Lemma adjustFlags_returns (st st' : State) :
  adjustFlags st = (Ret tt, st') -> proj (flags st) <> "".
Proof.
  destruct st as [[p z m i k ip r s c g] fs input tr].
  unfold adjustFlags, bind, getFlags, modifyFlags, ret, fatal.
  simpl. intros H Hp. subst p.
  repeat match type of H with
         | context [if ?b then _ else _] => destruct b eqn:?
         end; simpl in *; discriminate.
Qed.

(** [X17] With a project that is not empty, [connect] is [tokenSource] run
    on the adjusted flags: it fails exactly as [tokenSource] does, and when
    that returns, the URL prefix is the one of the project after the staging
    default, the machine type URL lies under that prefix, in the zone and
    for the machine type of the flags, the flags are the adjusted ones, and
    the service carries the token source returned, which is the default
    source when one was found and nil otherwise. *)
Theorem connect_result (L : GoLib) (W : World) (st : State) :
  proj (flags st) <> "" ->
  let f := flags st in
  let prefix := "https://www.googleapis.com/compute/v1/projects/" +:+ effectiveProject f in
  let machType := prefix +:+ "/zones/" +:+ zone f +:+ "/machineTypes/" +:+ mach f in
  let r := tokenSource L W (withFlags (adjustedFlags f) st) in
  connect L W st
  = (match fst r with
     | Ret ts => Ret ({| compute.client := ts |}, prefix, machType)
     | Exit m => Exit m
     | Waiting => Waiting
     end, snd r)
  /\ flags (snd r) = adjustedFlags f
  /\ (forall ts, fst r = Ret ts ->
        ts = match DefaultTokenSource W with
             | inr d => Some d
             | inl _ => None
             end).
Proof.
  intros Hp f prefix machType r. subst r prefix machType f.
  unfold connect, bind. rewrite (adjustFlags_run st Hp). unfold getFlags.
  destruct (tokenSource L W (withFlags (adjustedFlags (flags st)) st)) as [o st1] eqn:E.
  cbn [fst snd].
  destruct (frame_tokenSource L W sameFlags _ _ _ E) as [Hf _].
  destruct (frame_tokenSource_value L W sameFlags _ _ _ E) as [_ Hv].
  split; [|split].
  - destruct o; reflexivity.
  - exact Hf.
  - intros ts ->. specialize (Hv ts eq_refl).
    destruct (DefaultTokenSource W); exact Hv.
Qed.

(** ** Runs of the properties above *)

Lemma main_missing_project_witness :
  exists st',
    main Demo.lib Demo.plain Demo.noProject = (Exit Fatal_MissingProject, st')
    /\ trace st' = trace Demo.noProject /\ files st' = files Demo.noProject
    /\ stdin st' = stdin Demo.noProject.
Proof. apply (main_missing_project Demo.lib Demo.plain Demo.noProject). reflexivity. Defined.

Lemma adjustFlags_closed_form_witness :
  (adjustFlags Demo.stagingOwn
   = (Ret tt, withFlags (adjustedFlags Demo.stagingFlags) Demo.stagingOwn)
   /\ adjustFlags (withFlags (adjustedFlags Demo.stagingFlags) Demo.stagingOwn)
      = (Ret tt, withFlags (adjustedFlags Demo.stagingFlags) Demo.stagingOwn))
  /\ proj (adjustedFlags Demo.stagingFlags) = "my-project"
  /\ coordinator (adjustedFlags Demo.stagingFlags)
     = "https://storage.googleapis.com/dev-go-builder-data/coordinator".
Proof.
  split; [|split; reflexivity].
  apply (adjustFlags_closed_form Demo.stagingOwn). simpl. discriminate.
Defined.

Lemma tokenSource_needs_client_files_witness :
  tokenSource Demo.lib Demo.interactive Demo.start
  = (Exit (Fatal_ReadFile "client-id.dat"
             "open client-id.dat: no such file or directory"), Demo.start)
  /\ tokenSource Demo.lib Demo.interactive Demo.onlyClientID
     = (Exit (Fatal_ReadFile "client-secret.dat"
                "open client-secret.dat: no such file or directory"), Demo.onlyClientID).
Proof.
  split.
  - apply (tokenSource_needs_client_files Demo.lib Demo.interactive Demo.start
             Demo.noCredentials eq_refl).
    reflexivity.
  - apply (tokenSource_needs_client_files Demo.lib Demo.interactive Demo.onlyClientID
             Demo.noCredentials eq_refl) with (a := Demo.clientIDData); reflexivity.
Defined.

Lemma tokenSource_cached_witness :
  tokenSource Demo.lib Demo.interactive Demo.cached = (Ret None, Demo.cached).
Proof.
  apply (tokenSource_cached Demo.lib Demo.interactive Demo.cached Demo.noCredentials
           Demo.clientIDData Demo.clientSecretData Demo.tokenJSON Demo.token);
    reflexivity.
Defined.

Lemma tokenSource_prompt_failures_witness :
  (fst (tokenSource Demo.lib Demo.interactive Demo.atEOF)
   = Exit (Fatal_Exchange "oauth2: cannot fetch token")
   /\ files (snd (tokenSource Demo.lib Demo.interactive Demo.atEOF)) = Demo.clientFiles
   /\ length (added Demo.atEOF (snd (tokenSource Demo.lib Demo.interactive Demo.atEOF)))
      = 4)
  /\ (fst (tokenSource Demo.lib Demo.diskFull Demo.atPrompt)
      = Exit (Fatal_WriteToken "token.dat" "write token.dat: no space left on device")
      /\ files (snd (tokenSource Demo.lib Demo.diskFull Demo.atPrompt)) !! "token.dat"
         = Some (takeBytes 10 Demo.tokenJSON)).
Proof.
  split.
  - destruct (tokenSource_prompt_failures Demo.lib Demo.interactive Demo.atEOF
                Demo.noCredentials Demo.noTokenFile Demo.clientIDData
                Demo.clientSecretData eq_refl eq_refl eq_refl eq_refl)
      as (Hadd & Hex & _ & _).
    destruct (Hex "oauth2: cannot fetch token" eq_refl) as [Hf Hfs].
    split; [exact Hf|]. split; [exact Hfs|]. rewrite Hadd. reflexivity.
  - destruct (tokenSource_prompt_failures Demo.lib Demo.diskFull Demo.atPrompt
                Demo.noCredentials Demo.noTokenFile Demo.clientIDData
                Demo.clientSecretData eq_refl eq_refl eq_refl eq_refl)
      as (_ & _ & _ & Hw).
    destruct (Hw Demo.token Demo.tokenJSON "write token.dat: no space left on device"
                eq_refl eq_refl eq_refl) as [Hf Hfs].
    split; [exact Hf | exact Hfs].
Defined.

Lemma tokenSource_second_run_uses_cache_witness :
  exists st',
    tokenSource Demo.lib Demo.interactive Demo.atPrompt = (Ret None, st')
    /\ files st' !! "token.dat" = Some Demo.tokenJSON
    /\ tokenSource Demo.lib Demo.interactive st' = (Ret None, st').
Proof.
  apply (tokenSource_second_run_uses_cache Demo.lib Demo.interactive Demo.atPrompt
           Demo.noCredentials Demo.noTokenFile Demo.clientIDData Demo.clientSecretData
           Demo.tokenJSON Demo.token); reflexivity.
Defined.

Lemma written_cache_reads_back_witness :
  exists st',
    tokenCacheFile_WriteToken Demo.lib Demo.plain "token.dat" Demo.illFormed Demo.start
    = (Ret None, st')
    /\ files st' !! "token.dat" = Some Demo.illFormedJSON
    /\ tokenCacheFile_Token Demo.lib "token.dat" st'
       = (Ret (inr (readBack Demo.illFormed)), st').
Proof.
  apply (written_cache_reads_back Demo.lib Demo.plain "token.dat" Demo.illFormed
           Demo.illFormedJSON Demo.start); reflexivity.
Defined.

Lemma resolveNatIP_requests_witness :
  snd (resolveNatIP Demo.reserved Demo.service Demo.elsewhere)
  = record [EvCall (Call_AddressesAggregatedList Demo.service "my-project")]
      Demo.elsewhere.
Proof.
  apply (proj1 (resolveNatIP_requests Demo.lib Demo.reserved Demo.elsewhere
                  Demo.elsewhere Demo.service
                  "https://www.googleapis.com/compute/v1/projects/my-project"
                  "https://www.googleapis.com/compute/v1/projects/my-project/zones/us-central1-f/machineTypes/n1-standard-4"
                  eq_refl)).
Defined.

Lemma OpLoop_passes_over_running_witness :
  OpLoop Demo.service "operation-1"
    (map inr [Demo.pending; Demo.running] ++ [inr Demo.finished]) Demo.start
  = OpLoop Demo.service "operation-1" [inr Demo.finished]
      (record (waitingEvents Demo.service defaultFlags "operation-1" 2) Demo.start).
Proof.
  apply (OpLoop_passes_over_running Demo.service "operation-1"
           [Demo.pending; Demo.running] [inr Demo.finished] Demo.start).
  constructor; [left; reflexivity|].
  constructor; [right; reflexivity|]. constructor.
Defined.

Lemma OpLoop_stops_at_failure_witness :
  exists st',
    OpLoop Demo.service "operation-1"
      (map inr [Demo.pending] ++ inl "timeout" :: [inr Demo.finished]) Demo.start
    = (Exit (Fatal_GetOp "operation-1" "timeout"), st')
    /\ polls (added Demo.start st') = 2
    /\ fetches (added Demo.start st') = 0.
Proof.
  apply (OpLoop_stops_at_failure Demo.service "operation-1" [Demo.pending]
           (inl "timeout") [inr Demo.finished] Demo.start).
  - constructor; [left; reflexivity | constructor].
  - exact I.
Defined.

Lemma connect_result_witness :
  connect Demo.lib Demo.plain Demo.stagingOwn
  = (Ret (Demo.service,
          "https://www.googleapis.com/compute/v1/projects/my-project",
          "https://www.googleapis.com/compute/v1/projects/my-project/zones/us-central1-f/machineTypes/n1-standard-4"),
     withFlags (adjustedFlags Demo.stagingFlags) Demo.stagingOwn).
Proof.
  apply (proj1 (connect_result Demo.lib Demo.plain Demo.stagingOwn
                  ltac:(simpl; discriminate))).
Defined.

Lemma cloudConfig_size_limit_witness :
  exists cfg,
    len cfg = 680%Z
    /\ (checkCloudConfig cfg Demo.start = (Ret tt, Demo.start) <-> (58 <= 32146)%Z).
Proof.
  eexists.
  apply (cloudConfig_size_limit Demo.lib Demo.plain Demo.start Demo.start).
  reflexivity.
Defined.

(** ** The insert request *)

Lemma filter_isInsert_none (evs : list Event) :
  Forall (fun e => isInsert e = false) evs -> List.filter isInsert evs = [].
Proof.
  induction 1 as [|e evs He _ IH]; [reflexivity|]. simpl. by rewrite He.
Qed.

Lemma notInsert_frame : Frame (appends (fun e => isInsert e = false)).
Proof. by apply appends_frame. Qed.

(** [X18] When the run gets as far as the instance literal (the client is
    set up, the address is resolved, the user data is rendered within the
    limit and the disk is resolved), [main] issues exactly one insert
    request.  It is addressed to the project after the staging default and
    to the zone of the flags, and it carries the instance named by the
    instance-name flag, with the machine type URL and the network of the
    URL prefix, the one disk resolved, the resolved address in its one
    access configuration, and the rendered user data as its one metadata
    item. *)
Theorem main_insert_request (L : GoLib) (W : World) (st st1 st2 st3 st4 : State)
    (svc : compute.Service) (prefix machType natIP cfg : string)
    (disk : compute.AttachedDisk.t) :
  connect L W st = (Ret (svc, prefix, machType), st1) ->
  resolveNatIP W svc st1 = (Ret natIP, st2) ->
  renderCloudConfig L W st2 = (Ret cfg, st3) ->
  (len cfg <= 32768)%Z ->
  instanceDisk W svc st3 = (Ret disk, st4) ->
  let f := flags st in
  List.filter isInsert (added st (snd (main L W st)))
  = [EvCall (Call_InstancesInsert svc (effectiveProject f) (zone f)
               (instanceOf L (instName f) prefix machType natIP cfg disk))].
Proof.
  intros Hc Hn Hr Hlen Hd f. subst f.
  set (Q := fun e => isInsert e = false).
  assert (HQ : forall e, isInsert e = false -> Q e) by done.
  destruct (connect_flags _ _ _ _ _ _ _ Hc) as (Hp & Hz & Hi & _).
  destruct (frame_resolveNatIP W sameFlags svc _ _ _ Hn) as [F2 _].
  destruct (frame_renderCloudConfig L W sameFlags _ _ _ Hr) as [F3 _].
  destruct (frame_instanceDisk W sameFlags svc _ _ _ Hd) as [F4 _].
  unfold sameFlags in F2, F3, F4.
  destruct (appends_connect L W Q HQ _ _ _ Hc) as [A1 _].
  destruct (frame_resolveNatIP W (appends Q) (Frame0 := notInsert_frame) svc _ _ _ Hn)
    as [A2 _].
  destruct (frame_renderCloudConfig L W (appends Q) (Frame0 := notInsert_frame) _ _ _ Hr)
    as [A3 _].
  destruct (frame_instanceDisk W (appends Q) (Frame0 := notInsert_frame) svc _ _ _ Hd)
    as [A4 _].
  assert (A : appends Q st st4).
  { etransitivity; [exact A1|]. etransitivity; [exact A2|].
    etransitivity; [exact A3 | exact A4]. }
  destruct A as (pre & Hpre & Fpre).
  unfold main, bind. rewrite Hc, Hn, Hr.
  assert (Hck : checkCloudConfig cfg st3 = (Ret tt, st3)).
  { unfold checkCloudConfig. change maxCloudConfig with 32768%Z.
    destruct (len cfg >? 32768)%Z eqn:Hgt; [lia | reflexivity]. }
  rewrite Hck. unfold buildInstance, bind, getFlags. rewrite Hd. unfold ret.
  rewrite F3, F2, Hi.
  change {| compute.Instance.Name := instName (flags st);
            compute.Instance.Description := "Go Builder";
            compute.Instance.MachineType := machType;
            compute.Instance.Disks := [disk];
            compute.Instance.Tags := Some ["http-server"; "https-server"; "allow-ssh"];
            compute.Instance.Metadata :=
              Some [{| compute.MetadataItems.Key := "user-data";
                       compute.MetadataItems.Value := Some cfg |}];
            compute.Instance.NetworkInterfaces :=
              [{| compute.NetworkInterface.AccessConfigs :=
                    [{| compute.AccessConfig.Type_ := "ONE_TO_ONE_NAT";
                        compute.AccessConfig.Name := "External NAT";
                        compute.AccessConfig.NatIP := natIP |}];
                  compute.NetworkInterface.Network :=
                    prefix +:+ "/global/networks/default" |}];
            compute.Instance.ServiceAccounts :=
              [{| compute.ServiceAccount.Email := "default";
                  compute.ServiceAccount.Scopes :=
                    [DevstorageFullControlScope L; ComputeScope L;
                     CloudPlatformScope L] |}] |}
    with (instanceOf L (instName (flags st)) prefix machType natIP cfg disk).
  set (inst := instanceOf L (instName (flags st)) prefix machType natIP cfg disk).
  unfold createInstance, bind, getFlags, Printf. rewrite !emit_record.
  cbn [flags record]. rewrite F4, F3, F2, Hp, Hz, record_record.
  set (ins := EvCall (Call_InstancesInsert svc (effectiveProject (flags st))
                        (zone (flags st)) inst)).
  assert (Hfin : forall evs st',
            Forall Q evs ->
            st' = record evs (record ([EvLog Log_CreatingInstance] ++ [ins]) st4) ->
            List.filter isInsert (added st st') = [ins]).
  { intros evs st' Fevs ->. unfold added, record. cbn [trace].
    rewrite Hpre, <- !app_assoc, drop_app_length, !List.filter_app.
    rewrite (filter_isInsert_none pre Fpre), (filter_isInsert_none evs Fevs).
    reflexivity. }
  destruct (Instances_Insert W svc (effectiveProject (flags st)) (zone (flags st)) inst)
    as [err|op].
  - unfold fatal. cbn [snd]. apply (Hfin []); [constructor | by rewrite record_nil].
  - rewrite emit_record, record_record. unfold ret.
    cbn [flags record].
    match goal with
    | |- context [awaitOperation W svc ?n ?a ?s] =>
        destruct (awaitOperation W svc n a s) as [o st'] eqn:E
    end.
    destruct (frame_awaitOperation W (appends Q) (Frame0 := notInsert_frame)
                svc _ _ _ _ _ E) as [(evs & Etr & Fevs) _].
    assert (Est : st' = record evs
                          (record (([EvLog Log_CreatingInstance] ++ [ins])
                                   ++ [EvLog (Log_CreatedWaiting (compute.Operation.Name op))])
                             st4)).
    { destruct (records_awaitOperation W svc _ _ _ _ _ E) as (evs' & E' & _).
      rewrite E' in Etr |- *. unfold record in Etr. cbn [trace] in Etr.
      apply app_inv_head in Etr. by subst evs'. }
    cbn [snd].
    apply (Hfin ([EvLog (Log_CreatedWaiting (compute.Operation.Name op))] ++ evs)).
    + apply Forall_app. split; [by repeat constructor | exact Fevs].
    + rewrite Est, !record_record, <- ?app_assoc. reflexivity.
Qed.

Lemma main_insert_request_witness :
  List.filter isInsert (added Demo.start (snd (main Demo.lib Demo.withDisk Demo.start)))
  = [EvCall
       (Call_InstancesInsert Demo.service "symbolic-datum-552" "us-central1-f"
          (instanceOf Demo.lib "farmer"
             "https://www.googleapis.com/compute/v1/projects/symbolic-datum-552"
             "https://www.googleapis.com/compute/v1/projects/symbolic-datum-552/zones/us-central1-f/machineTypes/n1-standard-4"
             "107.178.219.46"
             (userData "https://storage.googleapis.com/go-builder-data/coordinator"
                None false)
             (referenceDescriptor defaultFlags Demo.farmerDisk)))].
Proof.
  apply (main_insert_request Demo.lib Demo.withDisk Demo.start
           (withFlags (adjustedFlags defaultFlags) Demo.start)
           (withFlags (adjustedFlags defaultFlags) Demo.start)
           (withFlags (adjustedFlags defaultFlags) Demo.start)
           (record [EvCall (Call_DisksList Demo.service "symbolic-datum-552"
                              "us-central1-f")]
              (withFlags (adjustedFlags defaultFlags) Demo.start))).
  - reflexivity.
  - reflexivity.
  - reflexivity.
  - vm_compute. discriminate.
  - reflexivity.
Defined.
